(** * Tuition management backend: the domain rules of the REST controllers

    A shallow embedding of the Express/Mongoose backend: the batch roster,
    the attendance ledger, the assignment/submission workflow and the payment
    ledger.  Every controller is a function from the database and the request
    to a result and the database after the request.  Collections are lists of
    documents in insertion order; [ObjectId]s are natural numbers; instants
    are milliseconds on the server's local clock. *)

From Stdlib Require Import ZArith QArith List String Ascii Bool Lia Lqa.
From Stdlib Require Import DecimalString.
From Stdlib Require PrimFloat FloatOps SpecFloat Uint63.
Import ListNotations.

Local Open Scope string_scope.
Local Open Scope list_scope.
Local Open Scope Z_scope.

(** ** Values shared by the controllers *)

Definition ObjectId := nat.
Bind Scope nat_scope with ObjectId.

Inductive Role := role_admin | role_teacher | role_student.

Definition Role_eqb (a b : Role) : bool :=
  match a, b with
  | role_admin, role_admin | role_teacher, role_teacher
  | role_student, role_student => true
  | _, _ => false
  end.

(** [req.user], as the [protect] middleware attaches it. *)
Module Req.
Record user := mkUser { id : ObjectId; role : Role }.
End Req.

(** What a handler throws or hands to [next]: [ErrorResponse] carries the
    status code the controller chose; the others are raised by the runtime
    or by the persistence layer and reach [next] through [asyncHandler].
    Messages are given without the ids the source interpolates into them. *)
Inductive Failure :=
| ErrorResponse (message : string) (statusCode : Z)
| ValidationError (message : string)
| DuplicateKeyError
| TypeError (message : string)
| ReferenceError (message : string)
| Error (message : string).

Inductive Res (A : Type) :=
| Ok (a : A)
| Fail (e : Failure).
Arguments Ok {A} a.
Arguments Fail {A} e.

Definition isOk {A} (r : Res A) : bool :=
  match r with Ok _ => true | Fail _ => false end.

(** [Array.prototype.includes] on an array of ids (Mongoose compares the
    ids, whichever of the two sides is a string). *)
Definition includes (l : list ObjectId) (x : ObjectId) : bool :=
  existsb (Nat.eqb x) l.

(** [Array.prototype.findIndex]: the index of the first match. *)
Fixpoint findIndex {A} (f : A -> bool) (l : list A) : option nat :=
  match l with
  | [] => None
  | x :: l' =>
      if f x then Some O
      else match findIndex f l' with
           | Some i => Some (S i)
           | None => None
           end
  end.

(** [arr[i] = x] for an index inside the array. *)
Fixpoint setIndex {A} (i : nat) (x : A) (l : list A) : list A :=
  match l, i with
  | [], _ => []
  | _ :: l', O => x :: l'
  | y :: l', S i' => y :: setIndex i' x l'
  end.

(** [s || ''] on an optional string. *)
Definition orEmpty (s : option string) : string :=
  match s with Some v => v | None => "" end.

Definition maxlength (n : nat) (s : string) : bool :=
  Nat.leb (String.length s) n.

(** A collection of documents keyed by [_id]. *)
Section Collection.
Context {D : Type} (key : D -> ObjectId).

Definition findById (c : list D) (i : ObjectId) : option D :=
  find (fun d => Nat.eqb (key d) i) c.

(** [doc.save()] of a document that was loaded from the collection: the
    stored document with this [_id] is replaced. *)
Fixpoint save (c : list D) (d : D) : list D :=
  match c with
  | [] => []
  | x :: c' => if Nat.eqb (key x) (key d) then d :: c' else x :: save c' d
  end.

(** [doc.remove()]. *)
Definition remove (c : list D) (i : ObjectId) : list D :=
  filter (fun x => negb (Nat.eqb (key x) i)) c.
End Collection.

(** ** Documents, one module per Mongoose schema *)

(** [fee] holds a whole number.  [maxStudents] is a Number whose only
    validator is [min: 1], so fractions are stored as they come: a rational
    here. *)
Module Batch.
Record t := mk {
  _id : ObjectId;
  teacher : ObjectId;
  students : list ObjectId;
  fee : Z;
  maxStudents : Q;
  isActive : bool
}.

Definition with_students (b : t) (l : list ObjectId) : t :=
  mk (_id b) (teacher b) l (fee b) (maxStudents b) (isActive b).
End Batch.

Module Attendance.
Inductive Status := present | absent | late | excused.

Definition Status_eqb (a b : Status) : bool :=
  match a, b with
  | present, present | absent, absent | late, late | excused, excused => true
  | _, _ => false
  end.

(** The [enum] of the [status] path. *)
Definition status_enum (s : string) : option Status :=
  if String.eqb s "present" then Some present
  else if String.eqb s "absent" then Some absent
  else if String.eqb s "late" then Some late
  else if String.eqb s "excused" then Some excused
  else None.

Record t := mk {
  _id : ObjectId;
  student : ObjectId;
  batch : ObjectId;
  date : Z;
  status : option Status;
  markedBy : ObjectId;
  notes : string
}.
End Attendance.

Module Material.
Record t := mk {
  _id : ObjectId;
  batch : ObjectId;
  uploadedBy : ObjectId;
  isActive : bool
}.
End Material.

Module Submission.
Inductive Status := submitted | graded | late | resubmitted.

Record File := mkFile {
  url : string;
  filename : string;
  mimetype : string;
  size : Z
}.

Record t := mk {
  student : ObjectId;
  submittedAt : Z;
  files : list File;
  notes : string;
  marksObtained : option Z;
  feedback : option string;
  gradedBy : option ObjectId;
  gradedAt : option Z;
  status : Status
}.
End Submission.

Module Assignment.
Record t := mk {
  _id : ObjectId;
  title : string;
  batch : ObjectId;
  assignedBy : ObjectId;
  dueDate : Z;
  totalMarks : Z;
  submissions : list Submission.t;
  isActive : bool
}.

Definition with_submissions (a : t) (l : list Submission.t) : t :=
  mk (_id a) (title a) (batch a) (assignedBy a) (dueDate a) (totalMarks a)
     l (isActive a).
End Assignment.

Module Payment.
Inductive Method := cash | card | bank_transfer | upi | cheque | other.
Inductive Status := pending | completed | failed | refunded.

(** The [enum] of the [paymentMethod] path. *)
Definition method_enum (s : string) : option Method :=
  if String.eqb s "cash" then Some cash
  else if String.eqb s "card" then Some card
  else if String.eqb s "bank_transfer" then Some bank_transfer
  else if String.eqb s "upi" then Some upi
  else if String.eqb s "cheque" then Some cheque
  else if String.eqb s "other" then Some other
  else None.

(** The [enum] of the [status] path. *)
Definition status_enum (s : string) : option Status :=
  if String.eqb s "pending" then Some pending
  else if String.eqb s "completed" then Some completed
  else if String.eqb s "failed" then Some failed
  else if String.eqb s "refunded" then Some refunded
  else None.

Record t := mk {
  _id : ObjectId;
  student : ObjectId;
  batch : ObjectId;
  amount : Z;
  paymentMethod : Method;
  receiptNumber : option string;
  month : string;
  status : Status;
  recordedBy : ObjectId
}.
End Payment.

(** ** The database *)

Record DB := mkDB {
  users : list ObjectId;
  batches : list Batch.t;
  attendances : list Attendance.t;
  materials : list Material.t;
  assignments : list Assignment.t;
  payments : list Payment.t;
  nextId : ObjectId
}.

Definition with_batches (db : DB) (l : list Batch.t) : DB :=
  mkDB (users db) l (attendances db) (materials db) (assignments db)
       (payments db) (nextId db).

Definition with_attendances (db : DB) (l : list Attendance.t) (n : ObjectId) : DB :=
  mkDB (users db) (batches db) l (materials db) (assignments db)
       (payments db) n.

Definition with_assignments (db : DB) (l : list Assignment.t) (n : ObjectId) : DB :=
  mkDB (users db) (batches db) (attendances db) (materials db) l
       (payments db) n.

Definition with_payments (db : DB) (l : list Payment.t) (n : ObjectId) : DB :=
  mkDB (users db) (batches db) (attendances db) (materials db)
       (assignments db) l n.

(** The ownership test every controller repeats:
    [batch.teacher.toString() !== req.user.id && req.user.role !== 'admin']. *)
Definition notTeacherNorAdmin (b : Batch.t) (u : Req.user) : bool :=
  negb (Nat.eqb (Batch.teacher b) (Req.id u))
  && negb (Role_eqb (Req.role u) role_admin).

(** ** Batch controller (controllers/batchController.js, models/Batch.js) *)

(** [addStudentToBatch]: the body's [studentId] is absent ([None]) or an id.
    The stored batch satisfies its schema, so [batch.save()] succeeds. *)
Definition addStudentToBatch (db : DB) (id : ObjectId)
    (studentId : option ObjectId) : Res Batch.t * DB :=
  match studentId with
  | None => (Fail (ErrorResponse "Please provide a student ID" 400), db)
  | Some sid =>
      match findById Batch._id (batches db) id, includes (users db) sid with
      | Some batch, true =>
          if includes (Batch.students batch) sid then
            (Fail (ErrorResponse "Student already in this batch" 400), db)
          else if Qle_bool (Batch.maxStudents batch)
                           (inject_Z (Z.of_nat (List.length (Batch.students batch))))
          then
            (Fail (ErrorResponse "Batch is full" 400), db)
          else
            let batch' :=
              Batch.with_students batch (Batch.students batch ++ [sid]) in
            (Ok batch', with_batches db (save Batch._id (batches db) batch'))
      | _, _ => (Fail (ErrorResponse "Batch or student not found" 404), db)
      end
  end.

(** [removeStudentFromBatch]. *)
Definition removeStudentFromBatch (db : DB) (id : ObjectId)
    (studentId : ObjectId) : Res unit * DB :=
  match findById Batch._id (batches db) id with
  | None => (Fail (ErrorResponse "Batch not found" 404), db)
  | Some batch =>
      if negb (includes (Batch.students batch) studentId) then
        (Fail (ErrorResponse "Student not in this batch" 400), db)
      else
        let batch' :=
          Batch.with_students batch
            (filter (fun i => negb (Nat.eqb i studentId))
                    (Batch.students batch)) in
        (Ok tt, with_batches db (save Batch._id (batches db) batch'))
  end.

(** [batchSchema.pre('remove')]: the three [deleteMany({ batch: this._id })]. *)
Definition batch_pre_remove (db : DB) (id : ObjectId) : DB :=
  mkDB (users db) (batches db)
       (filter (fun a => negb (Nat.eqb (Attendance.batch a) id)) (attendances db))
       (filter (fun m => negb (Nat.eqb (Material.batch m) id)) (materials db))
       (filter (fun a => negb (Nat.eqb (Assignment.batch a) id)) (assignments db))
       (payments db) (nextId db).

(** [deleteBatch]: [batch.remove()] runs the hook, then drops the batch. *)
Definition deleteBatch (db : DB) (user : Req.user) (id : ObjectId)
    : Res unit * DB :=
  match findById Batch._id (batches db) id with
  | None => (Fail (ErrorResponse "Batch not found" 404), db)
  | Some batch =>
      if notTeacherNorAdmin batch user then
        (Fail (ErrorResponse "Not authorized to delete this batch" 403), db)
      else
        let db' := batch_pre_remove db (Batch._id batch) in
        (Ok tt, with_batches db' (remove Batch._id (batches db') (Batch._id batch)))
  end.

(** The queries [Model.find({ batch: id })]. *)
Definition attendancesOfBatch (db : DB) (id : ObjectId) : list Attendance.t :=
  filter (fun a => Nat.eqb (Attendance.batch a) id) (attendances db).
Definition materialsOfBatch (db : DB) (id : ObjectId) : list Material.t :=
  filter (fun m => Nat.eqb (Material.batch m) id) (materials db).
Definition assignmentsOfBatch (db : DB) (id : ObjectId) : list Assignment.t :=
  filter (fun a => Nat.eqb (Assignment.batch a) id) (assignments db).

(** A roster call, and a sequence of them on one batch. *)
Inductive RosterCall :=
| AddStudent (studentId : option ObjectId)
| RemoveStudent (studentId : ObjectId).



(** The roster invariant of a batch. *)
Definition roster_ok (b : Batch.t) : Prop :=
  NoDup (Batch.students b)
  /\ (inject_Z (Z.of_nat (List.length (Batch.students b)))
      <= Batch.maxStudents b)%Q.



(** ** Attendance controller (second module of controllers/userController.js,
       models/Attendance.js) *)

(** [new Date(new Date(date).setHours(h, m, s))]: hours, minutes and seconds
    are replaced, the milliseconds of [date] are kept. *)
Definition setHours (date h m s : Z) : Z :=
  date - date mod 86400000 + ((h * 60 + m) * 60 + s) * 1000 + date mod 1000.

(** The filter
    [{ student, batch, date: { $gte: setHours(0,0,0), $lt: setHours(23,59,59) } }]. *)
Definition sameDay (student batch : ObjectId) (date : Z) (a : Attendance.t) : bool :=
  Nat.eqb (Attendance.student a) student
  && Nat.eqb (Attendance.batch a) batch
  && (setHours date 0 0 0 <=? Attendance.date a)
  && (Attendance.date a <? setHours date 23 59 59).

(** Schema validation of the [status] and [notes] paths. *)
Definition castStatus (s : option string) : Res (option Attendance.Status) :=
  match s with
  | None => Ok None
  | Some v =>
      match Attendance.status_enum v with
      | Some st => Ok (Some st)
      | None => Fail (ValidationError "status is not a valid enum value")
      end
  end.

(** [attendanceSchema.pre('save')]: a batch with this id lists the student. *)
Definition enrolledHook (db : DB) (student batch : ObjectId) : bool :=
  existsb (fun b => Nat.eqb (Batch._id b) batch
                    && includes (Batch.students b) student) (batches db).

(** The unique index [{ student: 1, batch: 1, date: 1 }]. *)
Definition attendanceKeyTaken (db : DB) (student batch : ObjectId) (date : Z) : bool :=
  existsb (fun a => Nat.eqb (Attendance.student a) student
                    && Nat.eqb (Attendance.batch a) batch
                    && (Attendance.date a =? date)) (attendances db).

(** [Attendance.create({ student, batch, date, status, notes, markedBy })]:
    validation, the pre-save hook, then the insert under the unique index.
    An absent status takes the schema default. *)
Definition Attendance_create (db : DB) (student batch : ObjectId) (date : Z)
    (status : option string) (notes : string) (markedBy : ObjectId)
    : Res Attendance.t * DB :=
  match castStatus status with
  | Fail e => (Fail e, db)
  | Ok st =>
      if negb (maxlength 500 notes) then
        (Fail (ValidationError "notes is longer than the maximum allowed length"), db)
      else if negb (enrolledHook db student batch) then
        (Fail (Error "Student is not enrolled in this batch"), db)
      else if attendanceKeyTaken db student batch date then
        (Fail DuplicateKeyError, db)
      else
        let doc := Attendance.mk (nextId db) student batch date
                     (match st with Some v => Some v | None => Some Attendance.present end)
                     markedBy notes in
        (Ok doc, with_attendances db (attendances db ++ [doc]) (S (nextId db)))
  end.

(** [existing.status = ...; existing.notes = ...; existing.markedBy = ...;
    await existing.save()]. *)
Definition Attendance_update (db : DB) (existing : Attendance.t)
    (status : option string) (notes : string) (markedBy : ObjectId)
    : Res Attendance.t * DB :=
  match castStatus status with
  | Fail e => (Fail e, db)
  | Ok st =>
      if negb (maxlength 500 notes) then
        (Fail (ValidationError "notes is longer than the maximum allowed length"), db)
      else if negb (enrolledHook db (Attendance.student existing)
                                 (Attendance.batch existing)) then
        (Fail (Error "Student is not enrolled in this batch"), db)
      else
        let doc := Attendance.mk (Attendance._id existing)
                     (Attendance.student existing) (Attendance.batch existing)
                     (Attendance.date existing) st markedBy notes in
        (Ok doc, with_attendances db (save Attendance._id (attendances db) doc)
                                  (nextId db))
  end.

(** An object among the elements of [req.body.attendances]; an element is
    such an object or [null]. *)
Module Att.
Record t := mk {
  student : ObjectId;
  status : option string;
  notes : option string
}.
End Att.

(** An element of the [errors] array. *)
Inductive BulkError :=
| NotInBatch (student : ObjectId)
| ProcessingError (student : ObjectId) (e : Failure).

(** The state of the loop: the database, the two arrays, and the error
    that has left the loop, if any. *)
Record BulkState := mkBulk {
  bulk_db : DB;
  results : list Attendance.t;
  errors : list BulkError;
  thrown : option Failure
}.

(** The [try] and its [catch] on an element that is an object. *)
Definition markEntry (user : Req.user) (batch : Batch.t) (batchId : ObjectId)
    (date : Z) (st : BulkState) (att : Att.t) : BulkState :=
  let db := bulk_db st in
  if negb (includes (Batch.students batch) (Att.student att)) then
    mkBulk db (results st) (errors st ++ [NotInBatch (Att.student att)])
           (thrown st)
  else
    let attempt :=
      match find (sameDay (Att.student att) batchId date) (attendances db) with
      | Some existingAttendance =>
          Attendance_update db existingAttendance (Att.status att)
            (orEmpty (Att.notes att)) (Req.id user)
      | None =>
          Attendance_create db (Att.student att) batchId date (Att.status att)
            (orEmpty (Att.notes att)) (Req.id user)
      end in
    match attempt with
    | (Ok doc, db') => mkBulk db' (results st ++ [doc]) (errors st) (thrown st)
    | (Fail err, _) =>
        mkBulk db (results st)
               (errors st ++ [ProcessingError (Att.student att) err])
               (thrown st)
    end.

(** The body of the [for (const att of attendances)] loop.  On [null],
    [att.student] throws in the [try] and again in the [catch], whose
    message reads it too: the error leaves the loop and the handler. *)
Definition markOne (user : Req.user) (batch : Batch.t) (batchId : ObjectId)
    (date : Z) (st : BulkState) (att : option Att.t) : BulkState :=
  match thrown st with
  | Some _ => st
  | None =>
      match att with
      | None =>
          mkBulk (bulk_db st) (results st) (errors st)
                 (Some (TypeError "Cannot read properties of null"))
      | Some entry => markEntry user batch batchId date st entry
      end
  end.

Record BulkResponse := mkBulkResponse {
  success : bool;
  data : list Attendance.t;
  resp_errors : option (list BulkError);
  message : string
}.

(** The body of [POST /attendance/mark]; [date] is the instant the body's
    date denotes. *)
Record BulkBody := mkBulkBody {
  batchId : option ObjectId;
  date : option Z;
  attendancesField : option (list (option Att.t))
}.

(** [markMultipleAttendances]. *)
Definition markMultipleAttendances (db : DB) (user : Req.user) (body : BulkBody)
    : Res BulkResponse * DB :=
  match batchId body, date body, attendancesField body with
  | Some bid, Some d, Some atts =>
      match findById Batch._id (batches db) bid with
      | None => (Fail (ErrorResponse "Batch not found" 404), db)
      | Some batch =>
          if notTeacherNorAdmin batch user then
            (Fail (ErrorResponse
                     "Not authorized to mark attendance for this batch" 403), db)
          else
            let st := fold_left (markOne user batch bid d) atts
                                (mkBulk db [] [] None) in
            match thrown st with
            | Some e => (Fail e, bulk_db st)
            | None =>
                (Ok (mkBulkResponse
                       (Nat.eqb (List.length (errors st)) 0)
                       (results st)
                       (if Nat.ltb 0 (List.length (errors st))
                        then Some (errors st) else None)
                       (if Nat.ltb 0 (List.length (errors st))
                        then "Processed with "
                             ++ NilEmpty.string_of_uint
                                  (Nat.to_uint (List.length (errors st)))
                             ++ " error(s)"
                        else "Attendance marked successfully")),
                 bulk_db st)
            end
      end
  | _, _, _ =>
      (Fail (ErrorResponse
               "Please provide batchId, date, and an array of attendances" 400), db)
  end.

Record AttendanceBody := mkAttendanceBody {
  body_student : ObjectId;
  body_batch : ObjectId;
  body_date : Z;
  body_status : option string;
  body_notes : option string
}.

(** [createAttendance]. *)
Definition createAttendance (db : DB) (user : Req.user) (body : AttendanceBody)
    : Res Attendance.t * DB :=
  match find (sameDay (body_student body) (body_batch body) (body_date body))
             (attendances db) with
  | Some _ =>
      (Fail (ErrorResponse
               "Attendance already marked for this student on this date" 400), db)
  | None =>
      match findById Batch._id (batches db) (body_batch body) with
      | None => (Fail (TypeError "Cannot read properties of null"), db)
      | Some batch =>
          if negb (includes (Batch.students batch) (body_student body)) then
            (Fail (ErrorResponse "Student is not enrolled in this batch" 400), db)
          else
            Attendance_create db (body_student body) (body_batch body)
              (body_date body) (body_status body)
              (orEmpty (body_notes body)) (Req.id user)
      end
  end.

(** The fields of a [PUT /attendance/:id] body that the model carries. *)
Record AttendanceUpdate := mkAttendanceUpdate {
  upd_status : option string;
  upd_notes : option string
}.

(** [updateAttendance]: [findByIdAndUpdate] with [runValidators]. *)
Definition updateAttendance (db : DB) (user : Req.user) (id : ObjectId)
    (body : AttendanceUpdate) : Res Attendance.t * DB :=
  match findById Attendance._id (attendances db) id with
  | None => (Fail (ErrorResponse "Attendance not found" 404), db)
  | Some attendance =>
      if negb (Nat.eqb (Attendance.markedBy attendance) (Req.id user))
         && negb (Role_eqb (Req.role user) role_admin) then
        (Fail (ErrorResponse
                 "Not authorized to update this attendance record" 403), db)
      else
        match castStatus (upd_status body) with
        | Fail e => (Fail e, db)
        | Ok st =>
            if negb (maxlength 500 (orEmpty (upd_notes body))) then
              (Fail (ValidationError
                       "notes is longer than the maximum allowed length"), db)
            else
              let doc :=
                Attendance.mk (Attendance._id attendance)
                  (Attendance.student attendance) (Attendance.batch attendance)
                  (Attendance.date attendance)
                  (match st with
                   | Some v => Some v
                   | None => Attendance.status attendance
                   end)
                  (Attendance.markedBy attendance)
                  (match upd_notes body with
                   | Some n => n
                   | None => Attendance.notes attendance
                   end) in
              (Ok doc, with_attendances db
                         (save Attendance._id (attendances db) doc) (nextId db))
        end
  end.

(** [deleteAttendance]. *)
Definition deleteAttendance (db : DB) (user : Req.user) (id : ObjectId)
    : Res unit * DB :=
  match findById Attendance._id (attendances db) id with
  | None => (Fail (ErrorResponse "Attendance not found" 404), db)
  | Some attendance =>
      if negb (Nat.eqb (Attendance.markedBy attendance) (Req.id user))
         && negb (Role_eqb (Req.role user) role_admin) then
        (Fail (ErrorResponse
                 "Not authorized to delete this attendance record" 403), db)
      else
        (Ok tt, with_attendances db
                  (remove Attendance._id (attendances db)
                          (Attendance._id attendance)) (nextId db))
  end.

(** *** The attendance summary *)

(** A row of the aggregation: [{ status, count }]. *)
Record SummaryRow := mkRow { row_status : option Attendance.Status; count : Z }.

Definition optStatus_eqb (a b : option Attendance.Status) : bool :=
  match a, b with
  | Some x, Some y => Attendance.Status_eqb x y
  | None, None => true
  | _, _ => false
  end.

(** [$group: { _id: '$status', count: { $sum: 1 } }], one row per status in
    order of first appearance. *)
Fixpoint addToGroup (k : option Attendance.Status) (g : list SummaryRow)
    : list SummaryRow :=
  match g with
  | [] => [mkRow k 1]
  | r :: g' =>
      if optStatus_eqb (row_status r) k then mkRow k (count r + 1) :: g'
      else r :: addToGroup k g'
  end.

Definition aggregate (db : DB) (studentId batchId : ObjectId) : list SummaryRow :=
  fold_left (fun g a => addToGroup (Attendance.status a) g)
    (filter (fun a => Nat.eqb (Attendance.student a) studentId
                      && Nat.eqb (Attendance.batch a) batchId)
            (attendances db))
    [].

(** A JS number holding an integer count. *)
Definition number (z : Z) : PrimFloat.float :=
  PrimFloat.of_uint63 (Uint63.of_Z z).

(** [Math.round] of a finite double: the integer [floor (x + 1/2)], computed
    on the exact value [m * 2^e] of the double. *)
Definition Math_round (x : PrimFloat.float) : Z :=
  match FloatOps.Prim2SF x with
  | SpecFloat.S754_finite sign m e =>
      let v := if sign then Z.neg m else Z.pos m in
      if 0 <=? e then v * 2 ^ e
      else (2 * v + 2 ^ (- e)) / 2 ^ (- e + 1)
  | _ => 0
  end.

(** [total], [present] and [percentage] of [getStudentAttendanceSummary]. *)
Definition summaryTotal (summary : list SummaryRow) : Z :=
  fold_left (fun acc curr => acc + count curr) summary 0.

Definition summaryPresent (summary : list SummaryRow) : Z :=
  match find (fun s => optStatus_eqb (row_status s) (Some Attendance.present))
             summary with
  | Some s => count s
  | None => 0
  end.

Definition percentageOf (present total : Z) : Z :=
  if total >? 0
  then Math_round (PrimFloat.mul (PrimFloat.div (number present) (number total))
                                 (number 100))
  else 0.

Record SummaryData := mkSummary {
  summary : list SummaryRow;
  total : Z;
  percentage : Z;
  summary_student : ObjectId;
  summary_batch : ObjectId
}.

(** The identifiers the attendance controller module binds at its top: its
    four [require] lines. *)
Definition attendanceController_scope : list string :=
  ["Attendance"; "Batch"; "ErrorResponse"; "asyncHandler"].

(** Evaluating a free identifier of a module. *)
Definition resolve (scope : list string) (name : string) : Res unit :=
  if existsb (String.eqb name) scope then Ok tt
  else Fail (ReferenceError (name ++ " is not defined")).

(** [getStudentAttendanceSummary].  The [$match] stage is built from
    [mongoose.Types.ObjectId(...)], so the handler evaluates the identifier
    [mongoose] before the aggregation runs. *)
Definition getStudentAttendanceSummary (db : DB) (user : Req.user)
    (studentId batchId : ObjectId) : Res SummaryData :=
  match findById Batch._id (batches db) batchId with
  | None => Fail (ErrorResponse "Batch not found" 404)
  | Some batch =>
      if Role_eqb (Req.role user) role_student
         && negb (Nat.eqb (Req.id user) studentId)
         && negb (Nat.eqb (Req.id user) (Batch.teacher batch)) then
        Fail (ErrorResponse "Not authorized to view this attendance summary" 403)
      else
        match resolve attendanceController_scope "mongoose" with
        | Fail e => Fail e
        | Ok _ =>
            let summary := aggregate db studentId batchId in
            let total := summaryTotal summary in
            let present := summaryPresent summary in
            Ok (mkSummary summary total (percentageOf present total)
                          studentId batchId)
        end
  end.

(** ** Payment controller (second module of controllers/assignmentController.js,
       the Payment schema) *)

Definition isDigit (c : ascii) : bool :=
  Nat.leb 48 (nat_of_ascii c) && Nat.leb (nat_of_ascii c) 57.

Definition digitIn (lo hi : nat) (c : ascii) : bool :=
  Nat.leb (48 + lo) (nat_of_ascii c) && Nat.leb (nat_of_ascii c) (48 + hi).

(** The [match] of the [month] path: [/^\d{4}-(0[1-9]|1[0-2])$/]. *)
Definition monthFormat (s : string) : bool :=
  match s with
  | String y1 (String y2 (String y3 (String y4 (String dash
      (String m1 (String m2 EmptyString)))))) =>
      isDigit y1 && isDigit y2 && isDigit y3 && isDigit y4
      && Ascii.eqb dash "-"%char
      && ((Ascii.eqb m1 "0"%char && digitIn 1 9 m2)
          || (Ascii.eqb m1 "1"%char && digitIn 0 2 m2))
  | _ => false
  end.

Fixpoint zeros (n : nat) : string :=
  match n with
  | O => EmptyString
  | S k => String "0"%char (zeros k)
  end.

(** [String.prototype.padStart(n, '0')]. *)
Definition padStart (n : nat) (s : string) : string :=
  zeros (n - String.length s)%nat ++ s.

Definition toString (n : nat) : string :=
  NilEmpty.string_of_uint (Nat.to_uint n).

(** The receipt number of the [pre('save')] hook. *)
Definition receiptFor (year count : nat) : string :=
  "RCPT-" ++ toString year ++ "-" ++ padStart 6 (toString (count + 1)%nat).

(** The fields of a payment request body that the model carries. *)
Module PaymentBody.
Record t := mk {
  student : option ObjectId;
  batch : option ObjectId;
  month : option string;
  amount : option Z;
  paymentMethod : option string;
  status : option string
}.
End PaymentBody.

Definition optId_is (o : option ObjectId) (i : ObjectId) : bool :=
  match o with Some v => Nat.eqb v i | None => false end.

Definition optString_is (o : option string) (s : string) : bool :=
  match o with Some v => String.eqb v s | None => false end.

(** The filter [{ student, batch, month }]. *)
Definition sameTriple (student batch : option ObjectId) (month : option string)
    (p : Payment.t) : bool :=
  optId_is student (Payment.student p)
  && optId_is batch (Payment.batch p)
  && optString_is month (Payment.month p).

(** The unique index [{ student: 1, batch: 1, month: 1 }]. *)
Definition paymentKeyTaken (db : DB) (student batch : ObjectId) (month : string)
    : bool :=
  existsb (fun p => Nat.eqb (Payment.student p) student
                    && Nat.eqb (Payment.batch p) batch
                    && String.eqb (Payment.month p) month) (payments db).

(** The unique sparse index on [receiptNumber]. *)
Definition receiptTaken (db : DB) (r : option string) : bool :=
  match r with
  | None => false
  | Some v => existsb (fun p => optString_is (Payment.receiptNumber p) v)
                      (payments db)
  end.

(** [Payment.create(body)]: schema validation, the receipt hook, the insert. *)
Definition Payment_create (db : DB) (body : PaymentBody.t)
    (recordedBy : ObjectId) (year : nat) : Res Payment.t * DB :=
  match PaymentBody.student body, PaymentBody.batch body,
        PaymentBody.month body, PaymentBody.amount body,
        PaymentBody.paymentMethod body with
  | Some student, Some batch, Some month, Some amount, Some method =>
      if amount <? 0 then
        (Fail (ValidationError "Amount cannot be negative"), db)
      else
        match Payment.method_enum method with
        | None =>
            (Fail (ValidationError "paymentMethod is not a valid enum value"), db)
        | Some m =>
            if negb (monthFormat month) then
              (Fail (ValidationError
                       "Please provide valid month in YYYY-MM format"), db)
            else
              match (match PaymentBody.status body with
                     | None => Some Payment.pending
                     | Some s => Payment.status_enum s
                     end) with
              | None =>
                  (Fail (ValidationError "status is not a valid enum value"), db)
              | Some st =>
                  let receipt :=
                    match st with
                    | Payment.completed =>
                        Some (receiptFor year (List.length (payments db)))
                    | _ => None
                    end in
                  if paymentKeyTaken db student batch month
                     || receiptTaken db receipt then
                    (Fail DuplicateKeyError, db)
                  else
                    let doc := Payment.mk (nextId db) student batch amount m
                                 receipt month st recordedBy in
                    (Ok doc, with_payments db (payments db ++ [doc])
                                           (S (nextId db)))
              end
        end
  | _, _, _, _, _ =>
      (Fail (ValidationError "a required path is missing"), db)
  end.

(** [!amount]. *)
Definition noAmount (a : option Z) : bool :=
  match a with
  | None => true
  | Some v => v =? 0
  end.

(** [createPayment]; [year] is [new Date().getFullYear()] at the hook. *)
Definition createPayment (db : DB) (user : Req.user) (body : PaymentBody.t)
    (year : nat) : Res Payment.t * DB :=
  match find (sameTriple (PaymentBody.student body) (PaymentBody.batch body)
                         (PaymentBody.month body)) (payments db) with
  | Some _ =>
      (Fail (ErrorResponse
               "Payment already recorded for this student, batch, and month" 400),
       db)
  | None =>
      match (match PaymentBody.batch body with
             | Some b => findById Batch._id (batches db) b
             | None => None
             end) with
      | None => (Fail (TypeError "Cannot read properties of null"), db)
      | Some batchDoc =>
          if negb (match PaymentBody.student body with
                   | Some s => includes (Batch.students batchDoc) s
                   | None => false
                   end) then
            (Fail (ErrorResponse "Student is not enrolled in this batch" 400), db)
          else
            let amount' :=
              if noAmount (PaymentBody.amount body)
              then Some (Batch.fee batchDoc)
              else PaymentBody.amount body in
            let status' :=
              if negb (optString_is (PaymentBody.paymentMethod body) "online")
              then Some "completed"
              else PaymentBody.status body in
            Payment_create db
              (PaymentBody.mk (PaymentBody.student body) (PaymentBody.batch body)
                 (PaymentBody.month body) amount'
                 (PaymentBody.paymentMethod body) status')
              (Req.id user) year
      end
  end.

Definition isSome {A} (o : option A) : bool :=
  match o with Some _ => true | None => false end.

(** Truthiness of an optional string. *)
Definition truthyString (o : option string) : bool :=
  match o with
  | Some s => negb (String.eqb s "")
  | None => false
  end.

(** [updatePayment]: [findByIdAndUpdate] with [runValidators]. *)
Definition updatePayment (db : DB) (id : ObjectId) (body : PaymentBody.t)
    : Res Payment.t * DB :=
  match findById Payment._id (payments db) id with
  | None => (Fail (ErrorResponse "Payment not found" 404), db)
  | Some payment =>
      if isSome (PaymentBody.student body) || isSome (PaymentBody.batch body)
         || truthyString (PaymentBody.month body) then
        (Fail (ErrorResponse
                 "Cannot change student, batch, or month of a payment" 400), db)
      else if isSome (PaymentBody.month body) then
        (Fail (ValidationError "Please provide month for payment"), db)
      else if (match PaymentBody.amount body with
               | Some a => a <? 0
               | None => false
               end) then
        (Fail (ValidationError "Amount cannot be negative"), db)
      else
        match (match PaymentBody.paymentMethod body with
               | None => Some (Payment.paymentMethod payment)
               | Some s => Payment.method_enum s
               end),
              (match PaymentBody.status body with
               | None => Some (Payment.status payment)
               | Some s => Payment.status_enum s
               end) with
        | Some m, Some st =>
            let doc :=
              Payment.mk (Payment._id payment) (Payment.student payment)
                (Payment.batch payment)
                (match PaymentBody.amount body with
                 | Some a => a
                 | None => Payment.amount payment
                 end)
                m (Payment.receiptNumber payment) (Payment.month payment) st
                (Payment.recordedBy payment) in
            (Ok doc, with_payments db (save Payment._id (payments db) doc)
                                   (nextId db))
        | _, _ => (Fail (ValidationError "not a valid enum value"), db)
        end
  end.

(** [deletePayment]. *)
Definition deletePayment (db : DB) (id : ObjectId) : Res unit * DB :=
  match findById Payment._id (payments db) id with
  | None => (Fail (ErrorResponse "Payment not found" 404), db)
  | Some payment =>
      (Ok tt, with_payments db (remove Payment._id (payments db)
                                       (Payment._id payment)) (nextId db))
  end.

(** A call on the payment ledger, and a sequence of them. *)
Inductive PaymentCall :=
| CreatePayment (user : Req.user) (body : PaymentBody.t) (year : nat)
| UpdatePayment (id : ObjectId) (body : PaymentBody.t)
| DeletePayment (id : ObjectId).

Definition paymentCall (db : DB) (c : PaymentCall) : DB :=
  match c with
  | CreatePayment u b y => snd (createPayment db u b y)
  | UpdatePayment i b => snd (updatePayment db i b)
  | DeletePayment i => snd (deletePayment db i)
  end.

(** No two payment documents share a [(student, batch, month)] triple. *)
Definition paymentKey (p : Payment.t) : ObjectId * ObjectId * string :=
  (Payment.student p, Payment.batch p, Payment.month p).

Definition uniqueTriples (db : DB) : Prop :=
  NoDup (map paymentKey (payments db)).

(** ** Assignment controller (first module of
       controllers/assignmentController.js, the Assignment schema) *)

(** The request body of [createAssignment]. *)
Module AssignmentBody.
Record t := mk {
  title : option string;
  batch : ObjectId;
  dueDate : option Z;
  totalMarks : option Z;
  allowLateSubmission : option bool
}.
End AssignmentBody.

(** The bound of [marksObtained]'s [max] validator is given as
    [function() { return this.totalMarks; }].  What the comparison sees
    depends on the document the validation of an embedded submission runs on:
    the submission itself, whose sub-schema declares no [totalMarks] path, so
    that no number comes out, or the assignment that embeds it. *)
Inductive ThisBinding := thisSubmission | thisAssignment.

Section AssignmentController.

Variable validatorThis : ThisBinding.

Definition marksObtained_max (parent : Assignment.t) (s : Submission.t)
    : option Z :=
  match validatorThis with
  | thisSubmission => None
  | thisAssignment => Some (Assignment.totalMarks parent)
  end.

(** JS [v <= bound] for a number [v]: false when the bound is not a number. *)
Definition lessOrEqual (v : Z) (bound : option Z) : bool :=
  match bound with
  | Some b => v <=? b
  | None => false
  end.

(** Validation of one embedded submission. *)
Definition validateSubmission (parent : Assignment.t) (s : Submission.t)
    : Res unit :=
  if negb (maxlength 1000 (Submission.notes s)) then
    Fail (ValidationError "notes is longer than the maximum allowed length")
  else if negb (maxlength 1000 (orEmpty (Submission.feedback s))) then
    Fail (ValidationError "feedback is longer than the maximum allowed length")
  else
    match Submission.marksObtained s with
    | None => Ok tt
    | Some v =>
        if v <? 0 then Fail (ValidationError "Marks cannot be negative")
        else if negb (lessOrEqual v (marksObtained_max parent s)) then
          Fail (ValidationError "Marks cannot exceed total marks")
        else Ok tt
    end.

Fixpoint validateSubmissions (parent : Assignment.t) (l : list Submission.t)
    : Res unit :=
  match l with
  | [] => Ok tt
  | s :: l' =>
      match validateSubmission parent s with
      | Ok _ => validateSubmissions parent l'
      | Fail e => Fail e
      end
  end.

(** Validation of an assignment document on [save]. *)
Definition Assignment_validate (a : Assignment.t) : Res unit :=
  if String.eqb (Assignment.title a) "" then
    Fail (ValidationError "Please provide assignment title")
  else if negb (maxlength 200 (Assignment.title a)) then
    Fail (ValidationError "title is longer than the maximum allowed length")
  else if Assignment.totalMarks a <? 1 then
    Fail (ValidationError "Total marks must be at least 1")
  else validateSubmissions a (Assignment.submissions a).

(** [assignment.save()]. *)
Definition Assignment_save (db : DB) (a : Assignment.t) : Res Assignment.t * DB :=
  match Assignment_validate a with
  | Fail e => (Fail e, db)
  | Ok _ =>
      (Ok a, with_assignments db (save Assignment._id (assignments db) a)
                              (nextId db))
  end.

(** [createAssignment]: [Assignment.create(req.body)] keeps the paths the
    schema declares. *)
Definition createAssignment (db : DB) (user : Req.user) (body : AssignmentBody.t)
    : Res Assignment.t * DB :=
  match findById Batch._id (batches db) (AssignmentBody.batch body) with
  | None => (Fail (ErrorResponse "Batch not found" 404), db)
  | Some batch =>
      if notTeacherNorAdmin batch user then
        (Fail (ErrorResponse
                 "Not authorized to create assignments for this batch" 403), db)
      else
        match AssignmentBody.title body, AssignmentBody.dueDate body,
              AssignmentBody.totalMarks body with
        | Some title, Some dueDate, Some totalMarks =>
            let doc := Assignment.mk (nextId db) title
                         (AssignmentBody.batch body) (Req.id user) dueDate
                         totalMarks [] true in
            match Assignment_validate doc with
            | Fail e => (Fail e, db)
            | Ok _ =>
                (Ok doc, with_assignments db (assignments db ++ [doc])
                                          (S (nextId db)))
            end
        | _, _, _ => (Fail (ValidationError "a required path is missing"), db)
        end
  end.

(** [assignment.allowLateSubmission]: [assignmentSchema] declares no such
    path, so the property read on a loaded document is [undefined]. *)
Definition allowLateSubmission (a : Assignment.t) : option bool := None.

Definition truthy (b : option bool) : bool :=
  match b with
  | Some true => true
  | _ => false
  end.

Definition isStudent (studentId : ObjectId) (sub : Submission.t) : bool :=
  Nat.eqb (Submission.student sub) studentId.

(** [{ ...old.toObject(), ...submission, status: 'resubmitted' }]. *)
Definition resubmit (old : Submission.t) (studentId : ObjectId) (now : Z)
    (files : list Submission.File) (notes : string) : Submission.t :=
  Submission.mk studentId now files notes (Submission.marksObtained old)
    (Submission.feedback old) (Submission.gradedBy old)
    (Submission.gradedAt old) Submission.resubmitted.

(** [{ ...old.toObject(), marksObtained, feedback, gradedBy, gradedAt,
       status: 'graded' }]. *)
Definition grade (old : Submission.t) (marksObtained : option Z)
    (feedback : option string) (gradedBy : ObjectId) (now : Z) : Submission.t :=
  Submission.mk (Submission.student old) (Submission.submittedAt old)
    (Submission.files old) (Submission.notes old) marksObtained feedback
    (Some gradedBy) (Some now) Submission.graded.

(** [submitAssignment]; [files] are the descriptors of the uploads, already
    moved to the upload directory. *)
Definition submitAssignment (db : DB) (user : Req.user) (id : ObjectId)
    (notes : option string) (files : list Submission.File) (now : Z)
    : Res Assignment.t * DB :=
  match findById Assignment._id (assignments db) id with
  | None => (Fail (ErrorResponse "Assignment not found" 404), db)
  | Some assignment =>
      if negb (Assignment.isActive assignment) then
        (Fail (ErrorResponse "Assignment not found" 404), db)
      else
        match findById Batch._id (batches db) (Assignment.batch assignment) with
        | None => (Fail (TypeError "Cannot read properties of null"), db)
        | Some batch =>
            if negb (includes (Batch.students batch) (Req.id user)) then
              (Fail (ErrorResponse "You are not enrolled in this batch" 403), db)
            else
              let isLate := now >? Assignment.dueDate assignment in
              if isLate && negb (truthy (allowLateSubmission assignment)) then
                (Fail (ErrorResponse
                         "Late submissions are not allowed for this assignment"
                         400), db)
              else
                let submission :=
                  Submission.mk (Req.id user) now files (orEmpty notes)
                    None None None None
                    (if isLate then Submission.late else Submission.submitted) in
                let subs := Assignment.submissions assignment in
                match findIndex (isStudent (Req.id user)) subs with
                | Some submissionIndex =>
                    match nth_error subs submissionIndex with
                    | Some old =>
                        Assignment_save db
                          (Assignment.with_submissions assignment
                             (setIndex submissionIndex
                                (resubmit old (Req.id user) now files
                                          (orEmpty notes))
                                subs))
                    | None =>
                        (Fail (TypeError "Cannot read properties of undefined"),
                         db)
                    end
                | None =>
                    Assignment_save db
                      (Assignment.with_submissions assignment
                         (subs ++ [submission]))
                end
        end
  end.

(** [gradeSubmission] of the controller. *)
Definition gradeSubmission (db : DB) (user : Req.user)
    (assignmentId studentId : ObjectId) (marksObtained : option Z)
    (feedback : option string) (now : Z) : Res Submission.t * DB :=
  match findById Assignment._id (assignments db) assignmentId with
  | None => (Fail (ErrorResponse "Assignment not found" 404), db)
  | Some assignment =>
      if negb (Assignment.isActive assignment) then
        (Fail (ErrorResponse "Assignment not found" 404), db)
      else
        match findById Batch._id (batches db) (Assignment.batch assignment) with
        | None => (Fail (TypeError "Cannot read properties of null"), db)
        | Some batch =>
            if notTeacherNorAdmin batch user then
              (Fail (ErrorResponse "Not authorized to grade this assignment" 403),
               db)
            else
              let subs := Assignment.submissions assignment in
              match findIndex (isStudent studentId) subs with
              | None =>
                  (Fail (ErrorResponse "No submission found for student" 404), db)
              | Some submissionIndex =>
                  match nth_error subs submissionIndex with
                  | None =>
                      (Fail (TypeError "Cannot read properties of undefined"), db)
                  | Some old =>
                      let graded :=
                        grade old marksObtained feedback (Req.id user) now in
                      match Assignment_save db
                              (Assignment.with_submissions assignment
                                 (setIndex submissionIndex graded subs)) with
                      | (Ok _, db') => (Ok graded, db')
                      | (Fail e, _) => (Fail e, db)
                      end
                  end
              end
        end
  end.

(** The schema method [addSubmission], called on the document with this id. *)
Definition addSubmission (db : DB) (id studentId : ObjectId)
    (files : list Submission.File) (notes : option string) (now : Z)
    : Res Assignment.t * DB :=
  match findById Assignment._id (assignments db) id with
  | None => (Fail (ErrorResponse "Assignment not found" 404), db)
  | Some this =>
      let subs := Assignment.submissions this in
      let submission :=
        Submission.mk studentId now files (orEmpty notes) None None None None
          (if Assignment.dueDate this <? now
           then Submission.late else Submission.submitted) in
      match findIndex (isStudent studentId) subs with
      | Some existingSubmissionIndex =>
          match nth_error subs existingSubmissionIndex with
          | Some old =>
              Assignment_save db
                (Assignment.with_submissions this
                   (setIndex existingSubmissionIndex
                      (resubmit old studentId now files (orEmpty notes)) subs))
          | None =>
              (Fail (TypeError "Cannot read properties of undefined"), db)
          end
      | None =>
          Assignment_save db
            (Assignment.with_submissions this (subs ++ [submission]))
      end
  end.

(** The schema method [gradeSubmission], called on the document with this
    id: the entry [find] selects is updated in place. *)
Definition Assignment_gradeSubmission (db : DB) (id studentId : ObjectId)
    (marks : option Z) (feedback : option string) (gradedBy : ObjectId) (now : Z)
    : Res Assignment.t * DB :=
  match findById Assignment._id (assignments db) id with
  | None => (Fail (ErrorResponse "Assignment not found" 404), db)
  | Some this =>
      let subs := Assignment.submissions this in
      match find (isStudent studentId) subs, findIndex (isStudent studentId) subs with
      | Some submission, Some i =>
          Assignment_save db
            (Assignment.with_submissions this
               (setIndex i (grade submission marks feedback gradedBy now) subs))
      | _, _ => (Fail (Error "No submission found for this student"), db)
      end
  end.

(** The operations that write a submission. *)
Inductive SubmissionCall :=
| Submit (user : Req.user) (id : ObjectId) (notes : option string)
         (files : list Submission.File) (now : Z)
| Grade (user : Req.user) (assignmentId studentId : ObjectId)
        (marksObtained : option Z) (feedback : option string) (now : Z)
| MethodAddSubmission (id studentId : ObjectId) (files : list Submission.File)
        (notes : option string) (now : Z)
| MethodGradeSubmission (id studentId : ObjectId) (marks : option Z)
        (feedback : option string) (gradedBy : ObjectId) (now : Z).

Definition submissionCall (db : DB) (c : SubmissionCall) : DB :=
  match c with
  | Submit u i n f t => snd (submitAssignment db u i n f t)
  | Grade u a s m f t => snd (gradeSubmission db u a s m f t)
  | MethodAddSubmission i s f n t => snd (addSubmission db i s f n t)
  | MethodGradeSubmission i s m f g t =>
      snd (Assignment_gradeSubmission db i s m f g t)
  end.

End AssignmentController.

(** The status of a student's submission: the entry [findIndex] selects. *)
Definition statusOf (a : Assignment.t) (studentId : ObjectId)
    : option Submission.Status :=
  option_map Submission.status
    (find (isStudent studentId) (Assignment.submissions a)).

Definition statusAt (db : DB) (id studentId : ObjectId)
    : option Submission.Status :=
  match findById Assignment._id (assignments db) id with
  | Some a => statusOf a studentId
  | None => None
  end.

(** The transitions of the specification's state machine. *)
Definition specTransition (before after : option Submission.Status) : Prop :=
  match before, after with
  | None, Some Submission.submitted
  | None, Some Submission.late
  | Some Submission.submitted, Some Submission.resubmitted
  | Some Submission.late, Some Submission.resubmitted
  | Some _, Some Submission.graded => True
  | _, _ => False
  end.

(** The transitions the operations make. *)
Definition codeTransition (before after : option Submission.Status) : Prop :=
  match before, after with
  | None, Some Submission.submitted
  | None, Some Submission.late
  | Some _, Some Submission.resubmitted
  | Some _, Some Submission.graded => True
  | _, _ => False
  end.

(** ** Notions of the statements, and the scenarios they are tried on *)

(** A batch with one seat, two users who may enrol, and the calls of the
    end-to-end scenario. *)
Definition scenarioBatch : Batch.t := Batch.mk 10 1 [] 500 1 true.
Definition scenarioDB : DB :=
  mkDB [1; 2; 3]%nat [scenarioBatch] [] [] [] [] 100.
Definition scenarioCalls : list RosterCall :=
  [AddStudent (Some 2%nat); AddStudent (Some 3%nat); RemoveStudent 2;
   AddStudent (Some 3%nat)].

(** The same batch with its seat taken by student 2, and calls that refuse,
    free the seat and fill it again. *)
Definition fullBatch : Batch.t := Batch.mk 10 1 [2]%nat 500 1 true.

Definition orphanDB : DB := mkDB [1; 3]%nat [fullBatch] [] [] [] [] 100.

(** A database with two batches and children of both. *)
Definition cascadeDB : DB :=
  mkDB [1; 2; 3]%nat
       [Batch.mk 10 1 [2]%nat 500 30 true; Batch.mk 11 1 [3]%nat 400 30 true]
       [Attendance.mk 20 2 10 0 (Some Attendance.present) 1 "";
        Attendance.mk 21 3 11 0 (Some Attendance.absent) 1 ""]
       [Material.mk 30 10 1 true; Material.mk 31 11 1 true]
       [Assignment.mk 40 "Essay" 10 1 1000 50 [] true;
        Assignment.mk 41 "Quiz" 11 1 1000 20 [] true]
       [] 100.

(** Student 2 of batch 10: three days present, one day absent. *)
Definition summaryDB : DB :=
  mkDB [1; 2]%nat [Batch.mk 10 1 [2]%nat 500 30 true]
       [Attendance.mk 20 2 10 0 (Some Attendance.present) 1 "";
        Attendance.mk 21 2 10 86400000 (Some Attendance.present) 1 "";
        Attendance.mk 22 2 10 172800000 (Some Attendance.absent) 1 "";
        Attendance.mk 23 2 10 259200000 (Some Attendance.present) 1 ""]
       [] [] [] 100.

(** A ledger with one batch (fee 500), student 2 enrolled, no payment yet,
    and a request for March 2024 that names no amount. *)
Definition ledgerDB : DB :=
  mkDB [1; 2]%nat [Batch.mk 10 1 [2]%nat 500 30 true] [] [] [] [] 100.
Definition marchBody : PaymentBody.t :=
  PaymentBody.mk (Some 2%nat) (Some 10%nat) (Some "2024-03") None (Some "cash")
                 None.

Definition ledgerAdmin : Req.user := Req.mkUser 1 role_admin.

Definition onlineBody : PaymentBody.t :=
  PaymentBody.mk (Some 2%nat) (Some 10%nat) (Some "2024-03") None
                 (Some "online") None.

(** Every submission status either stays or makes a transition of the code. *)
Definition moved (db db' : DB) : Prop :=
  forall id s,
    statusAt db' id s = statusAt db id s
    \/ codeTransition (statusAt db id s) (statusAt db' id s).

(** An essay for batch 10 (teacher 1, student 2 enrolled), due at 1000,
    50 marks; the student submits in time, the teacher grades without
    entering marks, the student submits again. *)
Definition workflowDB : DB :=
  mkDB [1; 2]%nat [Batch.mk 10 1 [2]%nat 500 30 true] [] []
       [Assignment.mk 40 "Essay" 10 1 1000 50 [] true] [] 100.
Definition teacher1 : Req.user := Req.mkUser 1 role_teacher.
Definition student2 : Req.user := Req.mkUser 2 role_student.
Definition firstSubmit : SubmissionCall := Submit student2 40 None [] 10.
Definition gradeIt : SubmissionCall :=
  Grade teacher1 40 2 None (Some "well done") 20.
Definition secondSubmit : SubmissionCall :=
  Submit student2 40 (Some "second try") [] 30.
Definition submittedDB (vt : ThisBinding) : DB :=
  submissionCall vt workflowDB firstSubmit.
Definition gradedDB (vt : ThisBinding) : DB :=
  submissionCall vt (submittedDB vt) gradeIt.

(** The run none, submitted, graded, resubmitted; its last step is no
    transition of the specification. *)
Definition gradedThenResubmitted (vt : ThisBinding) : Prop :=
  statusAt workflowDB 40 2 = None
  /\ statusAt (submittedDB vt) 40 2 = Some Submission.submitted
  /\ statusAt (gradedDB vt) 40 2 = Some Submission.graded
  /\ statusAt (submissionCall vt (gradedDB vt) secondSubmit) 40 2
     = Some Submission.resubmitted
  /\ ~ specTransition
         (statusAt (gradedDB vt) 40 2)
         (statusAt (submissionCall vt (gradedDB vt) secondSubmit) 40 2).

(** The teacher creates an assignment whose body asks for late submissions. *)
Definition emptyCourseDB : DB :=
  mkDB [1; 2]%nat [Batch.mk 10 1 [2]%nat 500 30 true] [] [] [] [] 100.
Definition lateFriendlyBody : AssignmentBody.t :=
  AssignmentBody.mk (Some "Essay") 10 (Some 1000) (Some 50) (Some true).

(** An entry references an enrolled student; an entry passes the schema
    validation of [status] and [notes]. *)
Definition enrolledIn (b : Batch.t) (att : Att.t) : bool :=
  includes (Batch.students b) (Att.student att).

Definition storable (att : Att.t) : bool :=
  isOk (castStatus (Att.status att))
  && maxlength 500 (orEmpty (Att.notes att)).

Definition countIf {A} (f : A -> bool) (l : list A) : nat :=
  List.length (filter f l).

(** [_id] identifies an attendance document, and [nextId] is fresh. *)
Definition attendanceIdsOk (db : DB) : Prop :=
  NoDup (map Attendance._id (attendances db))
  /\ Forall (fun a => (Attendance._id a < nextId db)%nat) (attendances db).

(** The loop invariant of [markMultipleAttendances], relative to the
    database [db0] at the start of the request and the caller [uid]. *)
Definition bulkInv (db0 : DB) (uid : ObjectId) (st : BulkState) : Prop :=
  batches (bulk_db st) = batches db0
  /\ attendanceIdsOk (bulk_db st)
  /\ (nextId db0 <= nextId (bulk_db st))%nat
  /\ (forall r, In r (results st) ->
        exists r', findById Attendance._id (attendances (bulk_db st))
                            (Attendance._id r) = Some r'
                   /\ Attendance.markedBy r' = uid
                   /\ In r' (results st))
  /\ (forall id r0,
        findById Attendance._id (attendances db0) id = Some r0 ->
        exists r', findById Attendance._id (attendances (bulk_db st)) id = Some r'
                   /\ Attendance.student r' = Attendance.student r0
                   /\ Attendance.batch r' = Attendance.batch r0
                   /\ Attendance.date r' = Attendance.date r0)
  /\ (forall r', In r' (attendances (bulk_db st)) ->
        In r' (attendances db0) \/ In r' (results st)).

(** The record [r] is what the entry [att] of a request of [uid] for batch
    [bid] writes: the entry's student, the batch, the caller as marker, the
    entry's notes and the entry's status.  When [r] has the [_id] of a record
    [r0] of [db], the database before the request, it is that record
    overwritten: student, batch and date are those of [r0], and the status is
    the entry's also when the entry has none.  A record that the request
    created has the default status when the entry has none. *)
Definition written (db : DB) (uid bid : ObjectId) (att : Att.t)
    (r : Attendance.t) : Prop :=
  Attendance.student r = Att.student att
  /\ Attendance.batch r = bid
  /\ Attendance.markedBy r = uid
  /\ Attendance.notes r = orEmpty (Att.notes att)
  /\ match findById Attendance._id (attendances db) (Attendance._id r) with
     | Some r0 =>
         castStatus (Att.status att) = Ok (Attendance.status r)
         /\ Attendance.student r = Attendance.student r0
         /\ Attendance.batch r = Attendance.batch r0
         /\ Attendance.date r = Attendance.date r0
     | None =>
         castStatus (Att.status att) = Ok (Attendance.status r)
         \/ (Att.status att = None
             /\ Attendance.status r = Some Attendance.present)
     end.

(** [r] is what the entry writes, dated in the day range of [d]. *)
Definition marks (db : DB) (uid bid : ObjectId) (d : Z) (att : Att.t)
    (r : Attendance.t) : Prop :=
  written db uid bid att r
  /\ sameDay (Att.student att) bid d r = true.



(** Student [student] has a record of batch [batchId] in the day range of
    [date], marked by [uid]. *)
Definition markedToday (db : DB) (student batchId : ObjectId) (date : Z)
    (uid : ObjectId) : Prop :=
  exists r, In r (attendances db)
            /\ sameDay student batchId date r = true
            /\ Attendance.markedBy r = uid.

(** A ledger in which teacher 7 has marked student 2 absent on day 0, and
    the requests of teacher 1, the teacher of the batch, at 01:00 of that
    day. *)
Definition bulkDB : DB :=
  mkDB [1; 2; 3; 7]%nat [Batch.mk 10 1 [2; 3]%nat 500 30 true]
       [Attendance.mk 20 2 10 0 (Some Attendance.absent) 7 ""]
       [] [] [] 100.
Definition teacher7 : Req.user := Req.mkUser 7 role_teacher.
Definition threeEntries : list Att.t :=
  [Att.mk 2 (Some "present") (Some "arrived on time"); Att.mk 3 (Some "absent") None;
   Att.mk 9 (Some "present") None].
Definition sickEntry : list Att.t := [Att.mk 3 (Some "sick") None].
Definition bulkBody (atts : list Att.t) : BulkBody :=
  mkBulkBody (Some 10%nat) (Some 3600000) (Some (map Some atts)).

(** ** The batch controller: updates *)

(** The fields of a [PUT /batches/:id] body that the model carries. *)
Record BatchUpdate := mkBatchUpdate {
  new_teacher : option ObjectId;
  new_students : option (list ObjectId);
  new_fee : option Z;
  new_maxStudents : option Q;
  new_isActive : option bool
}.

Definition orElse {A} (o : option A) (d : A) : A :=
  match o with Some v => v | None => d end.

(** [updateBatch]: [findByIdAndUpdate] with [runValidators]; of the paths
    carried, [maxStudents] has a validator. *)
Definition updateBatch (db : DB) (user : Req.user) (id : ObjectId)
    (body : BatchUpdate) : Res Batch.t * DB :=
  match findById Batch._id (batches db) id with
  | None => (Fail (ErrorResponse "Batch not found" 404), db)
  | Some batch =>
      if notTeacherNorAdmin batch user then
        (Fail (ErrorResponse "Not authorized to update this batch" 403), db)
      else if (match new_maxStudents body with
               | Some m => negb (Qle_bool 1 m)
               | None => false
               end) then
        (Fail (ValidationError "Maximum students must be at least 1"), db)
      else
        let batch' :=
          Batch.mk (Batch._id batch)
            (orElse (new_teacher body) (Batch.teacher batch))
            (orElse (new_students body) (Batch.students batch))
            (orElse (new_fee body) (Batch.fee batch))
            (orElse (new_maxStudents body) (Batch.maxStudents batch))
            (orElse (new_isActive body) (Batch.isActive batch)) in
        (Ok batch', with_batches db (save Batch._id (batches db) batch'))
  end.

(** ** The attendance model: its summary *)

(** Two instants of one calendar day. *)
Definition sameDate (d d' : Z) : Prop := d / 86400000 = d' / 86400000.

(** The static method [Attendance.getAttendanceSummary] of
    models/Attendance.js, a module that binds [mongoose]. *)

(** The object the method builds: [total] and one property per status. *)
Record StatusTotals := mkStatusTotals {
  totalOf : Z;
  perStatus : list (option Attendance.Status * Z)
}.

(** [result[key] = value]. *)
Fixpoint setProperty (key : option Attendance.Status) (value : Z)
    (o : list (option Attendance.Status * Z))
    : list (option Attendance.Status * Z) :=
  match o with
  | [] => [(key, value)]
  | (k, v) :: o' =>
      if optStatus_eqb k key then (key, value) :: o'
      else (k, v) :: setProperty key value o'
  end.

(** [result[key]]. *)
Definition property (key : option Attendance.Status)
    (o : list (option Attendance.Status * Z)) : option Z :=
  option_map snd (find (fun kv => optStatus_eqb (fst kv) key) o).

(** [getAttendanceSummary]: the same [$match] and [$group] stages as the
    controller's pipeline, then the [forEach] that fills [result]. *)
Definition getAttendanceSummary (db : DB) (studentId batchId : ObjectId)
    : StatusTotals :=
  fold_left
    (fun result stat =>
       mkStatusTotals (totalOf result + count stat)
         (setProperty (row_status stat) (count stat) (perStatus result)))
    (aggregate db studentId batchId)
    (mkStatusTotals 0 []).

(** The records of a student in a batch, and those of them with a status. *)
Definition recordsOf (db : DB) (studentId batchId : ObjectId)
    : list Attendance.t :=
  filter (fun a => Nat.eqb (Attendance.student a) studentId
                   && Nat.eqb (Attendance.batch a) batchId)
         (attendances db).

Definition withStatus (k : option Attendance.Status) (l : list Attendance.t)
    : list Attendance.t :=
  filter (fun a => optStatus_eqb (Attendance.status a) k) l.

(** The count of the row of status [k], 0 without such a row. *)
Definition rowCount (k : option Attendance.Status) (g : list SummaryRow) : Z :=
  match find (fun r => optStatus_eqb (row_status r) k) g with
  | Some r => count r
  | None => 0
  end.

(** [g] groups the records [l] by status: one row per status that occurs,
    with the number of its records. *)
Definition groupsOf (l : list Attendance.t) (g : list SummaryRow) : Prop :=
  NoDup (map row_status g)
  /\ (forall k, rowCount k g = Z.of_nat (List.length (withStatus k l)))
  /\ Forall (fun r => 0 < count r) g
  /\ summaryTotal g = Z.of_nat (List.length l).

(** ** The payment controller and model: summaries *)

(** Every payment id is below [nextId]. *)
Definition paymentIdsOk (db : DB) : Prop :=
  Forall (fun p => (Payment._id p < nextId db)%nat) (payments db).


Definition isCompleted (p : Payment.t) : bool :=
  match Payment.status p with
  | Payment.completed => true
  | _ => false
  end.

(** Adding to a [Set], and [$addToSet]: the elements in order of arrival. *)
Definition addToSet (x : string) (l : list string) : list string :=
  if existsb (String.eqb x) l then l else l ++ [x].

(** The sum of a numeric path over documents. *)
Definition sumOf {A} (f : A -> Z) (l : list A) : Z :=
  fold_right (fun x acc => f x + acc) 0 l.

(** The row of the static method [Payment.getPaymentSummary]. *)
Record PaymentTotals := mkPaymentTotals {
  totalPaid : Z;
  monthsPaid : list string;
  paymentCount : Z
}.

(** The filter [{ student, batch, status: 'completed' }]. *)
Definition completedOf (db : DB) (studentId batchId : ObjectId) : list Payment.t :=
  filter (fun p => Nat.eqb (Payment.student p) studentId
                   && Nat.eqb (Payment.batch p) batchId
                   && isCompleted p)
         (payments db).

(** [getPaymentSummary]: [$group] with [_id: null] emits one row for a
    non-empty input and none for an empty one; the method then falls back on
    the zero row. *)
Definition getPaymentSummary (db : DB) (studentId batchId : ObjectId)
    : PaymentTotals :=
  let matched := completedOf db studentId batchId in
  let result :=
    match matched with
    | [] => []
    | _ :: _ =>
        [fold_left
           (fun acc p =>
              mkPaymentTotals (totalPaid acc + Payment.amount p)
                (addToSet (Payment.month p) (monthsPaid acc))
                (paymentCount acc + 1))
           matched (mkPaymentTotals 0 [] 0)]
    end in
  match result with
  | row :: _ => row
  | [] => mkPaymentTotals 0 [] 0
  end.

(** [populate('batch', 'name subject fee')]: of the paths selected, the ones
    the development carries. *)
Record BatchRef := mkBatchRef { ref_id : ObjectId; ref_fee : Z }.

Definition populateBatch (db : DB) (batchId : ObjectId) : option BatchRef :=
  match findById Batch._id (batches db) batchId with
  | Some b => Some (mkBatchRef (Batch._id b) (Batch.fee b))
  | None => None
  end.

(** An entry of [batchPayments] in [getStudentPaymentSummary]. *)
Record BatchPayments := mkBatchPayments {
  bp_batch : BatchRef;
  bp_paid : Z;
  bp_months : list string
}.

(** The body of the [forEach] after [totalPaid += payment.amount], on the
    object [batchPayments]; [batch] is the populated [payment.batch].  The keys
    are ids in hexadecimal, so that [Object.values] lists the entries in order
    of insertion. *)
Fixpoint addPayment (batch : BatchRef) (payment : Payment.t)
    (batchPayments : list (ObjectId * BatchPayments))
    : list (ObjectId * BatchPayments) :=
  match batchPayments with
  | [] =>
      [(ref_id batch,
        mkBatchPayments batch (0 + Payment.amount payment)
          (addToSet (Payment.month payment) []))]
  | (batchId, entry) :: rest =>
      if Nat.eqb batchId (ref_id batch) then
        (batchId,
         mkBatchPayments (bp_batch entry)
           (bp_paid entry + Payment.amount payment)
           (addToSet (Payment.month payment) (bp_months entry))) :: rest
      else (batchId, entry) :: addPayment batch payment rest
  end.

(** One round of the [forEach]: [populate('batch')] leaves [null] where the
    batch is gone, and [payment.batch._id] then throws. *)
Definition summaryStep (db : DB)
    (acc : Res (Z * list (ObjectId * BatchPayments))) (payment : Payment.t)
    : Res (Z * list (ObjectId * BatchPayments)) :=
  match acc with
  | Fail e => Fail e
  | Ok (paid, batchPayments) =>
      match populateBatch db (Payment.batch payment) with
      | None => Fail (TypeError "Cannot read properties of null")
      | Some batch =>
          Ok (paid + Payment.amount payment,
              addPayment batch payment batchPayments)
      end
  end.

Record BatchSummary := mkBatchSummary {
  bs_batch : BatchRef;
  paid : Z;
  pending : Z;
  bs_monthsPaid : list string;
  pendingMonths : list string
}.

Record StudentPaymentSummary := mkStudentPaymentSummary {
  sps_totalPaid : Z;
  totalPending : Z;
  batchSummaries : list BatchSummary
}.

(** The [map] over [Object.values(batchPayments)]. *)
Definition summarize (entry : BatchPayments) : BatchSummary :=
  let pendingMonths : list string := [] in
  mkBatchSummary (bp_batch entry) (bp_paid entry)
    (ref_fee (bp_batch entry) * Z.of_nat (List.length pendingMonths))
    (bp_months entry) pendingMonths.

(** The filter [{ student: studentId, status: 'completed' }]. *)
Definition completedPaymentsOf (db : DB) (studentId : ObjectId) : list Payment.t :=
  filter (fun p => Nat.eqb (Payment.student p) studentId && isCompleted p)
         (payments db).

(** [getStudentPaymentSummary]. *)
Definition getStudentPaymentSummary (db : DB) (user : Req.user)
    (studentId : ObjectId) : Res StudentPaymentSummary :=
  if Role_eqb (Req.role user) role_student
     && negb (Nat.eqb (Req.id user) studentId) then
    Fail (ErrorResponse "Not authorized to view this payment summary" 403)
  else
    match fold_left (summaryStep db) (completedPaymentsOf db studentId)
                    (Ok (0, [])) with
    | Fail e => Fail e
    | Ok (paid, batchPayments) =>
        let summaries := map (fun kv => summarize (snd kv)) batchPayments in
        Ok (mkStudentPaymentSummary paid
              (fold_left (fun acc s => acc + pending s) summaries 0)
              summaries)
    end.

(** The amounts of the payments [l], added one after the other from 0, as
    the [forEach] adds them. *)
Definition runningSum (l : list Payment.t) : Z :=
  fold_left (fun acc p => acc + Payment.amount p) l 0.

(** The payments of [l] for a batch. *)
Definition forBatch (batchId : ObjectId) (l : list Payment.t) : list Payment.t :=
  filter (fun p => Nat.eqb (Payment.batch p) batchId) l.

(** An entry of [batchPayments] holds what the payments [done] give its
    batch: their running sum and their months. *)
Definition entryOf (done : list Payment.t) (kv : ObjectId * BatchPayments)
    : Prop :=
  fst kv = ref_id (bp_batch (snd kv))
  /\ bp_paid (snd kv) = runningSum (forBatch (fst kv) done)
  /\ NoDup (bp_months (snd kv))
  /\ forall m, In m (bp_months (snd kv))
               <-> In m (map Payment.month (forBatch (fst kv) done)).

(** ** The assignment controller: entries and reading *)

(** The entry of a student in an assignment: the one [find] selects. *)
Definition entryAt (db : DB) (id studentId : ObjectId) : option Submission.t :=
  match findById Assignment._id (assignments db) id with
  | Some a => find (isStudent studentId) (Assignment.submissions a)
  | None => None
  end.

(** The assignment and the student a call writes for. *)
Definition callTarget (c : SubmissionCall) : ObjectId * ObjectId :=
  match c with
  | Submit u i _ _ _ => (i, Req.id u)
  | Grade _ a s _ _ _ => (a, s)
  | MethodAddSubmission i s _ _ _ => (i, s)
  | MethodGradeSubmission i s _ _ _ _ => (i, s)
  end.

(** An assignment without its submissions: [_id], [title], [batch],
    [assignedBy], [dueDate], [totalMarks] and [isActive].  The [updatedAt]
    stamp, which every save rewrites, is not among the paths carried. *)
Definition header (a : Assignment.t) : Assignment.t :=
  Assignment.with_submissions a [].

(** No assignment holds two submissions of one student. *)
Definition oneSubmissionEach (db : DB) : Prop :=
  Forall (fun a => NoDup (map Submission.student (Assignment.submissions a)))
         (assignments db).

(** What a call leaves behind: nothing, or the assignment with the entry of
    its student replaced, or with a first entry of its student appended. *)
Inductive Written (db db' : DB) (id t : ObjectId) : Prop :=
| written_nothing : db' = db -> Written db db' id t
| written_replaced (a : Assignment.t) (i : nat) (old new : Submission.t) :
    findById Assignment._id (assignments db) id = Some a ->
    findIndex (isStudent t) (Assignment.submissions a) = Some i ->
    nth_error (Assignment.submissions a) i = Some old ->
    Submission.student new = t ->
    db' = with_assignments db
            (save Assignment._id (assignments db)
               (Assignment.with_submissions a
                  (setIndex i new (Assignment.submissions a))))
            (nextId db) ->
    Written db db' id t
| written_pushed (a : Assignment.t) (new : Submission.t) :
    findById Assignment._id (assignments db) id = Some a ->
    findIndex (isStudent t) (Assignment.submissions a) = None ->
    Submission.student new = t ->
    db' = with_assignments db
            (save Assignment._id (assignments db)
               (Assignment.with_submissions a
                  (Assignment.submissions a ++ [new])))
            (nextId db) ->
    Written db db' id t.

(** [assignment.submissions.find(sub => sub.student._id.toString() ===
    req.user.id)] on the populated document: [sub.student] is [null] where
    the user is gone, and reading its [_id] throws. *)
Fixpoint findOwn (users : list ObjectId) (userId : ObjectId)
    (submissions : list Submission.t) : Res (option Submission.t) :=
  match submissions with
  | [] => Ok None
  | sub :: rest =>
      if negb (includes users (Submission.student sub)) then
        Fail (TypeError "Cannot read properties of null")
      else if Nat.eqb (Submission.student sub) userId then Ok (Some sub)
      else findOwn users userId rest
  end.

(** [getAssignment].  [req_user] is [req.user], which [protect] attaches;
    the route [GET /:id] of routes/assignments.js installs the handler
    without it. *)
Definition getAssignment (db : DB) (req_user : option Req.user) (id : ObjectId)
    : Res Assignment.t :=
  match findById Assignment._id (assignments db) id with
  | None => Fail (ErrorResponse "Assignment not found" 404)
  | Some assignment =>
      if negb (Assignment.isActive assignment) then
        Fail (ErrorResponse "Assignment not found" 404)
      else
        match findById Batch._id (batches db) (Assignment.batch assignment) with
        | None => Fail (TypeError "Cannot read properties of null")
        | Some batch =>
            match req_user with
            | None => Fail (TypeError "Cannot read properties of undefined")
            | Some user =>
                if Role_eqb (Req.role user) role_student
                   && negb (includes (Batch.students batch) (Req.id user))
                   && negb (Nat.eqb (Batch.teacher batch) (Req.id user)) then
                  Fail (ErrorResponse "Not authorized to view this assignment" 403)
                else if Role_eqb (Req.role user) role_student then
                  match findOwn (users db) (Req.id user)
                                (Assignment.submissions assignment) with
                  | Fail e => Fail e
                  | Ok studentSubmission =>
                      Ok (Assignment.with_submissions assignment
                            (match studentSubmission with
                             | Some s => [s]
                             | None => []
                             end))
                  end
                else Ok assignment
            end
        end
  end.

(** ** Material controller (controllers/materialController.js,
       models/Material.js) *)

Definition with_materials (db : DB) (l : list Material.t) (n : ObjectId) : DB :=
  mkDB (users db) (batches db) (attendances db) l (assignments db)
       (payments db) n.

(** [String.prototype.trim], which the [trim] option of a path applies, on
    ASCII text. *)
Definition isSpace (c : ascii) : bool :=
  (Nat.leb 9 (nat_of_ascii c) && Nat.leb (nat_of_ascii c) 13)
  || Nat.eqb (nat_of_ascii c) 32.

Fixpoint trimStart (s : string) : string :=
  match s with
  | String c s' => if isSpace c then trimStart s' else s
  | EmptyString => EmptyString
  end.

Fixpoint trimEnd (s : string) : string :=
  match s with
  | EmptyString => EmptyString
  | String c s' =>
      match trimEnd s' with
      | EmptyString => if isSpace c then EmptyString else String c EmptyString
      | t => String c t
      end
  end.

Definition trim (s : string) : string := trimEnd (trimStart s).

(** The fields of the form that the handler and the validation read. *)
Module MaterialBody.
Record t := mk {
  title : option string;
  description : option string;
  batch : option ObjectId;
  isActive : option bool
}.
End MaterialBody.

(** [req.files.file]. *)
Record UploadedFile := mkUploadedFile {
  file_name : string;
  file_mimetype : string;
  file_size : Z
}.

Definition fileTypes : list string :=
  ["application/pdf";
   "application/msword";
   "application/vnd.openxmlformats-officedocument.wordprocessingml.document";
   "application/vnd.ms-powerpoint";
   "application/vnd.openxmlformats-officedocument.presentationml.presentation";
   "text/plain"].

(** [materialSchema.pre('save')]: a batch with this id has the uploader as
    its teacher. *)
Definition teachesHook (db : DB) (batch uploadedBy : ObjectId) : bool :=
  existsb (fun b => Nat.eqb (Batch._id b) batch
                    && Nat.eqb (Batch.teacher b) uploadedBy) (batches db).

(** The validation of [title] and [description]. *)
Definition Material_validate (title description : option string) : Res unit :=
  match title with
  | None => Fail (ValidationError "Please provide material title")
  | Some t =>
      if String.eqb (trim t) "" then
        Fail (ValidationError "Please provide material title")
      else if negb (maxlength 200 (trim t)) then
        Fail (ValidationError "title is longer than the maximum allowed length")
      else if negb (maxlength 1000 (trim (orEmpty description))) then
        Fail (ValidationError
                "description is longer than the maximum allowed length")
      else Ok tt
  end.

(** [Material.create({ ...req.body, file })]: validation, the pre-save hook,
    the insert. *)
Definition Material_create (db : DB) (title description : option string)
    (batch uploadedBy : ObjectId) (isActive : option bool)
    : Res Material.t * DB :=
  match Material_validate title description with
  | Fail e => (Fail e, db)
  | Ok _ =>
      if negb (teachesHook db batch uploadedBy) then
        (Fail (Error
                 "Only the assigned teacher can upload materials for this batch"),
         db)
      else
        let doc := Material.mk (nextId db) batch uploadedBy (orElse isActive true) in
        (Ok doc, with_materials db (materials db ++ [doc]) (S (nextId db)))
  end.

(** [uploadMaterial].  [files] is [req.files] and, inside, its property
    [file]; [mvOk] tells whether [file.mv] succeeds. *)
Definition uploadMaterial (db : DB) (user : Req.user) (body : MaterialBody.t)
    (files : option (option UploadedFile)) (mvOk : bool)
    : Res Material.t * DB :=
  match (match MaterialBody.batch body with
         | Some b => findById Batch._id (batches db) b
         | None => None
         end) with
  | None => (Fail (ErrorResponse "Batch not found" 404), db)
  | Some batch =>
      if notTeacherNorAdmin batch user then
        (Fail (ErrorResponse
                 "Not authorized to upload materials for this batch" 403), db)
      else
        match files with
        | None => (Fail (ErrorResponse "Please upload a file" 400), db)
        | Some None => (Fail (TypeError "Cannot read properties of undefined"), db)
        | Some (Some file) =>
            if negb (existsb (String.eqb (file_mimetype file)) fileTypes) then
              (Fail (ErrorResponse
                       "Please upload a document file (PDF, DOC, DOCX, PPT, PPTX, TXT)"
                       400), db)
            else if file_size file >? 10 * 1024 * 1024 then
              (Fail (ErrorResponse "File size cannot be more than 10MB" 400), db)
            else if negb mvOk then
              (Fail (ErrorResponse "Problem with file upload" 500), db)
            else
              Material_create db (MaterialBody.title body)
                (MaterialBody.description body) (Batch._id batch) (Req.id user)
                (MaterialBody.isActive body)
        end
  end.

(** Ids identify batches. *)
Definition batchIdsOk (db : DB) : Prop := NoDup (map Batch._id (batches db)).

(** *** The upload filter of the materials router (routes/materials.js) *)

(** [String.prototype.toLowerCase] on ASCII text. *)
Definition toLowerChar (c : ascii) : ascii :=
  if Nat.leb 65 (nat_of_ascii c) && Nat.leb (nat_of_ascii c) 90
  then ascii_of_nat (nat_of_ascii c + 32)
  else c.

Fixpoint toLowerCase (s : string) : string :=
  match s with
  | EmptyString => EmptyString
  | String c s' => String (toLowerChar c) (toLowerCase s')
  end.

(** [hay] contains [needle]. *)
Fixpoint includesString (needle hay : string) : bool :=
  prefix needle hay
  || match hay with
     | EmptyString => false
     | String _ hay' => includesString needle hay'
     end.

(** [/pdf|doc|docx|ppt|pptx|txt/.test(s)]: the pattern has no anchor, so it
    matches where one of its words occurs. *)
Definition filetypes_test (s : string) : bool :=
  existsb (fun word => includesString word s)
          ["pdf"; "doc"; "docx"; "ppt"; "pptx"; "txt"].

(** [fileFilter]: whether the file is accepted; [extension] is
    [path.extname(file.originalname)]. *)
Definition fileFilter (extension mimetype : string) : bool :=
  filetypes_test mimetype && filetypes_test (toLowerCase extension).

(** ** Authentication middleware (middleware/auth.js, the second module of
       routes/users.js) *)

(** [String.prototype.split] on a one-character separator. *)
Fixpoint split (sep : ascii) (s : string) : list string :=
  match s with
  | EmptyString => [EmptyString]
  | String c s' =>
      if Ascii.eqb c sep then EmptyString :: split sep s'
      else match split sep s' with
           | piece :: rest => String c piece :: rest
           | [] => [String c EmptyString]
           end
  end.

Fixpoint contains (c : ascii) (s : string) : bool :=
  match s with
  | EmptyString => false
  | String c' s' => Ascii.eqb c' c || contains c s'
  end.

(** What [protect] reads of the request. *)
Record Request := mkRequest {
  authorization : option string;
  cookie_token : option string
}.

(** The [token] variable of [protect] before the test [!token]. *)
Definition tokenOf (req : Request) : option string :=
  if truthyString (authorization req)
     && prefix "Bearer" (orEmpty (authorization req)) then
    nth_error (split " " (orEmpty (authorization req))) 1
  else if truthyString (cookie_token req) then cookie_token req
  else None.

(** The header the client's request interceptor sets (frontend lib/api.ts). *)
Definition bearer (token : string) : string := "Bearer " ++ token.

Section Protect.

(** [jwt.verify(token, process.env.JWT_SECRET)]: the [id] of the payload,
    nothing when the call throws; and the users collection. *)
Variable verify : string -> option ObjectId.
Variable accounts : list Req.user.

(** [protect]: the user it attaches as [req.user]. *)
Definition protect (req : Request) : Res Req.user :=
  if negb (truthyString (tokenOf req)) then
    Fail (ErrorResponse "Not authorized to access this route" 401)
  else
    match verify (orEmpty (tokenOf req)) with
    | None => Fail (ErrorResponse "Not authorized to access this route" 401)
    | Some id =>
        match find (fun u => Nat.eqb (Req.id u) id) accounts with
        | None => Fail (ErrorResponse "User not found" 404)
        | Some user => Ok user
        end
    end.

(** [authorize(...roles)]. *)
Definition authorize (roles : list Role) (user : Req.user) : Res unit :=
  if negb (existsb (Role_eqb (Req.role user)) roles) then
    Fail (ErrorResponse "User role is not authorized to access this route" 403)
  else Ok tt.

End Protect.

(** The owner paths [checkOwnership] looks at, on any model. *)
Record Resource := mkResource {
  res_user : option ObjectId;
  res_student : option ObjectId;
  res_teacher : option ObjectId;
  res_uploadedBy : option ObjectId;
  res_assignedBy : option ObjectId;
  res_recordedBy : option ObjectId
}.

(** [resource[field] && resource[field].toString() !== req.user.id]. *)
Definition differs (userId : ObjectId) (field : option ObjectId) : bool :=
  match field with
  | Some v => negb (Nat.eqb v userId)
  | None => false
  end.

Definition ownerFields (r : Resource) : list (option ObjectId) :=
  [res_student r; res_teacher r; res_uploadedBy r; res_assignedBy r;
   res_recordedBy r].

(** [checkOwnership(model, paramName)], on the result of
    [model.findById(req.params[paramName])]: the resource it attaches as
    [req.resource]. *)
Definition checkOwnership (found : option Resource) (user : Req.user)
    : Res Resource :=
  match found with
  | None => Fail (ErrorResponse "Resource not found" 404)
  | Some resource =>
      if differs (Req.id user) (res_user resource)
         && negb (Role_eqb (Req.role user) role_admin) then
        Fail (ErrorResponse "User is not authorized to update this resource" 403)
      else
        match find (differs (Req.id user)) (ownerFields resource) with
        | Some ownerField =>
            if differs (Req.id user) ownerField
               && negb (Role_eqb (Req.role user) role_admin) then
              Fail (ErrorResponse
                      "User is not authorized to access this resource" 403)
            else Ok resource
        | None => Ok resource
        end
  end.

(** The owner paths of the models. *)
Definition Payment_resource (p : Payment.t) : Resource :=
  mkResource None (Some (Payment.student p)) None None None
             (Some (Payment.recordedBy p)).

Definition Batch_resource (b : Batch.t) : Resource :=
  mkResource None None (Some (Batch.teacher b)) None None None.

(** The identifiers the middleware module binds at its top. *)
Definition auth_scope : list string := ["jwt"; "User"; "ErrorResponse"].

(** [checkEnrollment]: the batch it attaches as [req.batch].  The body runs
    in a [try] whose [catch] hands the error to [next]. *)
Definition checkEnrollment (db : DB) (user : Req.user) (batchId : ObjectId)
    : Res Batch.t :=
  match resolve auth_scope "Batch" with
  | Fail e => Fail e
  | Ok _ =>
      match findById Batch._id (batches db) batchId with
      | None => Fail (ErrorResponse "Batch not found" 404)
      | Some batch =>
          if Role_eqb (Req.role user) role_admin
             || Nat.eqb (Batch.teacher batch) (Req.id user) then Ok batch
          else if Role_eqb (Req.role user) role_student
                  && negb (existsb (fun student => Nat.eqb student (Req.id user))
                                   (Batch.students batch)) then
            Fail (ErrorResponse "You are not enrolled in this batch" 403)
          else Ok batch
      end
  end.

(** ** User controller (first module of controllers/userController.js) *)

(** The paths of a user document that the user controller reads or writes,
    with the two timestamps of the schema; [isActive] is a boolean, as the
    schema's default [true] and [toggleUserStatus] leave it. *)
Module User.
Record t := mk {
  _id : ObjectId;
  role : Role;
  isActive : bool;
  createdAt : Z;
  updatedAt : Z
}.

Definition with_updatedAt (u : t) (now : Z) : t :=
  mk (_id u) (role u) (isActive u) (createdAt u) now.
End User.

(** [toggleUserStatus], on the users collection; [now] is the time of the
    [user.save()], which the [timestamps] option writes to [updatedAt]. *)
Definition toggleUserStatus (users : list User.t) (user : Req.user)
    (id : ObjectId) (now : Z) : Res User.t * list User.t :=
  match findById User._id users id with
  | None => (Fail (ErrorResponse "User not found" 404), users)
  | Some u =>
      if Nat.eqb (User._id u) (Req.id user) then
        (Fail (ErrorResponse "You cannot deactivate your own account" 400), users)
      else
        let u' := User.mk (User._id u) (User.role u) (negb (User.isActive u))
                    (User.createdAt u) now in
        (Ok u', save User._id users u')
  end.

(** A row of [getUserStats]. *)
Record RoleStats := mkRoleStats {
  stat_role : Role;
  stat_count : Z;
  stat_active : Z;
  stat_inactive : Z;
  stat_lastMonth : Z
}.

(** [{ $cond: [test, 1, 0] }]. *)
Definition cond (test : bool) : Z := if test then 1 else 0.

(** The [$group] stage, one row per role in order of first appearance. *)
Fixpoint addUser (since : Z) (u : User.t) (g : list RoleStats) : list RoleStats :=
  match g with
  | [] =>
      [mkRoleStats (User.role u) 1 (cond (User.isActive u))
         (cond (negb (User.isActive u))) (cond (User.createdAt u >? since))]
  | r :: g' =>
      if Role_eqb (stat_role r) (User.role u) then
        mkRoleStats (stat_role r) (stat_count r + 1)
          (stat_active r + cond (User.isActive u))
          (stat_inactive r + cond (negb (User.isActive u)))
          (stat_lastMonth r + cond (User.createdAt u >? since)) :: g'
      else r :: addUser since u g'
  end.

(** The order of the role names: 'admin' < 'student' < 'teacher'. *)
Definition roleRank (r : Role) : nat :=
  match r with
  | role_admin => 0
  | role_student => 1
  | role_teacher => 2
  end.

(** The [$sort: { _id: 1 }] stage. *)
Fixpoint insertRow (r : RoleStats) (l : list RoleStats) : list RoleStats :=
  match l with
  | [] => [r]
  | x :: l' =>
      if Nat.leb (roleRank (stat_role r)) (roleRank (stat_role x))
      then r :: x :: l'
      else x :: insertRow r l'
  end.

Definition sortRows (l : list RoleStats) : list RoleStats :=
  fold_right insertRow [] l.

(** [getUserStats]; [now] is [Date.now()]. *)
Definition getUserStats (users : list User.t) (now : Z) : list RoleStats :=
  sortRows
    (fold_left (fun g u => addUser (now - 30 * 24 * 60 * 60 * 1000) u g) users []).

(** The users of a role. *)
Definition ofRole (r : Role) (users : list User.t) : list User.t :=
  filter (fun u => Role_eqb (User.role u) r) users.

Definition countOf (f : User.t -> bool) (users : list User.t) : Z :=
  Z.of_nat (List.length (filter f users)).

(** A row tells the truth about the users [l]. *)
Definition rowOf (since : Z) (l : list User.t) (r : RoleStats) : Prop :=
  stat_count r = countOf (fun _ => true) (ofRole (stat_role r) l)
  /\ stat_active r = countOf User.isActive (ofRole (stat_role r) l)
  /\ stat_inactive r
     = countOf (fun u => negb (User.isActive u)) (ofRole (stat_role r) l)
  /\ stat_lastMonth r
     = countOf (fun u => User.createdAt u >? since) (ofRole (stat_role r) l)
  /\ 0 < stat_count r.

(** Rows in strictly ascending order of role name. *)
Fixpoint ascending (l : list RoleStats) : Prop :=
  match l with
  | [] => True
  | r :: l' =>
      Forall (fun x => (roleRank (stat_role r) < roleRank (stat_role x))%nat) l'
      /\ ascending l'
  end.

(** [getUserBatches]: the rows carry the paths
    ['name subject schedule fee startDate endDate']. *)
Definition getUserBatches (db : DB) (user : Req.user) (id : ObjectId)
    : Res (list BatchRef) :=
  if negb (Nat.eqb id (Req.id user))
     && negb (Role_eqb (Req.role user) role_admin) then
    Fail (ErrorResponse "Not authorized to access this resource" 403)
  else
    let query :=
      match Req.role user with
      | role_teacher =>
          filter (fun b => Nat.eqb (Batch.teacher b) id) (batches db)
      | role_student =>
          filter (fun b => includes (Batch.students b) id) (batches db)
      | role_admin => batches db
      end in
    Ok (map (fun b => mkBatchRef (Batch._id b) (Batch.fee b)) query).

(** ** The routers (routes/users.js, routes/assignments.js) *)

(** The middlewares a router puts in front of a handler. *)
Inductive Middleware :=
| Protect
| Authorize (roles : list Role).

(** The middlewares in turn, from a request on which nothing has set
    [req.user]; [authorize] reads [req.user.role]. *)
Fixpoint through (verify : string -> option ObjectId) (accounts : list Req.user)
    (stack : list Middleware) (req : Request) (req_user : option Req.user)
    : Res (option Req.user) :=
  match stack with
  | [] => Ok req_user
  | Protect :: rest =>
      match protect verify accounts req with
      | Fail e => Fail e
      | Ok user => through verify accounts rest req (Some user)
      end
  | Authorize roles :: rest =>
      match req_user with
      | None => Fail (TypeError "Cannot read properties of undefined")
      | Some user =>
          match authorize roles user with
          | Fail e => Fail e
          | Ok _ => through verify accounts rest req req_user
          end
      end
  end.

(** routes/users.js: [router.use(protect); router.use(authorize('admin'))]
    before every route. *)
Definition usersRouter : list Middleware := [Protect; Authorize [role_admin]].

(** [GET /api/users/:id/batches]. *)
Definition GET_users_id_batches (verify : string -> option ObjectId)
    (accounts : list Req.user) (db : DB) (req : Request) (id : ObjectId)
    : Res (list BatchRef) :=
  match through verify accounts usersRouter req None with
  | Fail e => Fail e
  | Ok None => Fail (TypeError "Cannot read properties of undefined")
  | Ok (Some user) => getUserBatches db user id
  end.

(** routes/assignments.js: [router.route('/:id').get(getAssignment)]. *)
Definition assignments_GET_id : list Middleware := [].

(** [GET /api/assignments/:id]. *)
Definition GET_assignments_id (verify : string -> option ObjectId)
    (accounts : list Req.user) (db : DB) (req : Request) (id : ObjectId)
    : Res Assignment.t :=
  match through verify accounts assignments_GET_id req None with
  | Fail e => Fail e
  | Ok req_user => getAssignment db req_user id
  end.

(** ** Further scenarios *)

(** Student 2 pays March and April 2024 in cash; the March record is then
    deleted. *)
Definition aprilBody : PaymentBody.t :=
  PaymentBody.mk (Some 2%nat) (Some 10%nat) (Some "2024-04") None (Some "cash")
                 None.
Definition marchPaidDB : DB :=
  snd (createPayment ledgerDB ledgerAdmin marchBody 2024).
Definition aprilPaidDB : DB :=
  snd (createPayment marchPaidDB ledgerAdmin aprilBody 2024).

(** Student 3 of the marked batch on day 0. *)
Definition dayZeroBody : AttendanceBody :=
  mkAttendanceBody 3 10 0 (Some "present") None.

(** A users collection: an admin, a teacher, two students of whom one is
    inactive; and a token that identifies the admin. *)
Definition staff : list User.t :=
  [User.mk 1 role_admin true 0 0; User.mk 7 role_teacher true 5000000000 5000000000;
   User.mk 2 role_student true 5000000000 5000000000;
   User.mk 3 role_student false 0 1000].
Definition adminAccounts : list Req.user := [Req.mkUser 1 role_admin].
Definition verifyToken (token : string) : option ObjectId :=
  if String.eqb token "header.payload.signature" then Some 1%nat else None.

(** A lecture script as the teacher of batch 10 and as an admin upload it. *)
Definition scriptBody : MaterialBody.t :=
  MaterialBody.mk (Some "Lecture 1") None (Some 10%nat) None.
Definition scriptFile : UploadedFile :=
  mkUploadedFile "lecture1.pdf" "application/pdf" 4096.

(** * Properties *)

(** ** Collections *)

Lemma includes_In (l : list ObjectId) (x : ObjectId) :
  includes l x = true <-> In x l.
Proof.
  unfold includes. rewrite existsb_exists. split.
  - intros [y [Hy He]]. apply Nat.eqb_eq in He. now subst.
  - intros H. exists x. split; [assumption | apply Nat.eqb_refl].
Qed.

Lemma includes_false (l : list ObjectId) (x : ObjectId) :
  includes l x = false <-> ~ In x l.
Proof.
  rewrite <- includes_In. destruct (includes l x); split; congruence.
Qed.

Section CollectionFacts.
Context {D : Type} (key : D -> ObjectId).

Lemma findById_key (c : list D) (i : ObjectId) (d : D) :
  findById key c i = Some d -> key d = i /\ In d c.
Proof.
  unfold findById. intros H. apply find_some in H.
  destruct H as [Hin He]. apply Nat.eqb_eq in He. auto.
Qed.

Lemma findById_save (c : list D) (d : D) (i : ObjectId) :
  findById key (save key c d) i =
  match findById key c i with
  | Some x => Some (if Nat.eqb (key x) (key d) then d else x)
  | None => None
  end.
Proof.
  unfold findById. induction c as [|x c IH]; simpl; [reflexivity|].
  destruct (Nat.eqb (key x) (key d)) eqn:Hxd; simpl.
  - assert (Hk : key d = key x) by (apply Nat.eqb_eq in Hxd; congruence).
    rewrite Hk. destruct (Nat.eqb (key x) i) eqn:Hxi.
    + rewrite Nat.eqb_refl. reflexivity.
    + destruct (find _ c) as [x0|] eqn:Hf; [|reflexivity].
      apply find_some in Hf. destruct Hf as [_ Hf].
      apply Nat.eqb_eq in Hf. rewrite Hf, Nat.eqb_sym, Hxi. reflexivity.
  - destruct (Nat.eqb (key x) i) eqn:Hxi.
    + rewrite Hxd. reflexivity.
    + exact IH.
Qed.

Lemma findById_save_same (c : list D) (d x : D) :
  findById key c (key d) = Some x ->
  findById key (save key c d) (key d) = Some d.
Proof.
  intros H. rewrite findById_save, H.
  destruct (findById_key _ _ _ H) as [Hk _].
  rewrite Hk, Nat.eqb_refl. reflexivity.
Qed.

Lemma findById_app_fresh (c : list D) (d : D) (i : ObjectId) :
  i <> key d -> findById key (c ++ [d]) i = findById key c i.
Proof.
  intros Hne. unfold findById. induction c as [|x c IH]; simpl.
  - destruct (Nat.eqb (key d) i) eqn:E; [|reflexivity].
    apply Nat.eqb_eq in E. congruence.
  - destruct (Nat.eqb (key x) i); [reflexivity | exact IH].
Qed.

Lemma findById_app_new (c : list D) (d : D) :
  Forall (fun x => key x <> key d) c ->
  findById key (c ++ [d]) (key d) = Some d.
Proof.
  unfold findById. induction 1 as [|x c Hx _ IH]; simpl.
  - now rewrite Nat.eqb_refl.
  - apply Nat.eqb_neq in Hx. now rewrite Hx.
Qed.

Lemma map_save_same {B} (f : D -> B) (c : list D) (d x : D) :
  findById key c (key d) = Some x ->
  f d = f x ->
  map f (save key c d) = map f c.
Proof.
  unfold findById. induction c as [|y c IH]; simpl; [discriminate|].
  destruct (Nat.eqb (key y) (key d)); simpl.
  - intros [= ->] Hf. now rewrite Hf.
  - intros Hx Hf. f_equal. now apply IH.
Qed.

Lemma In_save (c : list D) (d y : D) :
  In y (save key c d) -> y = d \/ In y c.
Proof.
  induction c as [|x c IH]; simpl; [tauto|].
  destruct (Nat.eqb (key x) (key d)); simpl.
  - intros [<-|H]; auto.
  - intros [<-|H]; auto. destruct (IH H); auto.
Qed.
End CollectionFacts.

(** ** The batch roster *)
















(** The end-to-end scenario of the specification: one seat; A is added, B is
    refused for capacity, A is removed, B is added. *)
Example roster_scenario :
  let r1 := addStudentToBatch scenarioDB 10 (Some 2%nat) in
  let r2 := addStudentToBatch (snd r1) 10 (Some 3%nat) in
  let r3 := removeStudentFromBatch (snd r2) 10 2 in
  let r4 := addStudentToBatch (snd r3) 10 (Some 3%nat) in
  isOk (fst r1) = true
  /\ fst r2 = Fail (ErrorResponse "Batch is full" 400)
  /\ isOk (fst r3) = true
  /\ option_map Batch.students (findById Batch._id (batches (snd r4)) 10%nat)
     = Some [3%nat].
Proof. repeat split. Qed.

(** A student who is on the roster and whose user document is gone is
    answered 404, not 400. *)
Example enrolled_without_a_user :
  addStudentToBatch orphanDB 10 (Some 2%nat)
  = (Fail (ErrorResponse "Batch or student not found" 404), orphanDB).
Proof. reflexivity. Qed.

(** ** Cascade on batch deletion *)

Lemma filter_after_remove {A} (f : A -> bool) (l : list A) :
  filter f (filter (fun x => negb (f x)) l) = [].
Proof.
  induction l as [|x l IH]; simpl; [reflexivity|].
  destruct (f x) eqn:E; simpl; [exact IH|]. rewrite E. exact IH.
Qed.

Lemma findById_remove {D} (key : D -> ObjectId) (c : list D) (i : ObjectId) :
  findById key (remove key c i) i = None.
Proof.
  unfold findById, remove. induction c as [|x c IH]; simpl; [reflexivity|].
  destruct (Nat.eqb (key x) i) eqn:E; simpl; [exact IH|]. rewrite E. exact IH.
Qed.

(** C8. After a successful delete of a batch, the queries by that batch's id
    find no Attendance, no Material and no Assignment record (and no batch). *)
Theorem deleteBatch_cascades :
  forall (db db' : DB) (user : Req.user) (id : ObjectId),
    deleteBatch db user id = (Ok tt, db') ->
    attendancesOfBatch db' id = []
    /\ materialsOfBatch db' id = []
    /\ assignmentsOfBatch db' id = []
    /\ findById Batch._id (batches db') id = None.
Proof.
  intros db db' user id H. unfold deleteBatch in H.
  destruct (findById Batch._id (batches db) id) as [b|] eqn:Hb; [|discriminate].
  destruct (notTeacherNorAdmin b user); [discriminate|].
  destruct (findById_key _ _ _ _ Hb) as [Hid _]. rewrite Hid in H.
  injection H as <-.
  unfold attendancesOfBatch, materialsOfBatch, assignmentsOfBatch. simpl.
  repeat split.
  - apply (filter_after_remove (fun a => Nat.eqb (Attendance.batch a) id)).
  - apply (filter_after_remove (fun m => Nat.eqb (Material.batch m) id)).
  - apply (filter_after_remove (fun a => Nat.eqb (Assignment.batch a) id)).
  - apply findById_remove.
Qed.

(** Teacher 1 deletes batch 10 of the database with two batches. *)
Lemma deleteBatch_cascades_witness :
  attendancesOfBatch (snd (deleteBatch cascadeDB (Req.mkUser 1 role_teacher) 10)) 10 = []
  /\ materialsOfBatch (snd (deleteBatch cascadeDB (Req.mkUser 1 role_teacher) 10)) 10 = []
  /\ assignmentsOfBatch (snd (deleteBatch cascadeDB (Req.mkUser 1 role_teacher) 10)) 10 = []
  /\ findById Batch._id
       (batches (snd (deleteBatch cascadeDB (Req.mkUser 1 role_teacher) 10))) 10
     = None.
Proof.
  apply (deleteBatch_cascades cascadeDB _ (Req.mkUser 1 role_teacher) 10).
  reflexivity.
Defined.

(** The owning teacher's or an admin's delete of an existing batch succeeds,
    and the children of other batches stay. *)
Lemma deleteBatch_succeeds (db : DB) (user : Req.user) (id : ObjectId) (b : Batch.t) :
  findById Batch._id (batches db) id = Some b ->
  notTeacherNorAdmin b user = false ->
  exists db', deleteBatch db user id = (Ok tt, db')
              /\ forall other, other <> id ->
                   attendancesOfBatch db' other = attendancesOfBatch db other.
Proof.
  intros Hb Hauth. unfold deleteBatch. rewrite Hb, Hauth.
  destruct (findById_key _ _ _ _ Hb) as [Hid _]. rewrite Hid.
  eexists. split; [reflexivity|]. intros other Hne.
  unfold attendancesOfBatch. simpl.
  induction (attendances db) as [|a l IH]; simpl; [reflexivity|].
  destruct (Nat.eqb (Attendance.batch a) id) eqn:E; simpl.
  - apply Nat.eqb_eq in E. rewrite E.
    apply Nat.eqb_neq in Hne. rewrite Nat.eqb_sym in Hne. rewrite Hne. exact IH.
  - destruct (Nat.eqb (Attendance.batch a) other); [f_equal|]; exact IH.
Qed.

(** ** The attendance summary *)

(** The arithmetic of the handler on that ledger: two rows, four records,
    three of them present, 75 percent. *)
Lemma summary_arithmetic :
  aggregate summaryDB 2 10
  = [mkRow (Some Attendance.present) 3; mkRow (Some Attendance.absent) 1]
  /\ summaryTotal (aggregate summaryDB 2 10) = 4
  /\ summaryPresent (aggregate summaryDB 2 10) = 3
  /\ percentageOf 3 4 = 75.
Proof. repeat split; vm_compute; reflexivity. Qed.

(** Without records the guard [total > 0] answers 0. *)
Lemma percentage_without_records (present : Z) : percentageOf present 0 = 0.
Proof. reflexivity. Qed.

(** The quotient is a double: 29 days present out of 200 give 14, the
    product [0.145 * 100] being just below 14.5. *)
Lemma percentage_in_doubles : percentageOf 29 200 = 14 /\ percentageOf 1 8 = 13.
Proof. split; vm_compute; reflexivity. Qed.

(** The handler never answers with a summary: whoever asks, for whichever
    student and batch. *)
Lemma getStudentAttendanceSummary_never_ok (db : DB) (user : Req.user)
    (studentId batchId : ObjectId) :
  isOk (getStudentAttendanceSummary db user studentId batchId) = false.
Proof.
  unfold getStudentAttendanceSummary.
  destruct (findById Batch._id (batches db) batchId); [|reflexivity].
  destruct (_ && _); reflexivity.
Qed.

(** C7. The teacher of batch 10 asks for the summary of student 2, who has
    three [present] records and one [absent] record: the handler fails on the
    unbound identifier [mongoose] and no percentage is returned. *)
Theorem attendance_summary_throws :
  getStudentAttendanceSummary summaryDB (Req.mkUser 1 role_teacher) 2 10
  = Fail (ReferenceError "mongoose is not defined").
Proof. reflexivity. Qed.

(** ** The payment ledger *)

Ltac break_match H :=
  match type of H with
  | context [match ?x with _ => _ end] => destruct x eqn:?
  end.

Lemma NoDup_snoc {A} (l : list A) (x : A) :
  NoDup l -> ~ In x l -> NoDup (l ++ [x]).
Proof.
  intros Hnd Hx. apply NoDup_rev in Hnd.
  rewrite <- (rev_involutive (l ++ [x])). apply NoDup_rev.
  rewrite rev_app_distr. simpl. constructor; [|exact Hnd].
  now rewrite <- in_rev.
Qed.

Lemma paymentKeyTaken_false (db : DB) (s b : ObjectId) (m : string) :
  paymentKeyTaken db s b m = false ->
  ~ In (s, b, m) (map paymentKey (payments db)).
Proof.
  unfold paymentKeyTaken. intros H Hin. apply in_map_iff in Hin.
  destruct Hin as [p [Hk Hp]]. unfold paymentKey in Hk. injection Hk as <- <- <-.
  assert (E : existsb (fun p0 => Nat.eqb (Payment.student p0) (Payment.student p)
                       && Nat.eqb (Payment.batch p0) (Payment.batch p)
                       && String.eqb (Payment.month p0) (Payment.month p))
                      (payments db) = true).
  { apply existsb_exists. exists p. split; [exact Hp|].
    now rewrite !Nat.eqb_refl, String.eqb_refl. }
  congruence.
Qed.

(** What a successful [Payment.create] stored. *)
Lemma Payment_create_ok (db db' : DB) (body : PaymentBody.t) (r : ObjectId)
    (year : nat) (p : Payment.t) :
  Payment_create db body r year = (Ok p, db') ->
  PaymentBody.student body = Some (Payment.student p)
  /\ PaymentBody.batch body = Some (Payment.batch p)
  /\ PaymentBody.month body = Some (Payment.month p)
  /\ PaymentBody.amount body = Some (Payment.amount p)
  /\ (match PaymentBody.status body with
      | None => Some Payment.pending
      | Some s => Payment.status_enum s
      end) = Some (Payment.status p)
  /\ (exists method, PaymentBody.paymentMethod body = Some method
                     /\ Payment.method_enum method = Some (Payment.paymentMethod p))
  /\ paymentKeyTaken db (Payment.student p) (Payment.batch p) (Payment.month p)
     = false
  /\ db' = with_payments db (payments db ++ [p]) (S (nextId db)).
Proof.
  unfold Payment_create. intros H.
  repeat (break_match H; try discriminate);
    injection H as <- <-; simpl;
    match goal with
    | E : (_ || _) = false |- _ => apply orb_false_iff in E; destruct E
    end;
    repeat split; try reflexivity; try assumption; eauto.
Qed.

Lemma createPayment_ok (db db' : DB) (user : Req.user) (body : PaymentBody.t)
    (year : nat) (p : Payment.t) :
  createPayment db user body year = (Ok p, db') ->
  PaymentBody.student body = Some (Payment.student p)
  /\ PaymentBody.batch body = Some (Payment.batch p)
  /\ PaymentBody.month body = Some (Payment.month p)
  /\ Payment.status p = Payment.completed
  /\ (exists b, findById Batch._id (batches db) (Payment.batch p) = Some b
                /\ includes (Batch.students b) (Payment.student p) = true
                /\ (noAmount (PaymentBody.amount body) = true ->
                    Payment.amount p = Batch.fee b))
  /\ paymentKeyTaken db (Payment.student p) (Payment.batch p) (Payment.month p)
     = false
  /\ db' = with_payments db (payments db ++ [p]) (S (nextId db)).
Proof.
  unfold createPayment. intros H.
  destruct (find _ (payments db)); [discriminate|].
  destruct (PaymentBody.batch body) as [bid|] eqn:Hbid; [|discriminate].
  destruct (findById Batch._id (batches db) bid) as [b|] eqn:Hb; [|discriminate].
  destruct (PaymentBody.student body) as [sid|] eqn:Hsid; [|discriminate].
  destruct (includes (Batch.students b) sid) eqn:Hinc; [|discriminate].
  simpl in H. apply Payment_create_ok in H. simpl in H.
  destruct H as (Hs & Hba & Hm & Ha & Hst & [method [Hmeth Henum]] & Hk & Hdb).
  injection Hs as Hs. injection Hba as Hba. subst sid bid.
  repeat split; try assumption; try reflexivity.
  - destruct (optString_is (PaymentBody.paymentMethod body) "online") eqn:Hon;
      simpl in Hst.
    + destruct (PaymentBody.paymentMethod body) as [m|] eqn:Hm'; [|discriminate].
      simpl in Hon. apply String.eqb_eq in Hon. subst m.
      injection Hmeth as <-. discriminate.
    + change (Some Payment.completed = Some (Payment.status p)) in Hst.
      congruence.
  - exists b. repeat split; try assumption.
    intros Hno. rewrite Hno in Ha. congruence.
Qed.

Lemma Payment_create_fail (db db' : DB) (body : PaymentBody.t) (r : ObjectId)
    (year : nat) (e : Failure) :
  Payment_create db body r year = (Fail e, db') -> db' = db.
Proof.
  unfold Payment_create. intros H.
  repeat (break_match H; try discriminate); congruence.
Qed.

Lemma createPayment_fail (db db' : DB) (user : Req.user) (body : PaymentBody.t)
    (year : nat) (e : Failure) :
  createPayment db user body year = (Fail e, db') -> db' = db.
Proof.
  unfold createPayment. intros H.
  destruct (find _ (payments db)); [congruence|].
  destruct (match PaymentBody.batch body with
            | Some b => findById Batch._id (batches db) b
            | None => None
            end); [|congruence].
  destruct (negb _); [congruence|].
  eapply Payment_create_fail; eassumption.
Qed.

Lemma NoDup_map_filter {A B} (f : A -> B) (g : A -> bool) (l : list A) :
  NoDup (map f l) -> NoDup (map f (filter g l)).
Proof.
  induction l as [|x l IH]; simpl; [auto|].
  intros H. inversion H as [|? ? Hx Hnd]; subst.
  destruct (g x); simpl; [|auto].
  constructor; [|auto].
  intros Hin. apply Hx. apply in_map_iff in Hin.
  destruct Hin as [y [Hy Hin]]. apply filter_In in Hin.
  apply in_map_iff. exists y. tauto.
Qed.

Lemma paymentCall_unique (db : DB) (c : PaymentCall) :
  uniqueTriples db -> uniqueTriples (paymentCall db c).
Proof.
  unfold uniqueTriples. intros Hu. destruct c as [u body year|i body|i]; simpl.
  - destruct (createPayment db u body year) as [[p|e] db'] eqn:H; simpl.
    + apply createPayment_ok in H.
      destruct H as (_ & _ & _ & _ & _ & Hk & ->). simpl.
      rewrite map_app. simpl. apply NoDup_snoc; [exact Hu|].
      now apply paymentKeyTaken_false.
    + apply createPayment_fail in H. now subst.
  - unfold updatePayment.
    destruct (findById Payment._id (payments db) i) as [p|] eqn:Hp; [|exact Hu].
    repeat match goal with
           | |- context [if ?x then _ else _] => destruct x; simpl; try exact Hu
           | |- context [match ?x with _ => _ end] =>
               destruct x; simpl; try exact Hu
           end;
    destruct (findById_key _ _ _ _ Hp) as [Hi _]; subst i;
    match goal with
    | |- NoDup (map paymentKey (save Payment._id _ ?d)) =>
        rewrite (map_save_same Payment._id paymentKey (payments db) d p Hp
                   eq_refl)
    end; exact Hu.
  - unfold deletePayment.
    destruct (findById Payment._id (payments db) i) as [p|]; simpl; [|exact Hu].
    unfold remove. now apply NoDup_map_filter.
Qed.

Lemma paymentCalls_unique (calls : list PaymentCall) :
  forall db, uniqueTriples db -> uniqueTriples (fold_left paymentCall calls db).
Proof.
  induction calls as [|c calls IH]; intros db Hu; simpl; [exact Hu|].
  apply IH, paymentCall_unique, Hu.
Qed.

Lemma createPayment_duplicate (db : DB) (user : Req.user) (body : PaymentBody.t)
    (year : nat) (p : Payment.t) :
  In p (payments db) ->
  sameTriple (PaymentBody.student body) (PaymentBody.batch body)
             (PaymentBody.month body) p = true ->
  createPayment db user body year
  = (Fail (ErrorResponse
             "Payment already recorded for this student, batch, and month" 400),
     db).
Proof.
  intros Hin Hsame. unfold createPayment.
  destruct (find _ (payments db)) eqn:Hf; [reflexivity|].
  pose proof (find_none _ _ Hf p Hin) as Hnone. simpl in Hnone. congruence.
Qed.

(** C6. The payment ledger never holds two records of one (student, batch,
    month) triple, whatever calls are made; a create for a triple that has a
    record is answered 400 and changes nothing, in particular a second create
    after a successful one; and a created record whose request named no
    amount carries the fee of its batch. *)
Theorem one_payment_per_triple :
  forall (db : DB),
    uniqueTriples db ->
    (forall calls, uniqueTriples (fold_left paymentCall calls db))
    /\ (forall user body year p,
          In p (payments db) ->
          sameTriple (PaymentBody.student body) (PaymentBody.batch body)
                     (PaymentBody.month body) p = true ->
          createPayment db user body year
          = (Fail (ErrorResponse
                     "Payment already recorded for this student, batch, and month"
                     400), db))
    /\ (forall user body year p db',
          createPayment db user body year = (Ok p, db') ->
          (forall user' body' year',
              PaymentBody.student body' = PaymentBody.student body ->
              PaymentBody.batch body' = PaymentBody.batch body ->
              PaymentBody.month body' = PaymentBody.month body ->
              createPayment db' user' body' year'
              = (Fail (ErrorResponse
                         "Payment already recorded for this student, batch, and month"
                         400), db'))
          /\ (PaymentBody.amount body = None ->
              exists b,
                findById Batch._id (batches db) (Payment.batch p) = Some b
                /\ Payment.amount p = Batch.fee b)).
Proof.
  intros db Hu. split; [|split].
  - intros calls. now apply paymentCalls_unique.
  - intros. now apply createPayment_duplicate with (p := p).
  - intros user body year p db' H. apply createPayment_ok in H.
    destruct H as (Hs & Hb & Hm & _ & [b [Hfb [_ Hfee]]] & _ & ->). split.
    + intros user' body' year' Es Eb Em.
      apply createPayment_duplicate with (p := p).
      * simpl. apply in_or_app. right. simpl. auto.
      * unfold sameTriple. rewrite Es, Eb, Em, Hs, Hb, Hm. simpl.
        now rewrite !Nat.eqb_refl, String.eqb_refl.
    + intros Hnone. exists b. split; [exact Hfb|]. apply Hfee.
      now rewrite Hnone.
Qed.

(** The empty ledger: two creates for March 2024, a delete, a third create. *)
Lemma one_payment_per_triple_witness :
  uniqueTriples
    (fold_left paymentCall
       [CreatePayment ledgerAdmin marchBody 2024;
        CreatePayment ledgerAdmin marchBody 2024;
        DeletePayment 100;
        CreatePayment ledgerAdmin marchBody 2025] ledgerDB)
  /\ createPayment (snd (createPayment ledgerDB ledgerAdmin marchBody 2024))
                   ledgerAdmin marchBody 2025
     = (Fail (ErrorResponse
                "Payment already recorded for this student, batch, and month"
                400),
        snd (createPayment ledgerDB ledgerAdmin marchBody 2024))
  /\ option_map Payment.amount
       (findById Payment._id
          (payments (snd (createPayment ledgerDB ledgerAdmin marchBody 2024)))
          100)
     = Some 500.
Proof.
  destruct (one_payment_per_triple ledgerDB) as [H1 [_ H3]].
  - constructor.
  - split; [apply H1|]. split; [|reflexivity].
    refine (proj1 (H3 ledgerAdmin marchBody 2024%nat _ _ eq_refl)
                  ledgerAdmin marchBody 2025%nat eq_refl eq_refl eq_refl).
Defined.

(** C9. Every payment that create-payment stores has status [completed]:
    the status is forced for every method other than 'online', and a request
    naming 'online' fails validation and stores nothing. *)
Theorem created_payments_are_completed :
  forall (db : DB) (user : Req.user) (body : PaymentBody.t) (year : nat),
    (forall p db',
        createPayment db user body year = (Ok p, db') ->
        Payment.status p = Payment.completed
        /\ payments db' = payments db ++ [p])
    /\ (forall e db',
          createPayment db user body year = (Fail e, db') -> db' = db)
    /\ (PaymentBody.paymentMethod body = Some "online" ->
        isOk (fst (createPayment db user body year)) = false).
Proof.
  intros db user body year. split; [|split].
  - intros p db' H. apply createPayment_ok in H.
    destruct H as (_ & _ & _ & Hst & _ & _ & ->). split; [exact Hst|reflexivity].
  - intros e db' H. eapply createPayment_fail; eassumption.
  - intros Hon.
    destruct (createPayment db user body year) as [[p|e] db'] eqn:H;
      [|reflexivity].
    exfalso. unfold createPayment in H.
    destruct (find _ (payments db)); [discriminate|].
    destruct (match PaymentBody.batch body with
              | Some b => findById Batch._id (batches db) b
              | None => None
              end); [|discriminate].
    destruct (negb _); [discriminate|].
    apply Payment_create_ok in H. simpl in H.
    destruct H as (_ & _ & _ & _ & _ & [m [Hm He]] & _).
    rewrite Hon in Hm. injection Hm as <-. discriminate.
Qed.

(** A cash payment is stored as completed; an online payment is not stored. *)
Lemma created_payments_are_completed_witness :
  (forall p db',
      createPayment ledgerDB ledgerAdmin marchBody 2024 = (Ok p, db') ->
      Payment.status p = Payment.completed
      /\ payments db' = payments ledgerDB ++ [p])
  /\ isOk (fst (createPayment ledgerDB ledgerAdmin marchBody 2024)) = true
  /\ isOk (fst (createPayment ledgerDB ledgerAdmin onlineBody 2024)) = false.
Proof.
  split; [|split].
  - apply (created_payments_are_completed ledgerDB ledgerAdmin marchBody 2024).
  - reflexivity.
  - apply (created_payments_are_completed ledgerDB ledgerAdmin onlineBody 2024).
    reflexivity.
Defined.

(** ** The submission workflow *)

Lemma findIndex_Some {A} (f : A -> bool) (l : list A) (i : nat) :
  findIndex f l = Some i ->
  exists old, nth_error l i = Some old /\ f old = true /\ find f l = Some old.
Proof.
  revert i. induction l as [|x l IH]; simpl; intros i H; [discriminate|].
  destruct (f x) eqn:Hx.
  - injection H as <-. exists x. auto.
  - destruct (findIndex f l) as [j|]; [|discriminate].
    injection H as <-. simpl. now apply IH.
Qed.

Lemma findIndex_None {A} (f : A -> bool) (l : list A) :
  findIndex f l = None -> find f l = None.
Proof.
  induction l as [|x l IH]; simpl; [reflexivity|].
  destruct (f x); [discriminate|].
  destruct (findIndex f l); [discriminate|]. auto.
Qed.

Lemma find_setIndex_hit {A} (f : A -> bool) (l : list A) (i : nat) (new : A) :
  findIndex f l = Some i -> f new = true -> find f (setIndex i new l) = Some new.
Proof.
  revert i. induction l as [|x l IH]; simpl; intros i H Hn; [discriminate|].
  destruct (f x) eqn:Hx.
  - injection H as <-. simpl. now rewrite Hn.
  - destruct (findIndex f l) as [j|]; [|discriminate].
    injection H as <-. simpl. rewrite Hx. now apply IH.
Qed.

Lemma find_setIndex_miss {A} (g : A -> bool) (l : list A) (i : nat) (old new : A) :
  nth_error l i = Some old -> g old = false -> g new = false ->
  find g (setIndex i new l) = find g l.
Proof.
  revert i. induction l as [|x l IH]; intros [|i] H Ho Hn; simpl in *;
    try discriminate.
  - injection H as ->. now rewrite Ho, Hn.
  - destruct (g x); [reflexivity|]. now apply IH.
Qed.

Lemma find_snoc {A} (g : A -> bool) (l : list A) (x : A) :
  find g (l ++ [x]) =
  match find g l with
  | Some y => Some y
  | None => if g x then Some x else None
  end.
Proof.
  induction l as [|y l IH]; simpl; [reflexivity|].
  destruct (g y); [reflexivity | exact IH].
Qed.

Lemma statusAt_saved (db : DB) (a a' : Assignment.t) (n id s : ObjectId) :
  findById Assignment._id (assignments db) (Assignment._id a') = Some a ->
  statusAt (with_assignments db (save Assignment._id (assignments db) a') n) id s
  = if Nat.eqb id (Assignment._id a') then statusOf a' s else statusAt db id s.
Proof.
  intros Ha. unfold statusAt. simpl. rewrite findById_save.
  destruct (Nat.eqb id (Assignment._id a')) eqn:E.
  - apply Nat.eqb_eq in E. subst id. rewrite Ha.
    destruct (findById_key _ _ _ _ Ha) as [Hk _]. now rewrite Hk, Nat.eqb_refl.
  - destruct (findById Assignment._id (assignments db) id) as [x|] eqn:Hx;
      [|reflexivity].
    destruct (findById_key _ _ _ _ Hx) as [Hk _]. now rewrite Hk, E.
Qed.

(** Replacing the entry [findIndex] selected for student [t] by an entry of
    the same student moves only that student's status. *)
Lemma statusOf_replace (a : Assignment.t) (t s : ObjectId) (i : nat)
    (new : Submission.t) :
  findIndex (isStudent t) (Assignment.submissions a) = Some i ->
  Submission.student new = t ->
  statusOf (Assignment.with_submissions a
              (setIndex i new (Assignment.submissions a))) s
  = if Nat.eqb s t
    then Some (Submission.status new)
    else statusOf a s.
Proof.
  intros Hi Hnew. unfold statusOf. simpl.
  destruct (findIndex_Some _ _ _ Hi) as [old [Hnth [Hold _]]].
  unfold isStudent in Hold. apply Nat.eqb_eq in Hold.
  destruct (Nat.eqb s t) eqn:E.
  - apply Nat.eqb_eq in E. subst s.
    rewrite (find_setIndex_hit _ _ _ new Hi); [reflexivity|].
    unfold isStudent. rewrite Hnew. apply Nat.eqb_refl.
  - assert (Ho : isStudent s old = false)
      by (unfold isStudent; now rewrite Hold, Nat.eqb_sym).
    assert (Hn : isStudent s new = false)
      by (unfold isStudent; now rewrite Hnew, Nat.eqb_sym).
    now rewrite (find_setIndex_miss _ _ _ old new Hnth Ho Hn).
Qed.

(** Appending a first entry for student [t]. *)
Lemma statusOf_push (a : Assignment.t) (t s : ObjectId) (new : Submission.t) :
  findIndex (isStudent t) (Assignment.submissions a) = None ->
  Submission.student new = t ->
  statusOf (Assignment.with_submissions a (Assignment.submissions a ++ [new])) s
  = if Nat.eqb s t
    then Some (Submission.status new)
    else statusOf a s.
Proof.
  intros Hi Hnew. unfold statusOf. simpl. rewrite find_snoc.
  apply findIndex_None in Hi.
  assert (Hn : isStudent s new = Nat.eqb s t)
    by (unfold isStudent; now rewrite Hnew, Nat.eqb_sym).
  rewrite Hn. destruct (Nat.eqb s t) eqn:E.
  - apply Nat.eqb_eq in E. subst s. now rewrite Hi.
  - destruct (find (isStudent s) (Assignment.submissions a)); reflexivity.
Qed.

Lemma Assignment_save_status (vt : ThisBinding) (db db' : DB)
    (a a' r : Assignment.t) (id s : ObjectId) :
  findById Assignment._id (assignments db) (Assignment._id a') = Some a ->
  Assignment_save vt db a' = (Ok r, db') ->
  statusAt db' id s
  = if Nat.eqb id (Assignment._id a') then statusOf a' s else statusAt db id s.
Proof.
  unfold Assignment_save. intros Ha H.
  destruct (Assignment_validate vt a'); [|discriminate].
  injection H as _ <-. now apply statusAt_saved with (a := a).
Qed.

Lemma Assignment_save_fail (vt : ThisBinding) (db db' : DB) (a' : Assignment.t)
    (e : Failure) :
  Assignment_save vt db a' = (Fail e, db') -> db' = db.
Proof.
  unfold Assignment_save.
  destruct (Assignment_validate vt a'); [discriminate|]. congruence.
Qed.

Lemma moved_refl (db : DB) : moved db db.
Proof. intros id s. now left. Qed.

Lemma moved_replace (vt : ThisBinding) (db db' : DB) (a r : Assignment.t)
    (t : ObjectId) (i : nat) (new : Submission.t) :
  findById Assignment._id (assignments db) (Assignment._id a) = Some a ->
  findIndex (isStudent t) (Assignment.submissions a) = Some i ->
  Submission.student new = t ->
  Submission.status new = Submission.resubmitted
  \/ Submission.status new = Submission.graded ->
  Assignment_save vt db
    (Assignment.with_submissions a (setIndex i new (Assignment.submissions a)))
  = (Ok r, db') ->
  moved db db'.
Proof.
  intros Ha Hi Hnew Hst Hsave id s.
  rewrite (Assignment_save_status vt db db' a
             (Assignment.with_submissions a
                (setIndex i new (Assignment.submissions a))) r id s Ha Hsave).
  simpl.
  destruct (Nat.eqb id (Assignment._id a)) eqn:E; [|now left].
  apply Nat.eqb_eq in E. subst id.
  rewrite (statusOf_replace a t s i new Hi Hnew).
  unfold statusAt. rewrite Ha.
  destruct (Nat.eqb s t) eqn:Est; [|now left].
  apply Nat.eqb_eq in Est. subst s. right.
  destruct (findIndex_Some _ _ _ Hi) as [old [_ [_ Hfind]]].
  unfold statusOf. rewrite Hfind. simpl.
  destruct Hst as [-> | ->]; exact I.
Qed.

Lemma moved_push (vt : ThisBinding) (db db' : DB) (a r : Assignment.t)
    (t : ObjectId) (new : Submission.t) :
  findById Assignment._id (assignments db) (Assignment._id a) = Some a ->
  findIndex (isStudent t) (Assignment.submissions a) = None ->
  Submission.student new = t ->
  Submission.status new = Submission.submitted
  \/ Submission.status new = Submission.late ->
  Assignment_save vt db
    (Assignment.with_submissions a (Assignment.submissions a ++ [new]))
  = (Ok r, db') ->
  moved db db'.
Proof.
  intros Ha Hi Hnew Hst Hsave id s.
  rewrite (Assignment_save_status vt db db' a
             (Assignment.with_submissions a (Assignment.submissions a ++ [new]))
             r id s Ha Hsave).
  simpl.
  destruct (Nat.eqb id (Assignment._id a)) eqn:E; [|now left].
  apply Nat.eqb_eq in E. subst id.
  rewrite (statusOf_push a t s new Hi Hnew).
  unfold statusAt. rewrite Ha.
  destruct (Nat.eqb s t) eqn:Est; [|now left].
  apply Nat.eqb_eq in Est. subst s. right.
  unfold statusOf. rewrite (findIndex_None _ _ Hi). simpl.
  destruct Hst as [-> | ->]; exact I.
Qed.

Lemma findById_self {D} (key : D -> ObjectId) (c : list D) (i : ObjectId) (d : D) :
  findById key c i = Some d -> findById key c (key d) = Some d.
Proof.
  intros H. destruct (findById_key _ _ _ _ H) as [-> _]. exact H.
Qed.

Lemma submitAssignment_moved (vt : ThisBinding) (db : DB) (user : Req.user)
    (id : ObjectId) (notes : option string) (files : list Submission.File)
    (now : Z) :
  moved db (snd (submitAssignment vt db user id notes files now)).
Proof.
  unfold submitAssignment.
  destruct (findById Assignment._id (assignments db) id) as [a|] eqn:Ha;
    [|apply moved_refl].
  apply findById_self in Ha.
  destruct (negb (Assignment.isActive a)); [apply moved_refl|].
  destruct (findById Batch._id (batches db) (Assignment.batch a));
    [|apply moved_refl].
  destruct (negb (includes _ _)); [apply moved_refl|].
  destruct (_ && _); [apply moved_refl|].
  destruct (findIndex (isStudent (Req.id user)) (Assignment.submissions a))
    as [i|] eqn:Hi.
  - destruct (nth_error (Assignment.submissions a) i) as [old|];
      [|apply moved_refl].
    destruct (Assignment_save vt db _) as [[r|e] db'] eqn:Hs; simpl.
    + eapply moved_replace; try eassumption; [reflexivity | now left].
    + apply Assignment_save_fail in Hs. subst. apply moved_refl.
  - destruct (Assignment_save vt db _) as [[r|e] db'] eqn:Hs; simpl.
    + eapply moved_push; try eassumption; [reflexivity|].
      simpl. destruct (now >? Assignment.dueDate a); auto.
    + apply Assignment_save_fail in Hs. subst. apply moved_refl.
Qed.

Lemma gradeSubmission_moved (vt : ThisBinding) (db : DB) (user : Req.user)
    (assignmentId studentId : ObjectId) (marksObtained : option Z)
    (feedback : option string) (now : Z) :
  moved db (snd (gradeSubmission vt db user assignmentId studentId marksObtained
                                 feedback now)).
Proof.
  unfold gradeSubmission.
  destruct (findById Assignment._id (assignments db) assignmentId) as [a|] eqn:Ha;
    [|apply moved_refl].
  apply findById_self in Ha.
  destruct (negb (Assignment.isActive a)); [apply moved_refl|].
  destruct (findById Batch._id (batches db) (Assignment.batch a)) as [b|];
    [|apply moved_refl].
  destruct (notTeacherNorAdmin b user); [apply moved_refl|].
  destruct (findIndex (isStudent studentId) (Assignment.submissions a))
    as [i|] eqn:Hi; [|apply moved_refl].
  destruct (findIndex_Some _ _ _ Hi) as [old [Hnth [Hold _]]]. rewrite Hnth.
  destruct (Assignment_save vt db _) as [[r|e] db'] eqn:Hs; simpl;
    [|apply moved_refl].
  eapply moved_replace; try eassumption; [|now right].
  simpl. unfold isStudent in Hold. now apply Nat.eqb_eq in Hold.
Qed.

Lemma addSubmission_moved (vt : ThisBinding) (db : DB) (id studentId : ObjectId)
    (files : list Submission.File) (notes : option string) (now : Z) :
  moved db (snd (addSubmission vt db id studentId files notes now)).
Proof.
  unfold addSubmission.
  destruct (findById Assignment._id (assignments db) id) as [a|] eqn:Ha;
    [|apply moved_refl].
  apply findById_self in Ha.
  destruct (findIndex (isStudent studentId) (Assignment.submissions a))
    as [i|] eqn:Hi.
  - destruct (nth_error (Assignment.submissions a) i) as [old|];
      [|apply moved_refl].
    destruct (Assignment_save vt db _) as [[r|e] db'] eqn:Hs; simpl.
    + eapply moved_replace; try eassumption; [reflexivity | now left].
    + apply Assignment_save_fail in Hs. subst. apply moved_refl.
  - destruct (Assignment_save vt db _) as [[r|e] db'] eqn:Hs; simpl.
    + eapply moved_push; try eassumption; [reflexivity|].
      simpl. destruct (Assignment.dueDate a <? now); auto.
    + apply Assignment_save_fail in Hs. subst. apply moved_refl.
Qed.

Lemma Assignment_gradeSubmission_moved (vt : ThisBinding) (db : DB)
    (id studentId : ObjectId) (marks : option Z) (feedback : option string)
    (gradedBy : ObjectId) (now : Z) :
  moved db (snd (Assignment_gradeSubmission vt db id studentId marks feedback
                                            gradedBy now)).
Proof.
  unfold Assignment_gradeSubmission.
  destruct (findById Assignment._id (assignments db) id) as [a|] eqn:Ha;
    [|apply moved_refl].
  apply findById_self in Ha.
  destruct (findIndex (isStudent studentId) (Assignment.submissions a))
    as [i|] eqn:Hi.
  - destruct (findIndex_Some _ _ _ Hi) as [old [_ [Hold Hfind]]]. rewrite Hfind.
    destruct (Assignment_save vt db _) as [[r|e] db'] eqn:Hs; simpl.
    + eapply moved_replace; try eassumption; [|now right].
      simpl. unfold isStudent in Hold. now apply Nat.eqb_eq in Hold.
    + apply Assignment_save_fail in Hs. subst. apply moved_refl.
  - destruct (find _ _); apply moved_refl.
Qed.

(** C1, as stated, fails: a graded submission that its student submits again
    goes from [graded] to [resubmitted]. *)
Lemma graded_submission_is_resubmitted :
  gradedThenResubmitted thisSubmission /\ gradedThenResubmitted thisAssignment.
Proof. split; repeat split; vm_compute; tauto. Qed.

(** C1, amended. Under the submit and grade operations (the controllers and
    the schema methods) the status of a student's submission only moves from
    none to [submitted] or [late], from any existing status to [resubmitted],
    and from any existing status to [graded]. *)
Theorem submission_status_transitions :
  forall (vt : ThisBinding) (db : DB) (c : SubmissionCall) (id s : ObjectId),
    statusAt (submissionCall vt db c) id s = statusAt db id s
    \/ codeTransition (statusAt db id s)
                      (statusAt (submissionCall vt db c) id s).
Proof.
  intros vt db c. destruct c; simpl.
  - apply submitAssignment_moved.
  - apply gradeSubmission_moved.
  - apply addSubmission_moved.
  - apply Assignment_gradeSubmission_moved.
Qed.

(** Each transition of the amended relation is made by some call: in time
    the controller stores [submitted]; after the due date the schema method
    stores [late] (the controller stores nothing, see below); a further
    submission gives [resubmitted], also from [resubmitted]; a grade gives
    [graded], also from [graded]. *)
Example transitions_that_occur :
  forall vt,
    statusAt (submissionCall vt workflowDB firstSubmit) 40 2
    = Some Submission.submitted
    /\ statusAt (submissionCall vt workflowDB
                   (MethodAddSubmission 40 2 [] None 2000)) 40 2
       = Some Submission.late
    /\ statusAt (submissionCall vt workflowDB (Submit student2 40 None [] 2000))
                40 2
       = None
    /\ statusAt (submissionCall vt
                   (submissionCall vt (gradedDB vt) secondSubmit)
                   secondSubmit) 40 2
       = Some Submission.resubmitted
    /\ statusAt (submissionCall vt (gradedDB vt) gradeIt) 40 2
       = Some Submission.graded.
Proof. intros []; repeat split. Qed.

(** *** Late submissions *)

(** Past the due date the controller refuses every submission of an enrolled
    student, and stores nothing. *)
Lemma late_submission_rejected (vt : ThisBinding) (db : DB) (user : Req.user)
    (id : ObjectId) (notes : option string) (files : list Submission.File)
    (now : Z) (a : Assignment.t) (b : Batch.t) :
  findById Assignment._id (assignments db) id = Some a ->
  Assignment.isActive a = true ->
  findById Batch._id (batches db) (Assignment.batch a) = Some b ->
  includes (Batch.students b) (Req.id user) = true ->
  Assignment.dueDate a < now ->
  submitAssignment vt db user id notes files now
  = (Fail (ErrorResponse
             "Late submissions are not allowed for this assignment" 400), db).
Proof.
  intros Ha Hact Hb Hinc Hlate. unfold submitAssignment.
  rewrite Ha, Hact, Hb, Hinc. simpl.
  assert (E : (now >? Assignment.dueDate a) = true)
    by (rewrite Z.gtb_ltb; now apply Z.ltb_lt).
  now rewrite E.
Qed.

(** C2. The assignment is created from a body with
    [allowLateSubmission: true]; the enrolled student submits after the due
    date and is answered 400, nothing being stored. *)
Theorem late_submission_refused_despite_flag :
  forall vt : ThisBinding,
    let created := createAssignment vt emptyCourseDB teacher1 lateFriendlyBody in
    option_map Assignment.dueDate
      (findById Assignment._id (assignments (snd created)) 100) = Some 1000
    /\ submitAssignment vt (snd created) student2 100 None [] 2000
       = (Fail (ErrorResponse
                  "Late submissions are not allowed for this assignment" 400),
          snd created).
Proof. intros []; split; reflexivity. Qed.

(** *** Grading *)

Lemma marks_above_total_never_validate (vt : ThisBinding) (parent : Assignment.t)
    (old : Submission.t) (m : Z) (feedback : option string)
    (gradedBy : ObjectId) (now : Z) :
  Assignment.totalMarks parent < m ->
  exists e,
    validateSubmission vt parent (grade old (Some m) feedback gradedBy now)
    = Fail e.
Proof.
  intros Hm. unfold validateSubmission, grade, marksObtained_max, lessOrEqual.
  simpl.
  destruct (negb (maxlength 1000 (Submission.notes old))); [eauto|].
  destruct (negb (maxlength 1000 (orEmpty feedback))); [eauto|].
  destruct (m <? 0); [eauto|].
  destruct vt; simpl; [eauto|].
  assert (E : (m <=? Assignment.totalMarks parent) = false)
    by (apply Z.leb_gt; exact Hm).
  rewrite E. simpl. eauto.
Qed.

Lemma validateSubmissions_setIndex (vt : ThisBinding) (parent : Assignment.t)
    (l : list Submission.t) (i : nat) (old new : Submission.t) (e : Failure) :
  nth_error l i = Some old ->
  validateSubmission vt parent new = Fail e ->
  exists e', validateSubmissions vt parent (setIndex i new l) = Fail e'.
Proof.
  revert i. induction l as [|x l IH]; intros [|i] Hnth Hnew; simpl in *;
    try discriminate.
  - rewrite Hnew. eauto.
  - destruct (validateSubmission vt parent x); [|eauto].
    eapply IH; eassumption.
Qed.

(** C3. Grading an existing submission with marks above the assignment's
    [totalMarks] is rejected: the request fails and the database, hence the
    submission's status and marks, is unchanged. *)
Theorem grade_above_total_rejected :
  forall (vt : ThisBinding) (db : DB) (user : Req.user)
         (assignmentId studentId : ObjectId)
         (marks : Z) (feedback : option string) (now : Z)
         (a : Assignment.t) (sub : Submission.t),
    findById Assignment._id (assignments db) assignmentId = Some a ->
    find (isStudent studentId) (Assignment.submissions a) = Some sub ->
    Assignment.totalMarks a < marks ->
    exists e,
      gradeSubmission vt db user assignmentId studentId (Some marks) feedback now
      = (Fail e, db).
Proof.
  intros vt db user aid sid m fb now a sub Ha _ Hm. unfold gradeSubmission.
  rewrite Ha.
  destruct (negb (Assignment.isActive a)); [eauto|].
  destruct (findById Batch._id (batches db) (Assignment.batch a)) as [b|];
    [|eauto].
  destruct (notTeacherNorAdmin b user); [eauto|].
  destruct (findIndex (isStudent sid) (Assignment.submissions a)) as [i|] eqn:Hi;
    [|eauto].
  destruct (nth_error (Assignment.submissions a) i) as [old|] eqn:Hnth; [|eauto].
  set (a' := Assignment.with_submissions a _).
  destruct (marks_above_total_never_validate vt a' old m fb (Req.id user) now Hm)
    as [e He].
  destruct (validateSubmissions_setIndex vt a' _ i old _ e Hnth He) as [e' He'].
  unfold Assignment_save, Assignment_validate.
  change (Assignment.submissions a')
    with (setIndex i (grade old (Some m) fb (Req.id user) now)
                   (Assignment.submissions a)).
  rewrite He'.
  destruct (String.eqb _ _); [eauto|].
  destruct (negb _); [eauto|].
  destruct (_ <? _); eauto.
Qed.

(** 60 marks for the essay worth 50, the validator running on the
    assignment. *)
Lemma grade_above_total_rejected_witness :
  exists e,
    gradeSubmission thisAssignment (submittedDB thisAssignment) teacher1 40 2
                    (Some 60) (Some "too generous") 20
    = (Fail e, submittedDB thisAssignment).
Proof.
  apply (grade_above_total_rejected thisAssignment (submittedDB thisAssignment)
           teacher1 40 2 60 (Some "too generous") 20
           (Assignment.mk 40 "Essay" 10 1 1000 50
              [Submission.mk 2 10 [] "" None None None None
                             Submission.submitted] true)
           (Submission.mk 2 10 [] "" None None None None Submission.submitted)).
  - reflexivity.
  - reflexivity.
  - simpl. lia.
Defined.

(** The essay is worth 50 marks.  60 marks are refused whichever document
    the validator runs on.  40 marks are stored when it runs on the
    assignment and refused, by the same validator, when it runs on the
    submission; a grade without marks is stored in both cases. *)
Example grading_the_submitted_essay :
  (forall vt,
      fst (gradeSubmission vt (submittedDB vt) teacher1 40 2 (Some 60) None 20)
      = Fail (ValidationError "Marks cannot exceed total marks"))
  /\ isOk (fst (gradeSubmission thisAssignment (submittedDB thisAssignment)
                  teacher1 40 2 (Some 40) None 20)) = true
  /\ fst (gradeSubmission thisSubmission (submittedDB thisSubmission)
            teacher1 40 2 (Some 40) None 20)
     = Fail (ValidationError "Marks cannot exceed total marks")
  /\ (forall vt,
        isOk (fst (gradeSubmission vt (submittedDB vt) teacher1 40 2 None None 20))
        = true).
Proof. repeat split; try (intros []); reflexivity. Qed.

(** ** Bulk attendance marking *)

Lemma setHours_midnight_le (d : Z) : setHours d 0 0 0 <= d.
Proof.
  unfold setHours.
  replace 86400000 with (1000 * 86400) by reflexivity.
  rewrite Z.rem_mul_r by lia.
  pose proof (Z.mod_pos_bound (d / 1000) 86400 ltac:(lia)). lia.
Qed.

Lemma findById_In_NoDup {D} (key : D -> ObjectId) (c : list D) (d : D) :
  NoDup (map key c) -> In d c -> findById key c (key d) = Some d.
Proof.
  unfold findById. induction c as [|x c IH]; simpl; [tauto|].
  intros Hnd [->|Hin].
  - now rewrite Nat.eqb_refl.
  - inversion Hnd as [|? ? Hx Hnd']; subst.
    destruct (Nat.eqb (key x) (key d)) eqn:E; [|auto].
    apply Nat.eqb_eq in E. exfalso. apply Hx. rewrite E. now apply in_map.
Qed.

Lemma Attendance_update_ok (db db' : DB) (existing doc : Attendance.t)
    (status : option string) (notes : string) (markedBy : ObjectId) :
  Attendance_update db existing status notes markedBy = (Ok doc, db') ->
  Attendance._id doc = Attendance._id existing
  /\ Attendance.student doc = Attendance.student existing
  /\ Attendance.batch doc = Attendance.batch existing
  /\ Attendance.date doc = Attendance.date existing
  /\ Attendance.markedBy doc = markedBy
  /\ Attendance.notes doc = notes
  /\ castStatus status = Ok (Attendance.status doc)
  /\ db' = with_attendances db (save Attendance._id (attendances db) doc)
                            (nextId db).
Proof.
  unfold Attendance_update. intros H.
  destruct (castStatus status) as [st|]; [|discriminate].
  destruct (negb (maxlength 500 notes)); [discriminate|].
  destruct (negb (enrolledHook db _ _)); [discriminate|].
  injection H as <- <-. simpl. repeat split; reflexivity.
Qed.

Lemma Attendance_create_ok (db db' : DB) (doc : Attendance.t)
    (student batch : ObjectId) (date : Z) (status : option string)
    (notes : string) (markedBy : ObjectId) :
  Attendance_create db student batch date status notes markedBy = (Ok doc, db') ->
  Attendance._id doc = nextId db
  /\ Attendance.student doc = student
  /\ Attendance.batch doc = batch
  /\ Attendance.date doc = date
  /\ Attendance.markedBy doc = markedBy
  /\ Attendance.notes doc = notes
  /\ db' = with_attendances db (attendances db ++ [doc]) (S (nextId db)).
Proof.
  unfold Attendance_create. intros H.
  destruct (castStatus status) as [st|]; [|discriminate].
  destruct (negb (maxlength 500 notes)); [discriminate|].
  destruct (negb (enrolledHook db _ _)); [discriminate|].
  destruct (attendanceKeyTaken db _ _ _); [discriminate|].
  injection H as <- <-. simpl. repeat split; reflexivity.
Qed.

Lemma Attendance_create_status (db db' : DB) (doc : Attendance.t)
    (student batch : ObjectId) (date : Z) (status : option string)
    (notes : string) (markedBy : ObjectId) :
  Attendance_create db student batch date status notes markedBy = (Ok doc, db') ->
  castStatus status = Ok (Attendance.status doc)
  \/ (status = None /\ Attendance.status doc = Some Attendance.present).
Proof.
  unfold Attendance_create. intros H.
  destruct (castStatus status) as [st|] eqn:Hc; [|discriminate].
  destruct (negb (maxlength 500 notes)); [discriminate|].
  destruct (negb (enrolledHook db _ _)); [discriminate|].
  destruct (attendanceKeyTaken db _ _ _); [discriminate|].
  injection H as <- <-. simpl. destruct st as [v|]; [now left|].
  right. split; [|reflexivity].
  destruct status as [v|]; [|reflexivity].
  simpl in Hc. destruct (Attendance.status_enum v); discriminate.
Qed.

Lemma bulkInv_start (db : DB) (uid : ObjectId) :
  attendanceIdsOk db -> bulkInv db uid (mkBulk db [] [] None).
Proof.
  intros Hok. unfold bulkInv. simpl. repeat split; try tauto; try apply Hok.
  - apply Nat.le_refl.
  - intros id r0 H. exists r0. auto.
Qed.

Lemma bulkInv_update (db0 db' : DB) (uid : ObjectId) (st : BulkState)
    (existing doc : Attendance.t) (status : option string) (notes : string)
    (errs : list BulkError) (thr : option Failure) :
  bulkInv db0 uid st ->
  In existing (attendances (bulk_db st)) ->
  Attendance_update (bulk_db st) existing status notes uid = (Ok doc, db') ->
  bulkInv db0 uid (mkBulk db' (results st ++ [doc]) errs thr).
Proof.
  intros (Hb & [Hnd Hlt] & Hn & Hres & Hkeep & Hfrom) Hin Hupd.
  apply Attendance_update_ok in Hupd.
  destruct Hupd as (Hid & Hs & Hba & Hd & Hm & _ & _ & ->).
  assert (Hex : findById Attendance._id (attendances (bulk_db st))
                         (Attendance._id doc) = Some existing).
  { rewrite Hid. now apply findById_In_NoDup. }
  unfold bulkInv, attendanceIdsOk. simpl.
  split; [|split; [split|split; [|split; [|split]]]].
  - exact Hb.
  - rewrite (map_save_same Attendance._id Attendance._id _ doc existing Hex Hid).
    exact Hnd.
  - apply Forall_forall. intros y Hy. apply In_save in Hy.
    rewrite Forall_forall in Hlt. destruct Hy as [->|Hy]; [|auto].
    rewrite Hid. auto.
  - exact Hn.
  - intros r Hr. rewrite findById_save. apply in_app_or in Hr.
    destruct Hr as [Hr|[<-|[]]].
    + destruct (Hres r Hr) as [r' (Hf & Hmr & Hin')]. rewrite Hf.
      eexists. split; [reflexivity|].
      destruct (Nat.eqb _ _).
      * split; [assumption|]. apply in_or_app. right. now left.
      * split; [assumption|]. apply in_or_app. now left.
    + rewrite Hex, Hid, Nat.eqb_refl. eexists. split; [reflexivity|].
      split; [assumption|]. apply in_or_app. right. now left.
  - intros id r0 H0. destruct (Hkeep id r0 H0) as [r' (Hf & E1 & E2 & E3)].
    rewrite findById_save, Hf. eexists. split; [reflexivity|].
    destruct (Nat.eqb (Attendance._id r') (Attendance._id doc)) eqn:E;
      [|auto].
    apply Nat.eqb_eq in E.
    destruct (findById_key _ _ _ _ Hf) as [Hk _].
    assert (r' = existing) by (rewrite <- Hk, E in Hf; congruence).
    subst r'. repeat split; congruence.
  - intros y Hy. apply In_save in Hy. rewrite in_app_iff. simpl.
    destruct Hy as [->|Hy]; [auto|]. destruct (Hfrom y Hy); auto.
Qed.

Lemma bulkInv_create (db0 db' : DB) (uid : ObjectId) (st : BulkState)
    (doc : Attendance.t) (student batch : ObjectId) (date : Z)
    (status : option string) (notes : string) (errs : list BulkError)
    (thr : option Failure) :
  bulkInv db0 uid st ->
  Attendance_create (bulk_db st) student batch date status notes uid
  = (Ok doc, db') ->
  bulkInv db0 uid (mkBulk db' (results st ++ [doc]) errs thr).
Proof.
  intros (Hb & [Hnd Hlt] & Hn & Hres & Hkeep & Hfrom) Hc.
  apply Attendance_create_ok in Hc.
  destruct Hc as (Hid & _ & _ & _ & Hm & _ & ->).
  assert (Hfresh : Forall (fun x => Attendance._id x <> Attendance._id doc)
                          (attendances (bulk_db st))).
  { rewrite Forall_forall in *. intros x Hx. specialize (Hlt x Hx).
    rewrite Hid. now apply Nat.lt_neq. }
  assert (Hother : forall id r',
             findById Attendance._id (attendances (bulk_db st)) id = Some r' ->
             id <> Attendance._id doc).
  { intros id r' Hf. destruct (findById_key _ _ _ _ Hf) as [<- Hin].
    rewrite Forall_forall in Hfresh. auto. }
  unfold bulkInv, attendanceIdsOk. simpl.
  split; [|split; [split|split; [|split; [|split]]]].
  - exact Hb.
  - rewrite map_app. simpl. apply NoDup_snoc; [exact Hnd|].
    intros Hin. apply in_map_iff in Hin. destruct Hin as [x [Hx Hin]].
    rewrite Forall_forall in Hfresh. exact (Hfresh x Hin Hx).
  - apply Forall_app. split.
    + eapply Forall_impl; [|exact Hlt]. simpl. intros a Ha.
      apply Nat.lt_lt_succ_r. exact Ha.
    + constructor; [|constructor]. rewrite Hid. apply Nat.lt_succ_diag_r.
  - apply Nat.le_le_succ_r. exact Hn.
  - intros r Hr. apply in_app_or in Hr. destruct Hr as [Hr|[<-|[]]].
    + destruct (Hres r Hr) as [r' (Hf & Hmr & Hin')].
      rewrite findById_app_fresh by (eapply Hother; eassumption).
      exists r'. split; [assumption|]. split; [assumption|].
      apply in_or_app. now left.
    + rewrite findById_app_new by exact Hfresh.
      eexists. split; [reflexivity|]. split; [assumption|].
      apply in_or_app. right. now left.
  - intros id r0 H0. destruct (Hkeep id r0 H0) as [r' (Hf & E)].
    rewrite findById_app_fresh by (eapply Hother; eassumption). eauto.
  - intros y Hy. rewrite in_app_iff. simpl.
    apply in_app_or in Hy. destruct Hy as [Hy|[<-|[]]]; [|auto].
    destruct (Hfrom y Hy); auto.
Qed.

Lemma markEntry_inv (db0 : DB) (user : Req.user) (batch : Batch.t)
    (batchId : ObjectId) (date : Z) (st : BulkState) (att : Att.t) :
  bulkInv db0 (Req.id user) st ->
  bulkInv db0 (Req.id user) (markEntry user batch batchId date st att).
Proof.
  intros Hinv. unfold markEntry.
  destruct (negb (includes (Batch.students batch) (Att.student att)));
    [exact Hinv|].
  destruct (find _ (attendances (bulk_db st))) as [existing|] eqn:Hf.
  - destruct (Attendance_update _ _ _ _ _) as [[doc|e] db'] eqn:Hu;
      [|exact Hinv].
    apply find_some in Hf. destruct Hf as [Hin _].
    eapply bulkInv_update; eassumption.
  - destruct (Attendance_create _ _ _ _ _ _ _) as [[doc|e] db'] eqn:Hc;
      [|exact Hinv].
    eapply bulkInv_create; eassumption.
Qed.

Lemma markAll_inv (db0 : DB) (user : Req.user) (batch : Batch.t)
    (batchId : ObjectId) (date : Z) (atts : list Att.t) :
  forall st,
    bulkInv db0 (Req.id user) st ->
    bulkInv db0 (Req.id user)
            (fold_left (markEntry user batch batchId date) atts st).
Proof.
  induction atts as [|att atts IH]; intros st Hinv; simpl; [exact Hinv|].
  apply IH, markEntry_inv, Hinv.
Qed.

(** *** Objects and [null] among the entries *)

Lemma markEntry_thrown (user : Req.user) (batch : Batch.t) (batchId : ObjectId)
    (date : Z) (st : BulkState) (att : Att.t) :
  thrown (markEntry user batch batchId date st att) = thrown st.
Proof.
  unfold markEntry.
  destruct (negb (includes (Batch.students batch) (Att.student att)));
    [reflexivity|].
  destruct (find _ (attendances (bulk_db st))).
  - destruct (Attendance_update _ _ _ _ _) as [[doc|e] db']; reflexivity.
  - destruct (Attendance_create _ _ _ _ _ _ _) as [[doc|e] db']; reflexivity.
Qed.

Lemma markAll_thrown (user : Req.user) (batch : Batch.t) (batchId : ObjectId)
    (date : Z) (atts : list Att.t) :
  forall st,
    thrown (fold_left (markEntry user batch batchId date) atts st) = thrown st.
Proof.
  induction atts as [|att atts IH]; intros st; simpl; [reflexivity|].
  now rewrite IH, markEntry_thrown.
Qed.

Lemma markOne_objects (user : Req.user) (batch : Batch.t) (batchId : ObjectId)
    (date : Z) (atts : list Att.t) :
  forall st,
    thrown st = None ->
    fold_left (markOne user batch batchId date) (map Some atts) st
    = fold_left (markEntry user batch batchId date) atts st.
Proof.
  induction atts as [|att atts IH]; intros st Hst; simpl; [reflexivity|].
  unfold markOne at 2. rewrite Hst. apply IH.
  now rewrite markEntry_thrown.
Qed.

Lemma markOne_after_throw (user : Req.user) (batch : Batch.t)
    (batchId : ObjectId) (date : Z) (l : list (option Att.t)) :
  forall st e,
    thrown st = Some e ->
    fold_left (markOne user batch batchId date) l st = st.
Proof.
  induction l as [|att l IH]; intros st e Hst; simpl; [reflexivity|].
  unfold markOne at 2. rewrite Hst. now apply (IH st e).
Qed.


Lemma enrolledHook_true (db db0 : DB) (b : Batch.t) (bid s : ObjectId) :
  batches db = batches db0 ->
  findById Batch._id (batches db0) bid = Some b ->
  includes (Batch.students b) s = true ->
  enrolledHook db s bid = true.
Proof.
  intros Hb Hf Hinc. unfold enrolledHook. rewrite Hb.
  destruct (findById_key _ _ _ _ Hf) as [Hid Hin].
  apply existsb_exists. exists b. split; [exact Hin|].
  now rewrite Hid, Nat.eqb_refl, Hinc.
Qed.

Lemma attendanceKey_free (db : DB) (s bid : ObjectId) (d : Z) :
  find (sameDay s bid d) (attendances db) = None ->
  d < setHours d 23 59 59 ->
  attendanceKeyTaken db s bid d = false.
Proof.
  intros Hnone Hd. unfold attendanceKeyTaken.
  destruct (existsb _ _) eqn:E; [|reflexivity].
  apply existsb_exists in E. destruct E as [a [Hin Ha]].
  apply andb_prop in Ha. destruct Ha as [Ha Hdate].
  apply andb_prop in Ha. destruct Ha as [Hs Hb].
  apply Z.eqb_eq in Hdate.
  pose proof (find_none _ _ Hnone a Hin) as Hn.
  unfold sameDay in Hn. rewrite Hs, Hb, Hdate in Hn. simpl in Hn.
  pose proof (setHours_midnight_le d) as Hlo.
  apply Z.leb_le in Hlo. apply Z.ltb_lt in Hd. rewrite Hlo, Hd in Hn.
  discriminate.
Qed.

Lemma markEntry_counts (db0 : DB) (user : Req.user) (batch : Batch.t)
    (batchId : ObjectId) (date : Z) (st : BulkState) (att : Att.t) :
  bulkInv db0 (Req.id user) st ->
  findById Batch._id (batches db0) batchId = Some batch ->
  date < setHours date 23 59 59 ->
  List.length (results (markEntry user batch batchId date st att))
  = (List.length (results st)
     + if enrolledIn batch att && storable att then 1 else 0)%nat
  /\ List.length (errors (markEntry user batch batchId date st att))
     = (List.length (errors st)
        + if enrolledIn batch att && storable att then 0 else 1)%nat.
Proof.
  intros (Hb & _) Hbatch Hd. unfold markEntry, enrolledIn, storable.
  destruct (includes (Batch.students batch) (Att.student att)) eqn:Hinc; simpl.
  2:{ split; rewrite ?length_app; simpl; lia. }
  destruct (find _ (attendances (bulk_db st))) as [existing|] eqn:Hf.
  - apply find_some in Hf. destruct Hf as [_ Hsame].
    unfold sameDay in Hsame.
    apply andb_prop in Hsame. destruct Hsame as [Hsame _].
    apply andb_prop in Hsame. destruct Hsame as [Hsame _].
    apply andb_prop in Hsame. destruct Hsame as [Hs Hba].
    apply Nat.eqb_eq in Hs. apply Nat.eqb_eq in Hba.
    unfold Attendance_update. rewrite Hs, Hba.
    rewrite (enrolledHook_true _ _ _ _ _ Hb Hbatch Hinc).
    destruct (castStatus (Att.status att)) as [stt|e]; simpl.
    + destruct (maxlength 500 (orEmpty (Att.notes att))); simpl;
        split; rewrite ?length_app; simpl; lia.
    + split; rewrite ?length_app; simpl; lia.
  - unfold Attendance_create.
    rewrite (enrolledHook_true _ _ _ _ _ Hb Hbatch Hinc).
    rewrite (attendanceKey_free _ _ _ _ Hf Hd).
    destruct (castStatus (Att.status att)) as [stt|e]; simpl.
    + destruct (maxlength 500 (orEmpty (Att.notes att))); simpl;
        split; rewrite ?length_app; simpl; lia.
    + split; rewrite ?length_app; simpl; lia.
Qed.

Lemma markAll_counts (db0 : DB) (user : Req.user) (batch : Batch.t)
    (batchId : ObjectId) (date : Z) (atts : list Att.t) :
  findById Batch._id (batches db0) batchId = Some batch ->
  date < setHours date 23 59 59 ->
  forall st,
    bulkInv db0 (Req.id user) st ->
    List.length (results (fold_left (markEntry user batch batchId date) atts st))
    = (List.length (results st)
       + countIf (fun att => enrolledIn batch att && storable att) atts)%nat
    /\ List.length (errors (fold_left (markEntry user batch batchId date) atts st))
       = (List.length (errors st)
          + countIf (fun att => negb (enrolledIn batch att && storable att))
                    atts)%nat.
Proof.
  intros Hbatch Hd. unfold countIf.
  induction atts as [|att atts IH]; intros st Hinv; simpl.
  - split; lia.
  - destruct (markEntry_counts db0 user batch batchId date st att Hinv Hbatch Hd)
      as [Hr He].
    destruct (IH _ (markEntry_inv db0 user batch batchId date st att Hinv))
      as [Hr' He'].
    rewrite Hr', He', Hr, He.
    destruct (enrolledIn batch att && storable att); simpl; split; lia.
Qed.

(** The entries split into the not enrolled, the enrolled that validation
    refuses, and the enrolled that are stored. *)
Lemma entries_split (b : Batch.t) (atts : list Att.t) :
  (countIf (fun att => negb (enrolledIn b att)) atts
   + countIf (fun att => enrolledIn b att && negb (storable att)) atts
   + countIf (fun att => enrolledIn b att && storable att) atts
   = List.length atts)%nat
  /\ (countIf (fun att => negb (enrolledIn b att && storable att)) atts
      = countIf (fun att => negb (enrolledIn b att)) atts
        + countIf (fun att => enrolledIn b att && negb (storable att)) atts)%nat.
Proof.
  unfold countIf. induction atts as [|att atts [IH1 IH2]]; simpl; [auto|].
  destruct (enrolledIn b att), (storable att); simpl; split; lia.
Qed.

Lemma In_save_other {D} (key : D -> ObjectId) (c : list D) (d x : D) :
  In x c -> key x <> key d -> In x (save key c d).
Proof.
  induction c as [|y c IH]; simpl; [tauto|].
  intros [->|Hin] Hne.
  - apply Nat.eqb_neq in Hne. rewrite Hne. now left.
  - destruct (Nat.eqb (key y) (key d)); simpl; auto.
Qed.

Lemma In_save_doc {D} (key : D -> ObjectId) (c : list D) (d x : D) :
  findById key c (key d) = Some x -> In d (save key c d).
Proof.
  unfold findById. induction c as [|y c IH]; simpl; [discriminate|].
  destruct (Nat.eqb (key y) (key d)); simpl; auto.
Qed.

Lemma NoDup_map_inj {A B} (f : A -> B) (l : list A) (x y : A) :
  NoDup (map f l) -> In x l -> In y l -> f x = f y -> x = y.
Proof.
  induction l as [|a l IH]; simpl; [tauto|].
  intros Hnd Hx Hy E. inversion Hnd as [|? ? Ha Hnd']; subst.
  destruct Hx as [->|Hx], Hy as [->|Hy]; auto.
  - exfalso. apply Ha. rewrite E. now apply in_map.
  - exfalso. apply Ha. rewrite <- E. now apply in_map.
Qed.

Lemma sameDay_fields (s bid : ObjectId) (d : Z) (r r' : Attendance.t) :
  Attendance.student r' = Attendance.student r ->
  Attendance.batch r' = Attendance.batch r ->
  Attendance.date r' = Attendance.date r ->
  sameDay s bid d r' = sameDay s bid d r.
Proof. unfold sameDay. now intros -> -> ->. Qed.

Lemma sameDay_student (s bid : ObjectId) (d : Z) (r : Attendance.t) :
  sameDay s bid d r = true ->
  Attendance.student r = s /\ Attendance.batch r = bid.
Proof.
  unfold sameDay. intros H.
  apply andb_prop in H. destruct H as [H _].
  apply andb_prop in H. destruct H as [H _].
  apply andb_prop in H. destruct H as [Hs Hb].
  apply Nat.eqb_eq in Hs. apply Nat.eqb_eq in Hb. auto.
Qed.

(** *** What an entry writes *)

(** One round of the loop on an object: either no result, or one more
    result, which is what the entry asks for. *)
Lemma markEntry_step (db0 : DB) (user : Req.user) (batch : Batch.t)
    (batchId : ObjectId) (date : Z) (st : BulkState) (att : Att.t) :
  bulkInv db0 (Req.id user) st ->
  results (markEntry user batch batchId date st att) = results st
  \/ exists doc,
       results (markEntry user batch batchId date st att) = results st ++ [doc]
       /\ written db0 (Req.id user) batchId att doc
       /\ (date < setHours date 23 59 59 ->
           sameDay (Att.student att) batchId date doc = true).
Proof.
  intros (Hb & [Hnd Hlt] & Hn & Hres & Hkeep & _). unfold markEntry.
  destruct (negb (includes (Batch.students batch) (Att.student att)));
    [now left|].
  destruct (find _ (attendances (bulk_db st))) as [existing|] eqn:Hf.
  - destruct (Attendance_update _ _ _ _ _) as [[doc|e] db'] eqn:Hu;
      [|now left].
    right. exists doc. split; [reflexivity|].
    apply find_some in Hf. destruct Hf as [Hin Hsame].
    destruct (sameDay_student _ _ _ _ Hsame) as [Hst Hba].
    apply Attendance_update_ok in Hu.
    destruct Hu as (Hid & Hs & Hbt & Hd & Hm & Hno & Hcast & _).
    split.
    + unfold written. repeat split; try congruence.
      destruct (findById Attendance._id (attendances db0) (Attendance._id doc))
        as [r0|] eqn:H0; [|now left].
      destruct (Hkeep _ r0 H0) as [r' (Hf' & E1 & E2 & E3)].
      assert (Hex : findById Attendance._id (attendances (bulk_db st))
                             (Attendance._id doc) = Some existing).
      { rewrite Hid. now apply findById_In_NoDup. }
      assert (r' = existing) by congruence. subst r'.
      repeat split; congruence.
    + intros _. rewrite <- Hsame. now apply sameDay_fields.
  - destruct (Attendance_create _ _ _ _ _ _ _) as [[doc|e] db'] eqn:Hc;
      [|now left].
    right. exists doc. split; [reflexivity|].
    pose proof (Attendance_create_status _ _ _ _ _ _ _ _ _ Hc) as Hstatus.
    apply Attendance_create_ok in Hc.
    destruct Hc as (Hid & Hs & Hbt & Hd & Hm & Hno & _).
    split.
    + unfold written. repeat split; try congruence.
      destruct (findById Attendance._id (attendances db0) (Attendance._id doc))
        as [r0|] eqn:H0; [|exact Hstatus].
      exfalso. destruct (Hkeep _ r0 H0) as [r' (Hf' & _)].
      destruct (findById_key _ _ _ _ Hf') as [Hk Hin].
      rewrite Forall_forall in Hlt. specialize (Hlt r' Hin). lia.
    + intros Hday. unfold sameDay. rewrite Hs, Hbt, Hd, !Nat.eqb_refl. simpl.
      pose proof (setHours_midnight_le date) as Hlo.
      apply Z.leb_le in Hlo. apply Z.ltb_lt in Hday. now rewrite Hlo, Hday.
Qed.


(** Before 23:59:59 the results are, in order, what the enrolled entries that
    pass validation ask for. *)
Lemma markAll_results (db0 : DB) (user : Req.user) (batch : Batch.t)
    (batchId : ObjectId) (date : Z) (atts : list Att.t) :
  findById Batch._id (batches db0) batchId = Some batch ->
  date < setHours date 23 59 59 ->
  forall st,
    bulkInv db0 (Req.id user) st ->
    exists l,
      results (fold_left (markEntry user batch batchId date) atts st)
      = results st ++ l
      /\ Forall2 (marks db0 (Req.id user) batchId date)
                 (filter (fun att => enrolledIn batch att && storable att) atts)
                 l.
Proof.
  intros Hbatch Hd.
  induction atts as [|att atts IH]; intros st Hinv; simpl.
  - exists []. split; [now rewrite app_nil_r | constructor].
  - destruct (IH _ (markEntry_inv db0 user batch batchId date st att Hinv))
      as [l [Hl Hall]].
    destruct (markEntry_counts db0 user batch batchId date st att Hinv Hbatch Hd)
      as [Hlen _].
    destruct (markEntry_step db0 user batch batchId date st att Hinv)
      as [E|[doc (E & Hw & Hday)]]; rewrite E in Hl, Hlen.
    + destruct (enrolledIn batch att && storable att); [lia|].
      exists l. split; assumption.
    + rewrite length_app in Hlen. simpl in Hlen.
      destruct (enrolledIn batch att && storable att); [|lia].
      exists (doc :: l). split; [now rewrite Hl, <- app_assoc|].
      constructor; [|exact Hall]. split; [exact Hw | exact (Hday Hd)].
Qed.

Lemma update_keeps_marked (db0 db' : DB) (uid : ObjectId) (st : BulkState)
    (existing doc : Attendance.t) (status : option string) (notes : string)
    (s bid : ObjectId) (d : Z) :
  bulkInv db0 uid st ->
  In existing (attendances (bulk_db st)) ->
  Attendance_update (bulk_db st) existing status notes uid = (Ok doc, db') ->
  (markedToday (bulk_db st) s bid d uid \/ sameDay s bid d existing = true) ->
  markedToday db' s bid d uid.
Proof.
  intros (_ & [Hnd _] & _) Hin Hupd Hm.
  apply Attendance_update_ok in Hupd.
  destruct Hupd as (Hid & Hs & Hba & Hd & Hmk & _ & _ & ->).
  assert (Hex : findById Attendance._id (attendances (bulk_db st))
                         (Attendance._id doc) = Some existing).
  { rewrite Hid. now apply findById_In_NoDup. }
  assert (Hdoc : In doc (save Attendance._id (attendances (bulk_db st)) doc))
    by (eapply In_save_doc; exact Hex).
  assert (Hsame : sameDay s bid d doc = sameDay s bid d existing)
    by (now apply sameDay_fields).
  unfold markedToday. simpl.
  destruct Hm as [[r (Hr & Hday & Hmr)]|Hday].
  - destruct (Nat.eq_dec (Attendance._id r) (Attendance._id doc)) as [E|E].
    + assert (r = existing).
      { apply (NoDup_map_inj Attendance._id _ _ _ Hnd Hr Hin). congruence. }
      subst r. exists doc. rewrite Hsame. auto.
    + exists r. split; [now apply In_save_other|auto].
  - exists doc. rewrite Hsame. auto.
Qed.

Lemma markEntry_keeps_marked (db0 : DB) (user : Req.user) (batch : Batch.t)
    (batchId : ObjectId) (date : Z) (st : BulkState) (att : Att.t)
    (s : ObjectId) :
  bulkInv db0 (Req.id user) st ->
  markedToday (bulk_db st) s batchId date (Req.id user) ->
  markedToday (bulk_db (markEntry user batch batchId date st att))
              s batchId date (Req.id user).
Proof.
  intros Hinv Hm. unfold markEntry.
  destruct (negb (includes (Batch.students batch) (Att.student att)));
    [exact Hm|].
  destruct (find _ (attendances (bulk_db st))) as [existing|] eqn:Hf.
  - destruct (Attendance_update _ _ _ _ _) as [[doc|e] db'] eqn:Hu;
      [|exact Hm].
    apply find_some in Hf. destruct Hf as [Hin _]. simpl.
    eapply update_keeps_marked; eauto.
  - destruct (Attendance_create _ _ _ _ _ _ _) as [[doc|e] db'] eqn:Hc;
      [|exact Hm].
    apply Attendance_create_ok in Hc. destruct Hc as (_ & _ & _ & _ & _ & _ & ->).
    simpl. destruct Hm as [r (Hr & Hday & Hmr)]. exists r. simpl.
    split; [apply in_or_app; now left | auto].
Qed.

Lemma markEntry_marks (db0 : DB) (user : Req.user) (batch : Batch.t)
    (batchId : ObjectId) (date : Z) (st : BulkState) (att : Att.t) :
  bulkInv db0 (Req.id user) st ->
  findById Batch._id (batches db0) batchId = Some batch ->
  date < setHours date 23 59 59 ->
  enrolledIn batch att = true ->
  storable att = true ->
  markedToday (bulk_db (markEntry user batch batchId date st att))
              (Att.student att) batchId date (Req.id user).
Proof.
  intros Hinv Hbatch Hd Hen Hst. pose proof Hinv as (Hb & _).
  unfold enrolledIn in Hen. unfold storable in Hst.
  apply andb_prop in Hst. destruct Hst as [Hcast Hnotes].
  unfold markEntry. rewrite Hen. simpl.
  destruct (find _ (attendances (bulk_db st))) as [existing|] eqn:Hf.
  - apply find_some in Hf. destruct Hf as [Hin Hsame].
    destruct (Attendance_update _ _ _ _ _) as [[doc|e] db'] eqn:Hu.
    + simpl. eapply update_keeps_marked; eauto.
    + exfalso. unfold Attendance_update in Hu.
      destruct (castStatus (Att.status att)); [|discriminate].
      rewrite Hnotes in Hu. simpl in Hu.
      destruct (sameDay_student _ _ _ _ Hsame) as [Hs Hba].
      rewrite Hs, Hba, (enrolledHook_true _ _ _ _ _ Hb Hbatch Hen) in Hu.
      discriminate.
  - unfold Attendance_create.
    destruct (castStatus (Att.status att)); [|discriminate].
    rewrite Hnotes, (enrolledHook_true _ _ _ _ _ Hb Hbatch Hen),
            (attendanceKey_free _ _ _ _ Hf Hd).
    simpl. eexists. split; [apply in_or_app; right; left; reflexivity|].
    simpl. split; [|reflexivity].
    unfold sameDay. simpl. rewrite !Nat.eqb_refl. simpl.
    pose proof (setHours_midnight_le date) as Hlo.
    apply Z.leb_le in Hlo. apply Z.ltb_lt in Hd. now rewrite Hlo, Hd.
Qed.

Lemma markAll_keeps_marked (db0 : DB) (user : Req.user) (batch : Batch.t)
    (batchId : ObjectId) (date : Z) (s : ObjectId) (atts : list Att.t) :
  forall st,
    bulkInv db0 (Req.id user) st ->
    markedToday (bulk_db st) s batchId date (Req.id user) ->
    markedToday (bulk_db (fold_left (markEntry user batch batchId date) atts st))
                s batchId date (Req.id user).
Proof.
  induction atts as [|att atts IH]; intros st Hinv Hm; simpl; [exact Hm|].
  apply IH; [now apply markEntry_inv
            | now apply markEntry_keeps_marked with (db0 := db0)].
Qed.

Lemma markAll_marks (db0 : DB) (user : Req.user) (batch : Batch.t)
    (batchId : ObjectId) (date : Z) (atts : list Att.t) :
  findById Batch._id (batches db0) batchId = Some batch ->
  date < setHours date 23 59 59 ->
  forall st att,
    bulkInv db0 (Req.id user) st ->
    In att atts ->
    enrolledIn batch att = true ->
    storable att = true ->
    markedToday (bulk_db (fold_left (markEntry user batch batchId date) atts st))
                (Att.student att) batchId date (Req.id user).
Proof.
  intros Hbatch Hd.
  induction atts as [|a atts IH]; intros st att Hinv Hin Hen Hst; simpl;
    [destruct Hin|].
  destruct Hin as [->|Hin].
  - apply markAll_keeps_marked with (db0 := db0); [now apply markEntry_inv|].
    now apply markEntry_marks with (db0 := db0).
  - apply IH; auto. now apply markEntry_inv.
Qed.


Lemma Role_eqb_neq (a b : Role) : a <> b -> Role_eqb a b = false.
Proof. destruct a, b; simpl; congruence. Qed.

(** C5, as stated, fails: one entry, its student enrolled (N = 1, K = 0),
    its status outside the enum; the results list is empty and the errors
    list has one element. *)
Lemma invalid_status_is_reported_as_error :
  List.length sickEntry = 1%nat
  /\ countIf (fun att => negb (includes [2; 3]%nat (Att.student att))) sickEntry
     = 0%nat
  /\ markMultipleAttendances bulkDB teacher1 (bulkBody sickEntry)
     = (Ok (mkBulkResponse false []
              (Some [ProcessingError 3
                       (ValidationError "status is not a valid enum value")])
              "Processed with 1 error(s)"),
        bulkDB).
Proof. repeat split. Qed.

(** The day range of the lookup ends at 23:59:59 (plus the milliseconds of
    the date), so it contains every date before the last second of its day. *)
Lemma before_last_second (d : Z) :
  d mod 86400000 < 86399000 -> d < setHours d 23 59 59.
Proof.
  unfold setHours. intros H.
  pose proof (Z.mod_pos_bound d 1000 ltac:(lia)). lia.
Qed.

(** In the last second of a day the lookup misses the record the request
    itself has just created: the student's second entry runs into the unique
    index and is reported as an error. *)
Example last_second_of_the_day :
  fst (markMultipleAttendances bulkDB teacher1
         (mkBulkBody (Some 10%nat) (Some 172799000)
            (Some [Some (Att.mk 3 (Some "late") None);
                   Some (Att.mk 3 (Some "present") None)])))
  = Ok (mkBulkResponse false
          [Attendance.mk 100 3 10 172799000 (Some Attendance.late) 1 ""]
          (Some [ProcessingError 3 DuplicateKeyError])
          "Processed with 1 error(s)").
Proof. reflexivity. Qed.

(** A [null] among the entries: the entry before it is stored, the one after
    it is not looked at, and the request is answered with the TypeError. *)
Example null_among_the_entries :
  markMultipleAttendances bulkDB teacher1
    (mkBulkBody (Some 10%nat) (Some 3600000)
       (Some [Some (Att.mk 3 (Some "late") None); None;
              Some (Att.mk 2 (Some "present") None)]))
  = (Fail (TypeError "Cannot read properties of null"),
     with_attendances bulkDB
       [Attendance.mk 20 2 10 0 (Some Attendance.absent) 7 "";
        Attendance.mk 100 3 10 3600000 (Some Attendance.late) 1 ""] 101).
Proof. reflexivity. Qed.

(** C5, amended. A bulk request by the batch's teacher or an admin whose N
    entries are objects, of which K reference students not enrolled and F
    others fail schema validation (status outside the enum, notes over 500
    characters), returns N - K - F results and K + F errors (no errors field
    when there is none) and flags success exactly when there is no error.
    The results are, in the order of the entries, the records of the
    N - K - F others as the entries ask for them: student, batch, a date of
    that day, status, notes, and the caller as marker.  Every result is in
    the store, as it is or as a later result has overwritten it; every
    earlier record is still there, and the store holds nothing but earlier
    records and results; each of the N - K - F students has a
    record of that day marked by the caller.  A [null] entry after these
    entries ends the request with a TypeError and leaves what they stored.
    The date is one whose day range contains it (any time before
    23:59:59). *)
Theorem bulk_mark_partial_success :
  forall (db : DB) (user : Req.user) (bid : ObjectId) (d : Z)
         (atts : list Att.t) (b : Batch.t),
    findById Batch._id (batches db) bid = Some b ->
    notTeacherNorAdmin b user = false ->
    attendanceIdsOk db ->
    d < setHours d 23 59 59 ->
    let K := countIf (fun att => negb (enrolledIn b att)) atts in
    let F := countIf (fun att => enrolledIn b att && negb (storable att)) atts in
    exists resp db',
      markMultipleAttendances db user
        (mkBulkBody (Some bid) (Some d) (Some (map Some atts)))
      = (Ok resp, db')
      /\ List.length (data resp) = (List.length atts - K - F)%nat
      /\ match resp_errors resp with
         | Some es => List.length es = (K + F)%nat /\ (0 < K + F)%nat
         | None => (K + F = 0)%nat
         end
      /\ success resp = Nat.eqb (K + F) 0
      /\ Forall2 (marks db (Req.id user) bid d)
                 (filter (fun att => enrolledIn b att && storable att) atts)
                 (data resp)
      /\ (forall r, In r (data resp) ->
            exists r', findById Attendance._id (attendances db')
                                (Attendance._id r) = Some r'
                       /\ Attendance.markedBy r' = Req.id user
                       /\ In r' (data resp))
      /\ (forall id r0,
            findById Attendance._id (attendances db) id = Some r0 ->
            exists r', findById Attendance._id (attendances db') id = Some r')
      /\ (forall r', In r' (attendances db') ->
            In r' (attendances db) \/ In r' (data resp))
      /\ (forall att,
            In att atts -> enrolledIn b att = true -> storable att = true ->
            markedToday db' (Att.student att) bid d (Req.id user))
      /\ (forall rest,
            markMultipleAttendances db user
              (mkBulkBody (Some bid) (Some d)
                          (Some (map Some atts ++ None :: rest)))
            = (Fail (TypeError "Cannot read properties of null"), db')).
Proof.
  intros db user bid d atts b Hb Hauth Hok Hd K F.
  unfold markMultipleAttendances. simpl. rewrite Hb, Hauth.
  rewrite (markOne_objects user b bid d atts (mkBulk db [] [] None) eq_refl).
  pose proof (markAll_thrown user b bid d atts (mkBulk db [] [] None)) as Hthr.
  simpl in Hthr. rewrite Hthr.
  eexists. eexists. split; [reflexivity|]. simpl.
  pose proof (bulkInv_start db (Req.id user) Hok) as Hstart.
  pose proof (markAll_inv db user b bid d atts _ Hstart) as Hinv.
  pose proof (fun att => markAll_marks db user b bid d atts Hb Hd _ att Hstart)
    as Hmarks.
  destruct (markAll_results db user b bid d atts Hb Hd _ Hstart) as [l [Hl Hall]].
  destruct (markAll_counts db user b bid d atts Hb Hd _ Hstart) as [Hr He].
  destruct (entries_split b atts) as [Hsplit Herr].
  simpl in Hr, He, Hl. rewrite Herr in He. fold K F in Hsplit, He.
  assert (Hnull : forall rest,
            fold_left (markOne user b bid d) (map Some atts ++ None :: rest)
                      (mkBulk db [] [] None)
            = mkBulk (bulk_db (fold_left (markEntry user b bid d) atts
                                         (mkBulk db [] [] None)))
                     (results (fold_left (markEntry user b bid d) atts
                                         (mkBulk db [] [] None)))
                     (errors (fold_left (markEntry user b bid d) atts
                                        (mkBulk db [] [] None)))
                     (Some (TypeError "Cannot read properties of null"))).
  { intros rest. rewrite fold_left_app.
    rewrite (markOne_objects user b bid d atts (mkBulk db [] [] None) eq_refl).
    simpl.
    unfold markOne at 2. rewrite Hthr.
    erewrite markOne_after_throw; reflexivity. }
  set (st := fold_left (markEntry user b bid d) atts (mkBulk db [] [] None)) in *.
  clear Herr. clearbody K F st.
  split; [rewrite Hr; lia|].
  split; [|split; [|split; [|split; [|split; [|split; [|split]]]]]].
  - rewrite He. destruct (Nat.ltb 0 (K + F)) eqn:E.
    + apply Nat.ltb_lt in E. split; [exact He | exact E].
    + apply Nat.ltb_ge in E. lia.
  - now rewrite He.
  - rewrite Hl. exact Hall.
  - apply Hinv.
  - intros id r0 H0. destruct Hinv as (_ & _ & _ & _ & Hkeep & _).
    destruct (Hkeep id r0 H0) as [r' [Hf _]]. eauto.
  - apply Hinv.
  - exact Hmarks.
  - intros rest. rewrite Hnull. reflexivity.
Qed.

(** Three entries, the third for a student who is not enrolled: student 2's
    record of the day is overwritten, student 3 gets a new one. *)
Lemma bulk_mark_partial_success_witness :
  exists resp db',
    markMultipleAttendances bulkDB teacher1 (bulkBody threeEntries)
    = (Ok resp, db')
    /\ List.length (data resp) = 2%nat
    /\ match resp_errors resp with
       | Some es => List.length es = 1%nat /\ (0 < 1)%nat
       | None => (1 = 0)%nat
       end
    /\ success resp = false
    /\ Forall2 (marks bulkDB 1 10 3600000)
               [Att.mk 2 (Some "present") (Some "arrived on time");
                Att.mk 3 (Some "absent") None]
               (data resp)
    /\ (forall r, In r (data resp) ->
          exists r', findById Attendance._id (attendances db')
                              (Attendance._id r) = Some r'
                     /\ Attendance.markedBy r' = 1%nat
                     /\ In r' (data resp))
    /\ (forall id r0,
          findById Attendance._id (attendances bulkDB) id = Some r0 ->
          exists r', findById Attendance._id (attendances db') id = Some r')
    /\ (forall r', In r' (attendances db') ->
          In r' (attendances bulkDB) \/ In r' (data resp))
    /\ (forall att,
          In att threeEntries ->
          enrolledIn (Batch.mk 10 1 [2; 3]%nat 500 30 true) att = true ->
          storable att = true ->
          markedToday db' (Att.student att) 10 3600000 1)
    /\ (forall rest,
          markMultipleAttendances bulkDB teacher1
            (mkBulkBody (Some 10%nat) (Some 3600000)
                        (Some (map Some threeEntries ++ None :: rest)))
          = (Fail (TypeError "Cannot read properties of null"), db')).
Proof.
  apply (bulk_mark_partial_success bulkDB teacher1 10 3600000 threeEntries
           (Batch.mk 10 1 [2; 3]%nat 500 30 true)).
  - reflexivity.
  - reflexivity.
  - split; simpl.
    + constructor; [simpl; tauto | constructor].
    + constructor; [apply Nat.ltb_lt; reflexivity | constructor].
  - reflexivity.
Defined.

(** The answer to the three entries. *)
Example answer_to_three_entries :
  fst (markMultipleAttendances bulkDB teacher1 (bulkBody threeEntries))
  = Ok (mkBulkResponse false
          [Attendance.mk 20 2 10 0 (Some Attendance.present) 1 "arrived on time";
           Attendance.mk 100 3 10 3600000 (Some Attendance.absent) 1 ""]
          (Some [NotInBatch 9])
          "Processed with 1 error(s)").
Proof. reflexivity. Qed.

(** *** Who may change a record after a bulk mark *)







(** Teacher 7 marks student 3 late at 00:30; teacher 1, the teacher of the
    batch, sends a bulk mark for the same day; teacher 7 can no longer
    update the record teacher 7 had marked, and teacher 1 can. *)
Example takeover_of_a_record :
  let created :=
    createAttendance bulkDB teacher7
      (mkAttendanceBody 3 10 1800000 (Some "late") None) in
  let marked :=
    markMultipleAttendances (snd created) teacher1 (bulkBody threeEntries) in
  option_map Attendance.markedBy
    (findById Attendance._id (attendances (snd created)) 100) = Some 7%nat
  /\ isOk (fst (updateAttendance (snd created) teacher7 100
                  (mkAttendanceUpdate (Some "present") None))) = true
  /\ findById Attendance._id (attendances (snd marked)) 100
     = Some (Attendance.mk 100 3 10 1800000 (Some Attendance.absent) 1 "")
  /\ fst (updateAttendance (snd marked) teacher7 100
            (mkAttendanceUpdate (Some "present") None))
     = Fail (ErrorResponse "Not authorized to update this attendance record" 403)
  /\ isOk (fst (updateAttendance (snd marked) teacher1 100
                  (mkAttendanceUpdate (Some "present") None))) = true.
Proof. repeat split. Qed.

(** ** One entry per student *)

Lemma Assignment_save_written (vt : ThisBinding) (db : DB) (a' : Assignment.t) :
  snd (Assignment_save vt db a') = db
  \/ snd (Assignment_save vt db a')
     = with_assignments db (save Assignment._id (assignments db) a') (nextId db).
Proof.
  unfold Assignment_save. destruct (Assignment_validate vt a'); simpl; auto.
Qed.

Lemma submissionCall_written (vt : ThisBinding) (db : DB) (c : SubmissionCall) :
  Written db (submissionCall vt db c) (fst (callTarget c)) (snd (callTarget c)).
Proof.
  destruct c as [u id n f t|u id s m f t|id s f n t|id s m f g t]; simpl.
  - unfold submitAssignment.
    destruct (findById Assignment._id (assignments db) id) as [a|] eqn:Ha;
      [|now constructor 1].
    destruct (negb (Assignment.isActive a)); [now constructor 1|].
    destruct (findById Batch._id (batches db) (Assignment.batch a));
      [|now constructor 1].
    destruct (negb (includes _ _)); [now constructor 1|].
    destruct (_ && _); [now constructor 1|].
    destruct (findIndex (isStudent (Req.id u)) (Assignment.submissions a))
      as [i|] eqn:Hi.
    + destruct (findIndex_Some _ _ _ Hi) as [old [Hnth _]]. rewrite Hnth.
      destruct (Assignment_save_written vt db
                  (Assignment.with_submissions a
                     (setIndex i (resubmit old (Req.id u) t f (orEmpty n))
                               (Assignment.submissions a)))) as [E|E];
        rewrite E; [now constructor 1|].
      now apply written_replaced with (a := a) (i := i) (old := old)
            (new := resubmit old (Req.id u) t f (orEmpty n)).
    + match goal with
      | |- Written _ (snd (Assignment_save vt db ?x)) _ _ =>
          destruct (Assignment_save_written vt db x) as [E|E]; rewrite E
      end; [now constructor 1|].
      eapply written_pushed; [exact Ha | exact Hi | | reflexivity]. reflexivity.
  - unfold gradeSubmission.
    destruct (findById Assignment._id (assignments db) id) as [a|] eqn:Ha;
      [|now constructor 1].
    destruct (negb (Assignment.isActive a)); [now constructor 1|].
    destruct (findById Batch._id (batches db) (Assignment.batch a)) as [b|];
      [|now constructor 1].
    destruct (notTeacherNorAdmin b u); [now constructor 1|].
    destruct (findIndex (isStudent s) (Assignment.submissions a))
      as [i|] eqn:Hi; [|now constructor 1].
    destruct (findIndex_Some _ _ _ Hi) as [old [Hnth [Hold _]]]. rewrite Hnth.
    unfold Assignment_save.
    destruct (Assignment_validate vt _); simpl; [|now constructor 1].
    apply written_replaced with (a := a) (i := i) (old := old)
            (new := grade old m f (Req.id u) t); auto.
    simpl. unfold isStudent in Hold. now apply Nat.eqb_eq in Hold.
  - unfold addSubmission.
    destruct (findById Assignment._id (assignments db) id) as [a|] eqn:Ha;
      [|now constructor 1].
    destruct (findIndex (isStudent s) (Assignment.submissions a))
      as [i|] eqn:Hi.
    + destruct (findIndex_Some _ _ _ Hi) as [old [Hnth _]]. rewrite Hnth.
      match goal with
      | |- Written _ (snd (Assignment_save vt db ?x)) _ _ =>
          destruct (Assignment_save_written vt db x) as [E|E]; rewrite E
      end; [now constructor 1|].
      now apply written_replaced with (a := a) (i := i) (old := old)
            (new := resubmit old s t f (orEmpty n)).
    + match goal with
      | |- Written _ (snd (Assignment_save vt db ?x)) _ _ =>
          destruct (Assignment_save_written vt db x) as [E|E]; rewrite E
      end; [now constructor 1|].
      eapply written_pushed; [exact Ha | exact Hi | | reflexivity]. reflexivity.
  - unfold Assignment_gradeSubmission.
    destruct (findById Assignment._id (assignments db) id) as [a|] eqn:Ha;
      [|now constructor 1].
    destruct (findIndex (isStudent s) (Assignment.submissions a))
      as [i|] eqn:Hi.
    + destruct (findIndex_Some _ _ _ Hi) as [old [Hnth [Hold Hfind]]].
      rewrite Hfind.
      match goal with
      | |- Written _ (snd (Assignment_save vt db ?x)) _ _ =>
          destruct (Assignment_save_written vt db x) as [E|E]; rewrite E
      end; [now constructor 1|].
      apply written_replaced with (a := a) (i := i) (old := old)
            (new := grade old m f g t); auto.
      simpl. unfold isStudent in Hold. now apply Nat.eqb_eq in Hold.
    + destruct (find _ _); now constructor 1.
Qed.

Lemma Forall_save {D} (key : D -> ObjectId) (P : D -> Prop) (c : list D) (d : D) :
  Forall P c -> P d -> Forall P (save key c d).
Proof.
  intros Hc Hd. induction Hc as [|x c Hx Hc IH]; simpl; [constructor|].
  destruct (Nat.eqb (key x) (key d)); constructor; auto.
Qed.

Lemma map_setIndex {A B} (f : A -> B) (l : list A) (i : nat) (old new : A) :
  nth_error l i = Some old -> f new = f old ->
  map f (setIndex i new l) = map f l.
Proof.
  revert i. induction l as [|x l IH]; intros [|i] H E; simpl in *;
    try discriminate.
  - injection H as ->. now rewrite E.
  - f_equal. now apply IH.
Qed.

Lemma Written_one (db db' : DB) (id t : ObjectId) :
  Written db db' id t -> oneSubmissionEach db -> oneSubmissionEach db'.
Proof.
  unfold oneSubmissionEach.
  intros [->|a i old new Ha Hi Hnth Hnew ->|a new Ha Hi Hnew ->] Hone;
    [exact Hone| |]; simpl; apply Forall_save; try exact Hone;
    destruct (findById_key _ _ _ _ Ha) as [_ Hin];
    pose proof (proj1 (Forall_forall _ _) Hone a Hin) as Hnd; simpl.
  - rewrite (map_setIndex Submission.student _ i old new Hnth); [exact Hnd|].
    destruct (findIndex_Some _ _ _ Hi) as [old' [Hnth' [Hold _]]].
    rewrite Hnth in Hnth'. injection Hnth' as <-.
    unfold isStudent in Hold. apply Nat.eqb_eq in Hold. congruence.
  - rewrite map_app. simpl. apply NoDup_snoc; [exact Hnd|].
    intros Hin'. apply in_map_iff in Hin'. destruct Hin' as [x [Hx Hxin]].
    apply findIndex_None in Hi.
    pose proof (find_none _ _ Hi x Hxin) as Hf. unfold isStudent in Hf.
    rewrite Hx, Hnew, Nat.eqb_refl in Hf. discriminate.
Qed.

(** X1. No assignment ever holds two submissions of one student: from a database
    where this holds, every sequence of submit and grade calls (the
    controllers and the schema methods) leads to one where it holds. *)
Theorem one_submission_per_student :
  forall (vt : ThisBinding) (calls : list SubmissionCall) (db : DB),
    oneSubmissionEach db ->
    oneSubmissionEach (fold_left (submissionCall vt) calls db).
Proof.
  intros vt calls. induction calls as [|c calls IH]; intros db Hone; simpl;
    [exact Hone|].
  apply IH. eapply Written_one; [apply submissionCall_written | exact Hone].
Qed.

(** The essay is submitted, graded and submitted again. *)
Lemma one_submission_per_student_witness :
  oneSubmissionEach
    (fold_left (submissionCall thisAssignment)
       [firstSubmit; gradeIt; secondSubmit] workflowDB).
Proof.
  apply (one_submission_per_student thisAssignment
           [firstSubmit; gradeIt; secondSubmit] workflowDB).
  unfold oneSubmissionEach. simpl. repeat constructor.
Defined.

Lemma Written_frame (db db' : DB) (id t : ObjectId) :
  Written db db' id t ->
  (forall id' s, (id', s) <> (id, t) -> entryAt db' id' s = entryAt db id' s)
  /\ (forall id', option_map header (findById Assignment._id (assignments db') id')
                  = option_map header (findById Assignment._id (assignments db) id'))
  /\ map Assignment._id (assignments db') = map Assignment._id (assignments db)
  /\ batches db' = batches db /\ users db' = users db
  /\ attendances db' = attendances db /\ materials db' = materials db
  /\ payments db' = payments db.
Proof.
  intros [->|a i old new Ha Hi Hnth Hnew ->|a new Ha Hi Hnew ->];
    [repeat split; reflexivity| |];
    destruct (findById_key _ _ _ _ Ha) as [Hid _];
    (split; [|split; [|split; [|repeat split; reflexivity]]]).
  - intros id' s Hne. unfold entryAt. simpl. rewrite findById_save. simpl.
    destruct (findById Assignment._id (assignments db) id') as [x|] eqn:Hx;
      [|reflexivity].
    destruct (findById_key _ _ _ _ Hx) as [Hxid _]. rewrite Hxid, Hid.
    destruct (Nat.eqb id' id) eqn:E; [|reflexivity].
    apply Nat.eqb_eq in E. rewrite E in Hx. rewrite Ha in Hx. injection Hx as <-.
    simpl.
    destruct (findIndex_Some _ _ _ Hi) as [old' [Hnth' [Hold _]]].
    rewrite Hnth in Hnth'. injection Hnth' as <-.
    unfold isStudent in Hold. apply Nat.eqb_eq in Hold.
    assert (Hst : s <> t) by congruence.
    apply find_setIndex_miss with (old := old); [exact Hnth| |];
      unfold isStudent; apply Nat.eqb_neq; congruence.
  - intros id'. simpl. rewrite findById_save. simpl.
    destruct (findById Assignment._id (assignments db) id') as [x|] eqn:Hx;
      [|reflexivity].
    destruct (findById_key _ _ _ _ Hx) as [Hxid _]. rewrite Hxid, Hid.
    destruct (Nat.eqb id' id) eqn:E; [|reflexivity].
    apply Nat.eqb_eq in E. rewrite E in Hx. rewrite Ha in Hx. injection Hx as <-.
    reflexivity.
  - simpl. apply map_save_same with (x := a); [|reflexivity].
    simpl. now rewrite Hid.
  - intros id' s Hne. unfold entryAt. simpl. rewrite findById_save. simpl.
    destruct (findById Assignment._id (assignments db) id') as [x|] eqn:Hx;
      [|reflexivity].
    destruct (findById_key _ _ _ _ Hx) as [Hxid _]. rewrite Hxid, Hid.
    destruct (Nat.eqb id' id) eqn:E; [|reflexivity].
    apply Nat.eqb_eq in E. rewrite E in Hx. rewrite Ha in Hx. injection Hx as <-.
    simpl. rewrite find_snoc.
    destruct (find (isStudent s) (Assignment.submissions a)); [reflexivity|].
    assert (Hst : s <> t) by congruence.
    unfold isStudent. rewrite Hnew.
    apply Nat.eqb_neq in Hst. rewrite Nat.eqb_sym. now rewrite Hst.
  - intros id'. simpl. rewrite findById_save. simpl.
    destruct (findById Assignment._id (assignments db) id') as [x|] eqn:Hx;
      [|reflexivity].
    destruct (findById_key _ _ _ _ Hx) as [Hxid _]. rewrite Hxid, Hid.
    destruct (Nat.eqb id' id) eqn:E; [|reflexivity].
    apply Nat.eqb_eq in E. rewrite E in Hx. rewrite Ha in Hx. injection Hx as <-.
    reflexivity.
  - simpl. apply map_save_same with (x := a); [|reflexivity].
    simpl. now rewrite Hid.
Qed.

(** X2. A submit or grade call writes one entry at most: the entry of every
    other student and every entry of every other assignment is what it was,
    no assignment is created or removed, and [title], [batch], [assignedBy],
    [dueDate], [totalMarks] and [isActive] of every assignment stay. *)
Theorem submission_call_writes_one_entry :
  forall (vt : ThisBinding) (db : DB) (c : SubmissionCall),
    (forall id s, (id, s) <> callTarget c ->
        entryAt (submissionCall vt db c) id s = entryAt db id s)
    /\ (forall id,
          option_map header
            (findById Assignment._id (assignments (submissionCall vt db c)) id)
          = option_map header (findById Assignment._id (assignments db) id))
    /\ map Assignment._id (assignments (submissionCall vt db c))
       = map Assignment._id (assignments db).
Proof.
  intros vt db c.
  destruct (Written_frame _ _ _ _ (submissionCall_written vt db c))
    as (H1 & H2 & H3 & _).
  split; [|split]; [|exact H2|exact H3].
  intros id s Hne. apply H1. now rewrite <- surjective_pairing.
Qed.

(** X3. What a successful submit stores for its student: a first submission has
    status [submitted] and no grade; a resubmission replaces time, files and
    notes, sets [resubmitted], and keeps marks, feedback, grader and grading
    time of the entry it replaces. *)
Theorem resubmission_keeps_the_grade :
  forall (vt : ThisBinding) (db db' : DB) (user : Req.user) (id : ObjectId)
         (notes : option string) (files : list Submission.File) (now : Z)
         (a' : Assignment.t),
    submitAssignment vt db user id notes files now = (Ok a', db') ->
    entryAt db' id (Req.id user)
    = Some (match entryAt db id (Req.id user) with
            | Some old =>
                Submission.mk (Req.id user) now files (orEmpty notes)
                  (Submission.marksObtained old) (Submission.feedback old)
                  (Submission.gradedBy old) (Submission.gradedAt old)
                  Submission.resubmitted
            | None =>
                Submission.mk (Req.id user) now files (orEmpty notes)
                  None None None None Submission.submitted
            end).
Proof.
  intros vt db db' user id notes files now a' H.
  unfold submitAssignment in H. unfold entryAt.
  destruct (findById Assignment._id (assignments db) id) as [a|] eqn:Ha;
    [|discriminate].
  destruct (findById_key _ _ _ _ Ha) as [Hid _].
  destruct (negb (Assignment.isActive a)); [discriminate|].
  destruct (findById Batch._id (batches db) (Assignment.batch a));
    [|discriminate].
  destruct (negb (includes _ _)); [discriminate|].
  destruct (now >? Assignment.dueDate a) eqn:Hlate; simpl in H; [discriminate|].
  destruct (findIndex (isStudent (Req.id user)) (Assignment.submissions a))
    as [i|] eqn:Hi.
  - destruct (findIndex_Some _ _ _ Hi) as [old [Hnth [Hold Hfind]]].
    rewrite Hnth in H. rewrite Hfind.
    unfold Assignment_save in H.
    destruct (Assignment_validate vt _); [|discriminate].
    injection H as _ <-. simpl. rewrite findById_save. simpl.
    rewrite Hid, Ha, Hid, Nat.eqb_refl. simpl.
    rewrite (find_setIndex_hit _ _ _
               (resubmit old (Req.id user) now files (orEmpty notes)) Hi);
      [reflexivity|].
    unfold isStudent. simpl. apply Nat.eqb_refl.
  - rewrite (findIndex_None _ _ Hi).
    unfold Assignment_save in H.
    destruct (Assignment_validate vt _); [|discriminate].
    injection H as _ <-. simpl. rewrite findById_save. simpl.
    rewrite Hid, Ha, Hid, Nat.eqb_refl. simpl.
    rewrite find_snoc, (findIndex_None _ _ Hi). unfold isStudent. simpl.
    now rewrite Nat.eqb_refl.
Qed.

(** The essay is graded with 45 marks and submitted again. *)
Lemma resubmission_keeps_the_grade_witness :
  entryAt (snd (submitAssignment thisAssignment
                  (submissionCall thisAssignment (submittedDB thisAssignment)
                     (Grade teacher1 40 2 (Some 45) (Some "well done") 20))
                  student2 40 (Some "second try") [] 30)) 40 2
  = Some (Submission.mk 2 30 [] "second try" (Some 45) (Some "well done")
            (Some 1%nat) (Some 20) Submission.resubmitted).
Proof.
  apply (resubmission_keeps_the_grade thisAssignment
           (submissionCall thisAssignment (submittedDB thisAssignment)
              (Grade teacher1 40 2 (Some 45) (Some "well done") 20))
           _ student2 40 (Some "second try") [] 30
           (Assignment.mk 40 "Essay" 10 1 1000 50
              [Submission.mk 2 30 [] "second try" (Some 45) (Some "well done")
                 (Some 1%nat) (Some 20) Submission.resubmitted] true)).
  reflexivity.
Defined.

Lemma findOwn_ok (users : list ObjectId) (uid : ObjectId)
    (subs : list Submission.t) (r : option Submission.t) :
  findOwn users uid subs = Ok r -> r = find (isStudent uid) subs.
Proof.
  induction subs as [|s subs IH]; simpl; [congruence|].
  destruct (negb (includes users (Submission.student s))); [discriminate|].
  unfold isStudent at 1.
  destruct (Nat.eqb (Submission.student s) uid); [congruence | exact IH].
Qed.

(** X13. What [getAssignment] shows: a teacher or an admin gets the stored
    document; a student gets it only when enrolled in the batch (or named as
    its teacher), and then with the own submission as the only one. *)
Theorem student_sees_own_submission_only :
  forall (db : DB) (user : Req.user) (id : ObjectId) (view : Assignment.t),
    getAssignment db (Some user) id = Ok view ->
    exists stored batch,
      findById Assignment._id (assignments db) id = Some stored
      /\ Assignment.isActive stored = true
      /\ findById Batch._id (batches db) (Assignment.batch stored) = Some batch
      /\ header view = header stored
      /\ (Req.role user <> role_student -> view = stored)
      /\ (Req.role user = role_student ->
          (includes (Batch.students batch) (Req.id user) = true
           \/ Batch.teacher batch = Req.id user)
          /\ Assignment.submissions view
             = match entryAt db id (Req.id user) with
               | Some own => [own]
               | None => []
               end).
Proof.
  intros db user id view H. unfold getAssignment in H. unfold entryAt.
  destruct (findById Assignment._id (assignments db) id) as [a|] eqn:Ha;
    [|discriminate].
  destruct (Assignment.isActive a) eqn:Hact; [|discriminate]. simpl in H.
  destruct (findById Batch._id (batches db) (Assignment.batch a)) as [b|] eqn:Hb;
    [|discriminate].
  exists a, b. split; [reflexivity|]. split; [exact Hact|]. split; [exact Hb|].
  destruct (Role_eqb (Req.role user) role_student) eqn:Hrole; simpl in H.
  - assert (Hst : Req.role user = role_student)
      by (destruct (Req.role user); simpl in Hrole; congruence).
    destruct (negb (includes (Batch.students b) (Req.id user))
              && negb (Nat.eqb (Batch.teacher b) (Req.id user))) eqn:Hacc;
      [discriminate|].
    destruct (findOwn _ _ _) as [own|] eqn:Hown; [|discriminate].
    injection H as <-. apply findOwn_ok in Hown. subst own.
    split; [reflexivity|]. split; [congruence|]. intros _. split; [|reflexivity].
    apply andb_false_iff in Hacc. destruct Hacc as [Hacc|Hacc];
      apply negb_false_iff in Hacc; [now left|right]. now apply Nat.eqb_eq.
  - injection H as <-. split; [reflexivity|]. split; [reflexivity|].
    intros Hst. rewrite Hst in Hrole. discriminate.
Qed.

(** Student 2 reads the essay after submitting it. *)
Lemma student_sees_own_submission_only_witness :
  exists stored batch,
    findById Assignment._id (assignments (submittedDB thisAssignment)) 40
    = Some stored
    /\ Assignment.isActive stored = true
    /\ findById Batch._id (batches (submittedDB thisAssignment))
                (Assignment.batch stored) = Some batch
    /\ Assignment.submissions stored
       = [Submission.mk 2 10 [] "" None None None None Submission.submitted].
Proof.
  destruct (student_sees_own_submission_only (submittedDB thisAssignment)
              student2 40
              (Assignment.mk 40 "Essay" 10 1 1000 50
                 [Submission.mk 2 10 [] "" None None None None
                    Submission.submitted] true)
              eq_refl)
    as (stored & batch & H1 & H2 & H3 & _).
  exists stored, batch. repeat split; try assumption.
  vm_compute in H1. injection H1 as <-. reflexivity.
Defined.

(** ** A student taken off the roster, and single attendance records *)

Lemma removeStudentFromBatch_ok (db db' : DB) (id s : ObjectId) :
  removeStudentFromBatch db id s = (Ok tt, db') ->
  exists b', findById Batch._id (batches db') id = Some b'
             /\ includes (Batch.students b') s = false
             /\ assignments db' = assignments db
             /\ payments db' = payments db
             /\ attendances db' = attendances db.
Proof.
  unfold removeStudentFromBatch. intros H.
  destruct (findById Batch._id (batches db) id) as [b|] eqn:Hb; [|discriminate].
  destruct (negb (includes (Batch.students b) s)); [discriminate|].
  injection H as <-. simpl.
  destruct (findById_key _ _ _ _ Hb) as [Hid _]. subst id.
  eexists. split; [|split; [|repeat split; reflexivity]].
  - exact (findById_save_same Batch._id (batches db)
             (Batch.with_students b
                (filter (fun i => negb (Nat.eqb i s)) (Batch.students b))) b Hb).
  - simpl. apply includes_false. rewrite filter_In. intros [_ Hne].
    rewrite Nat.eqb_refl in Hne. discriminate.
Qed.

(** X4. Once [removeStudentFromBatch] has taken a student off a roster, the
    student's submit to an active assignment of the batch is answered 403, a
    single attendance record and a payment for the student in that batch are
    answered 400, and a bulk mark that names only this student stores
    nothing; none of them changes the database. *)
Theorem removed_student_is_refused :
  forall (db db' : DB) (batchId s : ObjectId),
    removeStudentFromBatch db batchId s = (Ok tt, db') ->
    (forall vt role a notes files now,
        findById Assignment._id (assignments db') (Assignment._id a) = Some a ->
        Assignment.batch a = batchId ->
        Assignment.isActive a = true ->
        submitAssignment vt db' (Req.mkUser s role) (Assignment._id a) notes files now
        = (Fail (ErrorResponse "You are not enrolled in this batch" 403), db'))
    /\ (forall user date status notes,
          exists message,
            createAttendance db' user (mkAttendanceBody s batchId date status notes)
            = (Fail (ErrorResponse message 400), db'))
    /\ (forall user month amount method status year,
          exists message,
            createPayment db' user
              (PaymentBody.mk (Some s) (Some batchId) month amount method status)
              year
            = (Fail (ErrorResponse message 400), db'))
    /\ (forall user date atts b',
          findById Batch._id (batches db') batchId = Some b' ->
          notTeacherNorAdmin b' user = false ->
          Forall (fun att => Att.student att = s) atts ->
          exists r,
            markMultipleAttendances db' user
              (mkBulkBody (Some batchId) (Some date) (Some (map Some atts)))
            = (Ok r, db')
            /\ data r = []
            /\ success r = Nat.eqb (List.length atts) 0).
Proof.
  intros db db' batchId s H.
  destruct (removeStudentFromBatch_ok _ _ _ _ H) as (b' & Hb' & Hout & _).
  split; [|split; [|split]].
  - intros vt role a notes files now Ha Hbatch Hact.
    unfold submitAssignment. rewrite Ha, Hact, Hbatch, Hb'. simpl.
    now rewrite Hout.
  - intros user date status notes. unfold createAttendance. simpl.
    destruct (find _ (attendances db')); [eauto|].
    rewrite Hb', Hout. simpl. eauto.
  - intros user month amount method status year. unfold createPayment. simpl.
    destruct (find _ (payments db')); [eauto|].
    rewrite Hb', Hout. simpl. eauto.
  - intros user date atts b'' Hb'' Hauth Hatts.
    rewrite Hb' in Hb''. injection Hb'' as <-.
    unfold markMultipleAttendances. simpl. rewrite Hb', Hauth.
    assert (Hfold : forall st,
               fold_left (markEntry user b' batchId date) atts st
               = mkBulk (bulk_db st) (results st)
                   (errors st ++ map (fun att => NotInBatch (Att.student att)) atts)
                   (thrown st)).
    { induction Hatts as [|att atts Hs _ IH]; intros st; simpl.
      - rewrite app_nil_r. now destruct st.
      - rewrite IH. unfold markEntry. rewrite Hs, Hout. simpl.
        now rewrite <- app_assoc. }
    rewrite (markOne_objects user b' batchId date atts
               (mkBulk db' [] [] None) eq_refl).
    rewrite Hfold. simpl. eexists. split; [reflexivity|]. simpl.
    split; [reflexivity|]. now rewrite length_map.
Qed.

(** Student 2 is taken off batch 10 and submits the essay. *)
Lemma removed_student_is_refused_witness :
  submitAssignment thisAssignment (snd (removeStudentFromBatch workflowDB 10 2))
    student2 40 None [] 10
  = (Fail (ErrorResponse "You are not enrolled in this batch" 403),
     snd (removeStudentFromBatch workflowDB 10 2)).
Proof.
  destruct (removed_student_is_refused workflowDB
              (snd (removeStudentFromBatch workflowDB 10 2)) 10 2 eq_refl)
    as [H _].
  exact (H thisAssignment role_student
           (Assignment.mk 40 "Essay" 10 1 1000 50 [] true) None [] 10
           eq_refl eq_refl eq_refl).
Defined.

(** *** Single attendance records *)

Lemma createAttendance_ok (db db' : DB) (user : Req.user) (body : AttendanceBody)
    (doc : Attendance.t) :
  createAttendance db user body = (Ok doc, db') ->
  find (sameDay (body_student body) (body_batch body) (body_date body))
       (attendances db) = None
  /\ (exists b, findById Batch._id (batches db) (body_batch body) = Some b
                /\ includes (Batch.students b) (body_student body) = true)
  /\ Attendance_create db (body_student body) (body_batch body) (body_date body)
       (body_status body) (orEmpty (body_notes body)) (Req.id user)
     = (Ok doc, db').
Proof.
  unfold createAttendance. intros H.
  destruct (find _ (attendances db)); [discriminate|].
  destruct (findById Batch._id (batches db) (body_batch body)) as [b|];
    [|discriminate].
  destruct (includes (Batch.students b) (body_student body)) eqn:Hinc;
    [|discriminate].
  simpl in H. split; [reflexivity|]. split; [|exact H]. eauto.
Qed.

Lemma Attendance_create_fail (db db' : DB) (s b : ObjectId) (d : Z)
    (st : option string) (n : string) (m : ObjectId) (e : Failure) :
  Attendance_create db s b d st n m = (Fail e, db') -> db' = db.
Proof.
  unfold Attendance_create. intros H.
  destruct (castStatus st); [|congruence].
  destruct (negb _); [congruence|].
  destruct (negb _); [congruence|].
  destruct (attendanceKeyTaken _ _ _ _); [congruence|discriminate].
Qed.

(** X5. After a successful [createAttendance], a second request for the same
    student, batch and date stores nothing, whoever sends it and with
    whatever status; before 23:59:59 of the day it is the handler's lookup
    that answers it, with 400. *)
Theorem attendance_not_created_twice :
  forall (db db' : DB) (user : Req.user) (body : AttendanceBody)
         (doc : Attendance.t),
    createAttendance db user body = (Ok doc, db') ->
    forall user' status' notes',
      let again := mkAttendanceBody (body_student body) (body_batch body)
                     (body_date body) status' notes' in
      (exists e, createAttendance db' user' again = (Fail e, db'))
      /\ (body_date body < setHours (body_date body) 23 59 59 ->
          createAttendance db' user' again
          = (Fail (ErrorResponse
                     "Attendance already marked for this student on this date"
                     400), db')).
Proof.
  intros db db' user body doc H user' status' notes' again. subst again.
  destruct (createAttendance_ok _ _ _ _ _ H) as (_ & _ & Hc).
  apply Attendance_create_ok in Hc.
  destruct Hc as (_ & Hs & Hb & Hd & _ & _ & ->).
  assert (Hin : In doc (attendances db ++ [doc]))
    by (apply in_or_app; right; simpl; auto).
  split.
  - destruct (createAttendance _ user' _) as [[d2|e] db2] eqn:H2.
    + exfalso. destruct (createAttendance_ok _ _ _ _ _ H2) as (_ & _ & Hc2).
      unfold Attendance_create in Hc2. simpl in Hc2.
      destruct (castStatus status'); [|discriminate].
      destruct (negb _); [discriminate|].
      destruct (negb _); [discriminate|].
      assert (Hk : attendanceKeyTaken
                     (with_attendances db (attendances db ++ [doc]) (S (nextId db)))
                     (body_student body) (body_batch body) (body_date body) = true).
      { unfold attendanceKeyTaken. simpl. apply existsb_exists. exists doc.
        split; [exact Hin|].
        now rewrite Hs, Hb, Hd, !Nat.eqb_refl, Z.eqb_refl. }
      rewrite Hk in Hc2. discriminate.
    + exists e. f_equal. unfold createAttendance in H2.
      destruct (find _ _); [congruence|].
      destruct (findById _ _ _); [|congruence].
      destruct (negb _); [congruence|].
      eapply Attendance_create_fail; eassumption.
  - intros Hday. unfold createAttendance. simpl.
    destruct (find _ (attendances db ++ [doc])) eqn:Hf; [reflexivity|].
    pose proof (find_none _ _ Hf doc Hin) as Hn. unfold sameDay in Hn.
    rewrite Hs, Hb, Hd, !Nat.eqb_refl in Hn. simpl in Hn.
    pose proof (setHours_midnight_le (body_date body)) as Hlo.
    apply Z.leb_le in Hlo. apply Z.ltb_lt in Hday. rewrite Hlo, Hday in Hn.
    discriminate.
Qed.

(** Teacher 1 marks student 3 on day 0; teacher 7 tries the same day. *)
Lemma attendance_not_created_twice_witness :
  createAttendance (snd (createAttendance bulkDB teacher1 dayZeroBody)) teacher7
    (mkAttendanceBody 3 10 0 (Some "absent") None)
  = (Fail (ErrorResponse
             "Attendance already marked for this student on this date" 400),
     snd (createAttendance bulkDB teacher1 dayZeroBody)).
Proof.
  refine (proj2 (attendance_not_created_twice bulkDB
                   (snd (createAttendance bulkDB teacher1 dayZeroBody))
                   teacher1 dayZeroBody
                   (Attendance.mk 100 3 10 0 (Some Attendance.present) 1 "")
                   eq_refl teacher7 (Some "absent") None) _).
  reflexivity.
Defined.

Lemma remove_fresh {D} (key : D -> ObjectId) (c : list D) (i : ObjectId) :
  Forall (fun x => key x <> i) c -> remove key c i = c.
Proof.
  unfold remove. intros Hc.
  induction Hc as [|x c Hx _ IH]; simpl; [reflexivity|].
  apply Nat.eqb_neq in Hx. rewrite Hx. simpl. now rewrite IH.
Qed.

Lemma remove_app_fresh {D} (key : D -> ObjectId) (c : list D) (d : D) :
  Forall (fun x => key x <> key d) c -> remove key (c ++ [d]) (key d) = c.
Proof.
  intros Hc. unfold remove. rewrite filter_app. simpl.
  rewrite Nat.eqb_refl. simpl. rewrite app_nil_r.
  now apply remove_fresh.
Qed.

(** X6. The user who created an attendance record can delete it, which leaves
    the ledger as it was before the record; another user who is not an admin
    is answered 403. *)
Theorem created_attendance_can_be_deleted :
  forall (db db' : DB) (user : Req.user) (body : AttendanceBody)
         (doc : Attendance.t),
    attendanceIdsOk db ->
    createAttendance db user body = (Ok doc, db') ->
    (exists db'',
        deleteAttendance db' user (Attendance._id doc) = (Ok tt, db'')
        /\ attendances db'' = attendances db)
    /\ (forall other,
          Req.id other <> Req.id user -> Req.role other <> role_admin ->
          deleteAttendance db' other (Attendance._id doc)
          = (Fail (ErrorResponse
                     "Not authorized to delete this attendance record" 403), db')).
Proof.
  intros db db' user body doc [Hnd Hlt] H.
  destruct (createAttendance_ok _ _ _ _ _ H) as (_ & _ & Hc).
  apply Attendance_create_ok in Hc.
  destruct Hc as (Hid & _ & _ & _ & Hm & _ & ->).
  assert (Hfresh : Forall (fun x => Attendance._id x <> Attendance._id doc)
                          (attendances db)).
  { rewrite Hid. eapply Forall_impl; [|exact Hlt]. simpl. intros a Ha. lia. }
  assert (Hfind : findById Attendance._id (attendances db ++ [doc])
                    (Attendance._id doc) = Some doc)
    by now apply findById_app_new.
  split.
  - unfold deleteAttendance. simpl. rewrite Hfind, Hm, Nat.eqb_refl. simpl.
    eexists. split; [reflexivity|]. simpl. now apply remove_app_fresh.
  - intros other Hne Hrole. unfold deleteAttendance. simpl.
    rewrite Hfind, Hm.
    apply Nat.eqb_neq in Hne. rewrite Nat.eqb_sym in Hne. rewrite Hne.
    now rewrite (Role_eqb_neq _ _ Hrole).
Qed.

(** Teacher 1 marks student 3 and deletes the record. *)
Lemma created_attendance_can_be_deleted_witness :
  exists db'',
    deleteAttendance (snd (createAttendance bulkDB teacher1 dayZeroBody))
                     teacher1 100
    = (Ok tt, db'')
    /\ attendances db'' = attendances bulkDB.
Proof.
  refine (proj1 (created_attendance_can_be_deleted bulkDB
                   (snd (createAttendance bulkDB teacher1 dayZeroBody))
                   teacher1 dayZeroBody
                   (Attendance.mk 100 3 10 0 (Some Attendance.present) 1 "")
                   _ eq_refl)).
  split; simpl.
  - constructor; [intros [] | constructor].
  - constructor; [simpl; lia | constructor].
Defined.

(** X7. The lookup of [createAttendance] starts its day range at the milliseconds
    of the requested date: when a student's only record in a batch is dated
    midnight, a request for a later instant of that day whose milliseconds
    are not zero does not see it, and a second record of that day is
    stored. *)
Theorem two_records_on_one_day :
  forall (db db' : DB) (user : Req.user) (s b : ObjectId) (d k : Z)
         (status notes : option string) (doc : Attendance.t),
    (forall r, In r (attendances db) ->
               Attendance.student r = s -> Attendance.batch r <> b) ->
    d mod 86400000 = 0 ->
    createAttendance db user (mkAttendanceBody s b d status notes) = (Ok doc, db') ->
    0 < k < 86400000 -> k mod 1000 <> 0 ->
    exists doc2 db2,
      createAttendance db' user (mkAttendanceBody s b (d + k) status notes)
      = (Ok doc2, db2)
      /\ In doc (attendances db2) /\ In doc2 (attendances db2)
      /\ Attendance.student doc2 = Attendance.student doc
      /\ Attendance.batch doc2 = Attendance.batch doc
      /\ sameDate (Attendance.date doc) (Attendance.date doc2)
      /\ Attendance._id doc2 <> Attendance._id doc.
Proof.
  intros db db' user s b d k status notes doc Hnone Hmid H Hk Hms.
  destruct (createAttendance_ok _ _ _ _ _ H) as (_ & [bt [Hbt Hinc]] & Hc).
  simpl in *. pose proof Hc as Hc0. apply Attendance_create_ok in Hc.
  destruct Hc as (Hid & Hs & Hb & Hd & _ & _ & ->).
  unfold Attendance_create in Hc0.
  destruct (castStatus status) as [st|] eqn:Hst; [|discriminate].
  destruct (negb (maxlength 500 (orEmpty notes))) eqn:Hlen; [discriminate|].
  destruct (negb (enrolledHook db s b)) eqn:Hen; [discriminate|].
  clear Hc0.
  assert (Hlo : d < setHours (d + k) 0 0 0).
  { unfold setHours.
    assert (E1 : (d + k) mod 86400000 = k).
    { rewrite Z.add_mod by lia. rewrite Hmid. simpl.
      rewrite Z.mod_mod by lia. apply Z.mod_small. lia. }
    assert (E2 : (d + k) mod 1000 = k mod 1000).
    { apply Z.mod_divide in Hmid; [|lia]. destruct Hmid as [q ->].
      replace (q * 86400000 + k) with (k + (q * 86400) * 1000) by lia.
      apply Z.mod_add. lia. }
    rewrite E1, E2.
    pose proof (Z.mod_pos_bound k 1000 ltac:(lia)). lia. }
  assert (Hfind : find (sameDay s b (d + k)) (attendances db ++ [doc]) = None).
  { rewrite find_snoc.
    assert (Hold : find (sameDay s b (d + k)) (attendances db) = None).
    { destruct (find _ (attendances db)) as [r|] eqn:Hf; [|reflexivity].
      apply find_some in Hf. destruct Hf as [Hin Hr]. unfold sameDay in Hr.
      apply andb_prop in Hr. destruct Hr as [Hr _].
      apply andb_prop in Hr. destruct Hr as [Hr _].
      apply andb_prop in Hr. destruct Hr as [Hrs Hrb].
      apply Nat.eqb_eq in Hrs, Hrb. exfalso. now apply (Hnone r Hin Hrs). }
    rewrite Hold. unfold sameDay. rewrite Hs, Hb, Hd, !Nat.eqb_refl. simpl.
    apply Z.lt_nge in Hlo. apply Z.leb_nle in Hlo. now rewrite Hlo. }
  unfold createAttendance. simpl. rewrite Hfind, Hbt, Hinc. simpl.
  unfold Attendance_create. rewrite Hst, Hlen. simpl.
  unfold enrolledHook in *. simpl. rewrite Hen.
  assert (Hkey : attendanceKeyTaken
                   (with_attendances db (attendances db ++ [doc]) (S (nextId db)))
                   s b (d + k) = false).
  { unfold attendanceKeyTaken. simpl. rewrite existsb_app. simpl.
    rewrite Hs, Hb, Hd, !Nat.eqb_refl. simpl.
    assert (E : (d =? d + k) = false) by (apply Z.eqb_neq; lia).
    rewrite E, orb_false_r.
    destruct (existsb _ (attendances db)) eqn:Hex; [|reflexivity].
    apply existsb_exists in Hex. destruct Hex as [r [Hin Hr]].
    apply andb_prop in Hr. destruct Hr as [Hr _].
    apply andb_prop in Hr. destruct Hr as [Hrs Hrb].
    apply Nat.eqb_eq in Hrs, Hrb. exfalso. now apply (Hnone r Hin Hrs). }
  rewrite Hkey. eexists. eexists. split; [reflexivity|]. simpl.
  repeat split.
  - apply in_or_app. left. apply in_or_app. right. simpl. auto.
  - apply in_or_app. right. simpl. auto.
  - now rewrite Hs.
  - now rewrite Hb.
  - unfold sameDate. rewrite Hd.
    apply Z.mod_divide in Hmid; [|lia]. destruct Hmid as [q ->].
    rewrite Z.div_mul by lia.
    replace (q * 86400000 + k) with (k + q * 86400000) by lia.
    rewrite Z.div_add by lia. rewrite Z.div_small by lia. reflexivity.
  - rewrite Hid. lia.
Qed.

(** Student 3 is marked at midnight of day 0 and one millisecond later. *)
Lemma two_records_on_one_day_witness :
  exists doc2 db2,
    createAttendance (snd (createAttendance bulkDB teacher1 dayZeroBody)) teacher1
      (mkAttendanceBody 3 10 (0 + 1) (Some "present") None)
    = (Ok doc2, db2)
    /\ In (Attendance.mk 100 3 10 0 (Some Attendance.present) 1 "")
          (attendances db2)
    /\ In doc2 (attendances db2)
    /\ Attendance.student doc2 = 3%nat
    /\ Attendance.batch doc2 = 10%nat
    /\ sameDate 0 (Attendance.date doc2)
    /\ Attendance._id doc2 <> 100%nat.
Proof.
  refine (two_records_on_one_day bulkDB
            (snd (createAttendance bulkDB teacher1 dayZeroBody))
            teacher1 3 10 0 1 (Some "present") None
            (Attendance.mk 100 3 10 0 (Some Attendance.present) 1 "")
            _ eq_refl eq_refl _ _).
  - intros r [<-|[]]. simpl. discriminate.
  - lia.
  - discriminate.
Defined.

(** *** Receipt numbers *)

Lemma createPayment_receipt (db db' : DB) (user : Req.user) (body : PaymentBody.t)
    (year : nat) (p : Payment.t) :
  createPayment db user body year = (Ok p, db') ->
  Payment.receiptNumber p = Some (receiptFor year (List.length (payments db)))
  /\ receiptTaken db (Some (receiptFor year (List.length (payments db)))) = false
  /\ Payment._id p = nextId db.
Proof.
  intros H. pose proof (createPayment_ok _ _ _ _ _ _ H) as Hok.
  destruct Hok as (_ & _ & _ & Hst & _).
  unfold createPayment in H.
  destruct (find _ (payments db)); [discriminate|].
  destruct (match PaymentBody.batch body with
            | Some b => findById Batch._id (batches db) b
            | None => None
            end); [|discriminate].
  destruct (negb _); [discriminate|].
  unfold Payment_create in H. simpl in H.
  repeat (break_match H; try discriminate);
    injection H as <- <-; simpl in *; try discriminate;
    match goal with
    | E : (_ || _) = false |- _ => apply orb_false_iff in E; destruct E
    end; auto.
Qed.

(** X8. The receipt number is the count of payments plus one: after two payments
    of one year and the deletion of the first, the count names the receipt of
    the second again, and every further create of that year (a body has no
    receipt number of its own) fails and stores nothing. *)
Theorem receipt_numbers_collide_after_a_delete :
  forall (db db1 db2 db3 : DB) (u1 u2 : Req.user) (b1 b2 : PaymentBody.t)
         (year : nat) (p1 p2 : Payment.t),
    paymentIdsOk db ->
    createPayment db u1 b1 year = (Ok p1, db1) ->
    createPayment db1 u2 b2 year = (Ok p2, db2) ->
    deletePayment db2 (Payment._id p1) = (Ok tt, db3) ->
    payments db3 = payments db ++ [p2]
    /\ forall user body,
         exists e, createPayment db3 user body year = (Fail e, db3).
Proof.
  intros db db1 db2 db3 u1 u2 b1 b2 year p1 p2 Hids H1 H2 H3.
  destruct (createPayment_receipt _ _ _ _ _ _ H1) as (_ & _ & Hid1).
  destruct (createPayment_receipt _ _ _ _ _ _ H2) as (Hr2 & _ & Hid2).
  apply createPayment_ok in H1. destruct H1 as (_ & _ & _ & _ & _ & _ & ->).
  apply createPayment_ok in H2. destruct H2 as (_ & _ & _ & _ & _ & _ & ->).
  simpl in *.
  assert (Hpay : payments db3 = payments db ++ [p2]).
  { unfold deletePayment in H3. simpl in H3.
    destruct (findById Payment._id ((payments db ++ [p1]) ++ [p2]) (Payment._id p1))
      as [q|] eqn:Hq; [|discriminate].
    destruct (findById_key _ _ _ _ Hq) as [Hqid _]. rewrite Hqid in H3.
    injection H3 as <-. simpl. unfold remove. rewrite !filter_app. simpl.
    assert (E : Nat.eqb (S (nextId db)) (nextId db) = false)
      by (apply Nat.eqb_neq; lia).
    rewrite Nat.eqb_refl, Hid2, Hid1, E. simpl. rewrite app_nil_r. f_equal.
    apply (remove_fresh Payment._id).
    eapply Forall_impl; [|exact Hids]. simpl. intros x Hx. lia. }
  split; [exact Hpay|].
  intros user body.
  destruct (createPayment db3 user body year) as [[p|e] db4] eqn:H4.
  - exfalso. destruct (createPayment_receipt _ _ _ _ _ _ H4) as (_ & Hfree & _).
    rewrite Hpay in Hfree. unfold receiptTaken in Hfree. rewrite Hpay in Hfree.
    rewrite existsb_app in Hfree. simpl in Hfree.
    rewrite Hr2 in Hfree. simpl in Hfree.
    rewrite !length_app in Hfree. simpl in Hfree.
    rewrite String.eqb_refl in Hfree. simpl in Hfree.
    now rewrite orb_true_r in Hfree.
  - exists e. f_equal. eapply createPayment_fail; eassumption.
Qed.

(** March and April are paid, March is deleted and paid again. *)
Lemma receipt_numbers_collide_after_a_delete_witness :
  payments (snd (deletePayment aprilPaidDB 100))
  = payments ledgerDB
    ++ [Payment.mk 101 2 10 500 Payment.cash (Some "RCPT-2024-000002") "2024-04"
          Payment.completed 1]
  /\ createPayment (snd (deletePayment aprilPaidDB 100)) ledgerAdmin marchBody 2024
     = (Fail DuplicateKeyError, snd (deletePayment aprilPaidDB 100)).
Proof.
  destruct (receipt_numbers_collide_after_a_delete ledgerDB marchPaidDB aprilPaidDB
              (snd (deletePayment aprilPaidDB 100)) ledgerAdmin ledgerAdmin
              marchBody aprilBody 2024
              (Payment.mk 100 2 10 500 Payment.cash (Some "RCPT-2024-000001")
                 "2024-03" Payment.completed 1)
              (Payment.mk 101 2 10 500 Payment.cash (Some "RCPT-2024-000002")
                 "2024-04" Payment.completed 1))
    as [Hpay _].
  - constructor.
  - reflexivity.
  - reflexivity.
  - reflexivity.
  - split; [exact Hpay | reflexivity].
Defined.

(** ** The summaries of the models *)

Lemma optStatus_eqb_eq (a b : option Attendance.Status) :
  optStatus_eqb a b = true <-> a = b.
Proof.
  destruct a as [[]|], b as [[]|]; simpl; split; congruence.
Qed.

Lemma optStatus_eqb_refl (a : option Attendance.Status) : optStatus_eqb a a = true.
Proof. now apply optStatus_eqb_eq. Qed.


Lemma rowCount_addToGroup (k k' : option Attendance.Status) (g : list SummaryRow) :
  rowCount k (addToGroup k' g)
  = rowCount k g + (if optStatus_eqb k' k then 1 else 0).
Proof.
  unfold rowCount. induction g as [|r g IH]; simpl.
  - destruct (optStatus_eqb k' k); reflexivity.
  - destruct (optStatus_eqb (row_status r) k') eqn:E; simpl.
    + apply optStatus_eqb_eq in E. rewrite E.
      destruct (optStatus_eqb k' k); simpl; lia.
    + destruct (optStatus_eqb (row_status r) k) eqn:E2; [|exact IH].
      apply optStatus_eqb_eq in E2. subst k.
      destruct (optStatus_eqb k' (row_status r)) eqn:E3; [|simpl; lia].
      apply optStatus_eqb_eq in E3. subst k'.
      rewrite optStatus_eqb_refl in E. discriminate.
Qed.

Lemma In_addToGroup (k k' : option Attendance.Status) (g : list SummaryRow) :
  In k' (map row_status (addToGroup k g)) <-> k' = k \/ In k' (map row_status g).
Proof.
  induction g as [|r g IH]; simpl; [intuition auto|].
  destruct (optStatus_eqb (row_status r) k) eqn:E; simpl.
  - apply optStatus_eqb_eq in E. rewrite E. intuition auto.
  - rewrite IH. intuition auto.
Qed.

Lemma NoDup_addToGroup (k : option Attendance.Status) (g : list SummaryRow) :
  NoDup (map row_status g) -> NoDup (map row_status (addToGroup k g)).
Proof.
  induction g as [|r g IH]; simpl; intros H.
  - constructor; [simpl; tauto | constructor].
  - inversion H as [|? ? Hr Hg]; subst.
    destruct (optStatus_eqb (row_status r) k) eqn:E; simpl.
    + apply optStatus_eqb_eq in E. rewrite <- E. now constructor.
    + constructor; [|auto]. rewrite In_addToGroup. intros [Hk|Hin]; [|tauto].
      rewrite Hk, optStatus_eqb_refl in E. discriminate.
Qed.

Lemma positive_addToGroup (k : option Attendance.Status) (g : list SummaryRow) :
  Forall (fun r => 0 < count r) g ->
  Forall (fun r => 0 < count r) (addToGroup k g).
Proof.
  induction 1 as [|r g Hr Hg IH]; simpl.
  - constructor; [simpl; lia | constructor].
  - destruct (optStatus_eqb (row_status r) k); constructor; simpl; auto; lia.
Qed.

Lemma fold_count_shift (g : list SummaryRow) (a : Z) :
  fold_left (fun acc curr => acc + count curr) g a
  = a + fold_left (fun acc curr => acc + count curr) g 0.
Proof.
  revert a. induction g as [|r g IH]; intros a; simpl; [lia|].
  rewrite IH, (IH (count r)). lia.
Qed.

Lemma summaryTotal_addToGroup (k : option Attendance.Status) (g : list SummaryRow) :
  summaryTotal (addToGroup k g) = summaryTotal g + 1.
Proof.
  unfold summaryTotal. induction g as [|r g IH]; simpl; [reflexivity|].
  destruct (optStatus_eqb (row_status r) k); simpl.
  - rewrite fold_count_shift, (fold_count_shift g (count r)). lia.
  - rewrite fold_count_shift, (fold_count_shift g (count r)), IH. lia.
Qed.

(** The rows [$group] builds from the records [l]. *)
Lemma grouped (recs : list Attendance.t) :
  forall (l0 : list Attendance.t) (g : list SummaryRow),
    groupsOf l0 g ->
    groupsOf (l0 ++ recs)
             (fold_left (fun g a => addToGroup (Attendance.status a) g) recs g).
Proof.
  induction recs as [|a recs IH]; intros l0 g Hg; simpl.
  - now rewrite app_nil_r.
  - replace (l0 ++ a :: recs) with ((l0 ++ [a]) ++ recs)
      by (rewrite <- app_assoc; reflexivity).
    apply IH. destruct Hg as (Hnd & Hcount & Hpos & Htot).
    split; [|split; [|split]].
    + now apply NoDup_addToGroup.
    + intros k. rewrite rowCount_addToGroup, Hcount. unfold withStatus.
      rewrite filter_app, length_app. simpl.
      destruct (optStatus_eqb (Attendance.status a) k); simpl; lia.
    + now apply positive_addToGroup.
    + rewrite summaryTotal_addToGroup, Htot, length_app. simpl. lia.
Qed.

Lemma aggregate_groups (db : DB) (s b : ObjectId) :
  groupsOf (recordsOf db s b) (aggregate db s b).
Proof.
  unfold aggregate. apply (grouped (recordsOf db s b) [] []).
  repeat split; try constructor. 
Qed.

Lemma property_setProperty (k key : option Attendance.Status) (v : Z)
    (o : list (option Attendance.Status * Z)) :
  property k (setProperty key v o)
  = if optStatus_eqb key k then Some v else property k o.
Proof.
  unfold property. induction o as [|[k0 v0] o IH]; simpl.
  - destruct (optStatus_eqb key k); reflexivity.
  - destruct (optStatus_eqb k0 key) eqn:E; simpl.
    + apply optStatus_eqb_eq in E. subst k0.
      destruct (optStatus_eqb key k); reflexivity.
    + destruct (optStatus_eqb k0 k) eqn:E2; simpl.
      * apply optStatus_eqb_eq in E2. subst k0.
        destruct (optStatus_eqb key k) eqn:E3; [|reflexivity].
        apply optStatus_eqb_eq in E3. subst key.
        rewrite optStatus_eqb_refl in E. discriminate.
      * exact IH.
Qed.

Lemma filled (g : list SummaryRow) :
  forall (t : Z) (o : list (option Attendance.Status * Z)),
    NoDup (map row_status g) ->
    let result :=
      fold_left
        (fun result stat =>
           mkStatusTotals (totalOf result + count stat)
             (setProperty (row_status stat) (count stat) (perStatus result)))
        g (mkStatusTotals t o) in
    totalOf result = t + summaryTotal g
    /\ forall k, property k (perStatus result)
                 = match find (fun r => optStatus_eqb (row_status r) k) g with
                   | Some r => Some (count r)
                   | None => property k o
                   end.
Proof.
  induction g as [|r g IH]; intros t o Hnd; simpl.
  - split; [unfold summaryTotal; simpl; lia | reflexivity].
  - inversion Hnd as [|? ? Hr Hg]; subst.
    destruct (IH (t + count r) (setProperty (row_status r) (count r) o) Hg)
      as [Ht Hp].
    split.
    + rewrite Ht. unfold summaryTotal. simpl.
      rewrite (fold_count_shift g (count r)). lia.
    + intros k. rewrite Hp, property_setProperty.
      destruct (optStatus_eqb (row_status r) k) eqn:E; [|reflexivity].
      apply optStatus_eqb_eq in E. subst k.
      destruct (find _ g) as [r'|] eqn:Hf; [|reflexivity].
      apply find_some in Hf. destruct Hf as [Hin E].
      apply optStatus_eqb_eq in E. exfalso. apply Hr. rewrite <- E.
      now apply in_map.
Qed.

(** X9. [Attendance.getAttendanceSummary]: [total] is the number of records of
    the student in the batch, and the property of each status is the number
    of those records with that status, absent when there is none. *)
Theorem attendance_summary_counts :
  forall (db : DB) (studentId batchId : ObjectId),
    let result := getAttendanceSummary db studentId batchId in
    let records := recordsOf db studentId batchId in
    totalOf result = Z.of_nat (List.length records)
    /\ forall k,
         property k (perStatus result)
         = match List.length (withStatus k records) with
           | O => None
           | S n => Some (Z.of_nat (S n))
           end.
Proof.
  intros db s b result records.
  destruct (aggregate_groups db s b) as (Hnd & Hcount & Hpos & Htot).
  destruct (filled (aggregate db s b) 0 [] Hnd) as [Ht Hp].
  split.
  - unfold result, getAttendanceSummary. rewrite Ht, Htot. reflexivity.
  - intros k. unfold result, getAttendanceSummary. rewrite Hp.
    specialize (Hcount k). unfold rowCount in Hcount. fold records in Hcount.
    destruct (find _ (aggregate db s b)) as [r|] eqn:Hf.
    + apply find_some in Hf. destruct Hf as [Hin _].
      pose proof (proj1 (Forall_forall _ _) Hpos r Hin) as Hr. simpl in Hr.
      destruct (List.length (withStatus k records)); [simpl in Hcount; lia|].
      now rewrite Hcount.
    + destruct (List.length (withStatus k records)); [reflexivity|]. lia.
Qed.

Lemma addToSet_NoDup (x : string) (l : list string) :
  NoDup l -> NoDup (addToSet x l).
Proof.
  intros H. unfold addToSet. destruct (existsb (String.eqb x) l) eqn:E; [exact H|].
  apply NoDup_snoc; [exact H|]. intros Hin.
  assert (existsb (String.eqb x) l = true).
  { apply existsb_exists. exists x. split; [exact Hin | apply String.eqb_refl]. }
  congruence.
Qed.

Lemma addToSet_In (x y : string) (l : list string) :
  In y (addToSet x l) <-> y = x \/ In y l.
Proof.
  unfold addToSet. destruct (existsb (String.eqb x) l) eqn:E.
  - apply existsb_exists in E. destruct E as [z [Hz Ez]].
    apply String.eqb_eq in Ez. subst z. intuition (subst; auto).
  - rewrite in_app_iff. simpl. intuition auto.
Qed.

Lemma addToSet_fresh (x : string) (l : list string) :
  ~ In x l -> addToSet x l = l ++ [x].
Proof.
  intros H. unfold addToSet. destruct (existsb (String.eqb x) l) eqn:E; [|reflexivity].
  apply existsb_exists in E. destruct E as [z [Hz Ez]].
  apply String.eqb_eq in Ez. subst z. contradiction.
Qed.

Lemma totals_fold (l : list Payment.t) :
  forall acc,
    let r := fold_left
               (fun acc p =>
                  mkPaymentTotals (totalPaid acc + Payment.amount p)
                    (addToSet (Payment.month p) (monthsPaid acc))
                    (paymentCount acc + 1)) l acc in
    totalPaid r = totalPaid acc + sumOf Payment.amount l
    /\ paymentCount r = paymentCount acc + Z.of_nat (List.length l)
    /\ (NoDup (monthsPaid acc) -> NoDup (monthsPaid r))
    /\ (forall m, In m (monthsPaid r)
                  <-> In m (monthsPaid acc) \/ In m (map Payment.month l))
    /\ (NoDup (monthsPaid acc ++ map Payment.month l) ->
        monthsPaid r = monthsPaid acc ++ map Payment.month l).
Proof.
  induction l as [|p l IH]; intros acc; simpl.
  - repeat split; try lia; auto; try tauto.
    now rewrite app_nil_r.
  - specialize (IH (mkPaymentTotals (totalPaid acc + Payment.amount p)
                      (addToSet (Payment.month p) (monthsPaid acc))
                      (paymentCount acc + 1))).
    simpl in IH. destruct IH as (H1 & H2 & H3 & H4 & H5).
    split; [|split; [|split; [|split]]].
    + rewrite H1. lia.
    + rewrite H2. lia.
    + intros Hnd. apply H3. now apply addToSet_NoDup.
    + intros m. rewrite H4, addToSet_In. intuition auto.
    + intros Hnd.
      assert (Hfresh : ~ In (Payment.month p) (monthsPaid acc)).
      { intros Hin. apply NoDup_remove_2 in Hnd. apply Hnd.
        apply in_or_app. now left. }
      rewrite (addToSet_fresh _ _ Hfresh), <- app_assoc in H5. simpl in H5.
      rewrite (addToSet_fresh _ _ Hfresh). now apply H5.
Qed.

Lemma completed_months_distinct (db : DB) (s b : ObjectId) :
  uniqueTriples db -> NoDup (map Payment.month (completedOf db s b)).
Proof.
  unfold uniqueTriples, completedOf.
  induction (payments db) as [|p l IH]; simpl; intros H; [constructor|].
  inversion H as [|? ? Hp Hl]; subst.
  destruct (Nat.eqb (Payment.student p) s && Nat.eqb (Payment.batch p) b
            && isCompleted p) eqn:E; simpl; [|auto].
  constructor; [|auto]. intros Hin. apply Hp.
  apply in_map_iff in Hin. destruct Hin as [q [Hm Hq]].
  apply filter_In in Hq. destruct Hq as [Hq Eq].
  apply in_map_iff. exists q. split; [|exact Hq].
  apply andb_prop in E. destruct E as [E _].
  apply andb_prop in E. destruct E as [E1 E2].
  apply andb_prop in Eq. destruct Eq as [Eq _].
  apply andb_prop in Eq. destruct Eq as [Eq1 Eq2].
  apply Nat.eqb_eq in E1, E2, Eq1, Eq2. unfold paymentKey. congruence.
Qed.

(** X10. [Payment.getPaymentSummary] counts the completed payments of the student
    in the batch, sums their amounts and lists their months without
    repetition; with one payment per (student, batch, month) it lists as many
    months as it counts payments. *)
Theorem payment_summary_of_a_student_in_a_batch :
  forall (db : DB) (studentId batchId : ObjectId),
    let row := getPaymentSummary db studentId batchId in
    let matched := completedOf db studentId batchId in
    paymentCount row = Z.of_nat (List.length matched)
    /\ totalPaid row = sumOf Payment.amount matched
    /\ NoDup (monthsPaid row)
    /\ (forall m, In m (monthsPaid row) <-> In m (map Payment.month matched))
    /\ (uniqueTriples db ->
        Z.of_nat (List.length (monthsPaid row)) = paymentCount row).
Proof.
  intros db s b row matched.
  pose proof (completed_months_distinct db s b) as Hdist. fold matched in Hdist.
  unfold row, getPaymentSummary. fold matched.
  destruct matched as [|p l] eqn:Hm.
  - simpl. repeat split; try constructor; tauto.
  - destruct (totals_fold (p :: l) (mkPaymentTotals 0 [] 0))
      as (H1 & H2 & H3 & H4 & H5).
    cbv zeta in *. simpl totalPaid in *. simpl paymentCount in *.
    simpl monthsPaid in *.
    split; [exact H2|]. split; [exact H1|]. split; [apply H3; constructor|].
    split; [intros m; rewrite H4; simpl; tauto|].
    intros Hu. rewrite H5 by (apply Hdist, Hu). rewrite H2.
    simpl. now rewrite length_map.
Qed.

(** *** The payment summary of a student *)

Lemma addPayment_keys (b : BatchRef) (p : Payment.t)
    (bps : list (ObjectId * BatchPayments)) (k : ObjectId) :
  In k (map fst (addPayment b p bps)) <-> k = ref_id b \/ In k (map fst bps).
Proof.
  induction bps as [|[k0 e] bps IH]; simpl; [intuition auto|].
  destruct (Nat.eqb k0 (ref_id b)) eqn:E; simpl.
  - apply Nat.eqb_eq in E. subst k0. intuition auto.
  - rewrite IH. intuition auto.
Qed.

Lemma addPayment_NoDup (b : BatchRef) (p : Payment.t)
    (bps : list (ObjectId * BatchPayments)) :
  NoDup (map fst bps) -> NoDup (map fst (addPayment b p bps)).
Proof.
  induction bps as [|[k0 e] bps IH]; simpl; intros H.
  - constructor; [simpl; tauto | constructor].
  - inversion H as [|? ? Hk Hnd]; subst.
    destruct (Nat.eqb k0 (ref_id b)) eqn:E; simpl; [now constructor|].
    constructor; [|auto]. rewrite addPayment_keys. intros [Hk0|Hin]; [|tauto].
    subst k0. now rewrite Nat.eqb_refl in E.
Qed.

Lemma summaryStep_failed (db : DB) (l : list Payment.t) (e : Failure) :
  fold_left (summaryStep db) l (Fail e) = Fail e.
Proof. induction l as [|p l IH]; simpl; auto. Qed.

Lemma runningSum_snoc (l : list Payment.t) (p : Payment.t) :
  runningSum (l ++ [p]) = runningSum l + Payment.amount p.
Proof. unfold runningSum. now rewrite fold_left_app. Qed.

Lemma forBatch_snoc (k : ObjectId) (l : list Payment.t) (p : Payment.t) :
  forBatch k (l ++ [p])
  = forBatch k l ++ (if Nat.eqb (Payment.batch p) k then [p] else []).
Proof. unfold forBatch. rewrite filter_app. reflexivity. Qed.

Lemma forBatch_none (k : ObjectId) (l : list Payment.t) :
  ~ In k (map Payment.batch l) -> forBatch k l = [].
Proof.
  induction l as [|p l IH]; simpl; [reflexivity|]. intros H.
  destruct (Nat.eqb (Payment.batch p) k) eqn:E.
  - apply Nat.eqb_eq in E. tauto.
  - apply IH. tauto.
Qed.

Lemma populateBatch_id (db : DB) (k : ObjectId) (b : BatchRef) :
  populateBatch db k = Some b -> ref_id b = k.
Proof.
  unfold populateBatch. destruct (findById Batch._id (batches db) k) as [x|] eqn:H;
    [|discriminate].
  intros [= <-]. simpl. now destruct (findById_key _ _ _ _ H).
Qed.

Lemma entryOf_other (done : list Payment.t) (p : Payment.t)
    (kv : ObjectId * BatchPayments) :
  fst kv <> Payment.batch p -> entryOf done kv -> entryOf (done ++ [p]) kv.
Proof.
  intros Hne (H1 & H2 & H3 & H4). unfold entryOf. rewrite forBatch_snoc.
  assert (E : Nat.eqb (Payment.batch p) (fst kv) = false)
    by (apply Nat.eqb_neq; congruence).
  rewrite E, app_nil_r. auto.
Qed.

Lemma addPayment_entryOf (done : list Payment.t) (b : BatchRef) (p : Payment.t)
    (bps : list (ObjectId * BatchPayments)) :
  ref_id b = Payment.batch p ->
  NoDup (map fst bps) ->
  (~ In (ref_id b) (map fst bps) -> forBatch (ref_id b) done = []) ->
  Forall (entryOf done) bps ->
  Forall (entryOf (done ++ [p])) (addPayment b p bps).
Proof.
  intros Hb. induction bps as [|[k0 e] bps IH]; simpl; intros Hnd Hnew Hall.
  - constructor; [|constructor]. unfold entryOf. simpl.
    rewrite forBatch_snoc, (Hnew (fun H => H)), Hb, Nat.eqb_refl. simpl.
    split; [reflexivity|]. split; [reflexivity|].
    split; [apply (addToSet_NoDup _ []); constructor|].
    intros m. simpl. tauto.
  - inversion Hnd as [|? ? Hk Hnd']; subst.
    inversion Hall as [|? ? (H1 & H2 & H3 & H4) Hrest]; subst. simpl in *.
    destruct (Nat.eqb k0 (ref_id b)) eqn:E.
    + apply Nat.eqb_eq in E. rewrite E in *. clear E k0. constructor.
      * unfold entryOf. simpl.
        rewrite forBatch_snoc, <- Hb, Nat.eqb_refl, runningSum_snoc.
        split; [exact H1|]. split; [now rewrite H2|].
        split; [now apply addToSet_NoDup|].
        intros m. rewrite addToSet_In, map_app, in_app_iff, H4. simpl.
        intuition auto.
      * rewrite Forall_forall in *. intros kv Hin.
        apply entryOf_other; [|auto].
        intros Heq. apply Hk. rewrite Hb, <- Heq. now apply in_map.
    + apply Nat.eqb_neq in E. constructor.
      * apply entryOf_other; [simpl; congruence|].
        unfold entryOf. simpl. auto.
      * apply IH; auto. intros Hnot. apply Hnew. intros [Heq|Hin]; auto.
Qed.

(** What the [forEach] has built after the payments [done]. *)
Lemma summary_fold (db : DB) (l : list Payment.t) :
  forall done paid0 bps0 paid1 bps1,
    fold_left (summaryStep db) l (Ok (paid0, bps0)) = Ok (paid1, bps1) ->
    paid0 = runningSum done ->
    NoDup (map fst bps0) ->
    (forall k, In k (map fst bps0) <-> In k (map Payment.batch done)) ->
    Forall (entryOf done) bps0 ->
    paid1 = runningSum (done ++ l)
    /\ NoDup (map fst bps1)
    /\ (forall k, In k (map fst bps1) <-> In k (map Payment.batch (done ++ l)))
    /\ Forall (entryOf (done ++ l)) bps1.
Proof.
  induction l as [|p l IH]; intros done paid0 bps0 paid1 bps1 H Hp Hnd Hk Hall;
    simpl in H.
  - injection H as <- <-. rewrite app_nil_r. auto.
  - destruct (populateBatch db (Payment.batch p)) as [b|] eqn:Hb.
    + pose proof (populateBatch_id _ _ _ Hb) as Hid.
      replace (done ++ p :: l) with ((done ++ [p]) ++ l)
        by (now rewrite <- app_assoc).
      apply (IH (done ++ [p]) _ _ _ _ H).
      * rewrite runningSum_snoc. now rewrite Hp.
      * now apply addPayment_NoDup.
      * intros k. rewrite addPayment_keys, map_app, in_app_iff, Hk, Hid.
        simpl. intuition auto.
      * apply addPayment_entryOf; auto.
        intros Hnot. apply forBatch_none. now rewrite <- Hk.
    + rewrite summaryStep_failed in H. discriminate.
Qed.

(** X11. A summary that [getStudentPaymentSummary] answers: [totalPaid] is the
    running sum of the amounts of the student's completed payments; the
    batches listed are the batches of these payments, each once; the [paid]
    of a batch is the running sum of the payments for it, and its months are
    theirs, each once; no batch has pending months; and a student gets the
    own summary only. *)
Theorem student_payment_summary_totals :
  forall (db : DB) (user : Req.user) (studentId : ObjectId)
         (r : StudentPaymentSummary),
    getStudentPaymentSummary db user studentId = Ok r ->
    sps_totalPaid r = runningSum (completedPaymentsOf db studentId)
    /\ NoDup (map (fun s => ref_id (bs_batch s)) (batchSummaries r))
    /\ (forall k, In k (map (fun s => ref_id (bs_batch s)) (batchSummaries r))
                  <-> In k (map Payment.batch (completedPaymentsOf db studentId)))
    /\ Forall (fun s =>
                 paid s = runningSum (forBatch (ref_id (bs_batch s))
                                        (completedPaymentsOf db studentId))
                 /\ NoDup (bs_monthsPaid s)
                 /\ (forall m,
                       In m (bs_monthsPaid s)
                       <-> In m (map Payment.month
                                   (forBatch (ref_id (bs_batch s))
                                      (completedPaymentsOf db studentId))))
                 /\ pendingMonths s = [])
              (batchSummaries r)
    /\ (Req.role user = role_student -> Req.id user = studentId).
Proof.
  intros db user s r H. unfold getStudentPaymentSummary in H.
  destruct (Role_eqb (Req.role user) role_student
            && negb (Nat.eqb (Req.id user) s)) eqn:Hauth; [discriminate|].
  destruct (fold_left (summaryStep db) (completedPaymentsOf db s) (Ok (0, [])))
    as [[paid1 bps1]|e] eqn:Hfold; [|discriminate].
  injection H as <-. simpl.
  apply (summary_fold db _ []) in Hfold;
    [|reflexivity | constructor | reflexivity | constructor].
  simpl in Hfold. destruct Hfold as (H1 & H2 & H3 & H4).
  assert (Hkeys : map (fun x => ref_id (bs_batch (summarize (snd x)))) bps1
                  = map fst bps1).
  { clear - H4. induction H4 as [|[k e] l (Hk & _) _ IH]; simpl; [reflexivity|].
    simpl in Hk. f_equal; [now rewrite Hk | exact IH]. }
  split; [exact H1|]. split; [|split; [|split]].
  - rewrite map_map, Hkeys. exact H2.
  - intros k. rewrite map_map, Hkeys. apply H3.
  - clear - H4. induction H4 as [|[k e] l (Hk & Hp & Hm & Hi) _ IH]; simpl;
      constructor; auto.
    simpl in *. rewrite <- Hk. repeat split; auto; apply Hi.
  - intros Hrole. rewrite Hrole in Hauth. simpl in Hauth.
    destruct (Nat.eqb (Req.id user) s) eqn:E; [|discriminate].
    now apply Nat.eqb_eq.
Qed.

(** Student 2 has paid March and April, 500 each. *)
Lemma student_payment_summary_totals_witness :
  exists r,
    getStudentPaymentSummary aprilPaidDB student2 2 = Ok r
    /\ sps_totalPaid r = 1000
    /\ map (fun s => (paid s, bs_monthsPaid s)) (batchSummaries r)
       = [(1000, ["2024-03"; "2024-04"])].
Proof.
  eexists. split; [reflexivity|].
  destruct (student_payment_summary_totals aprilPaidDB student2 2 _ eq_refl)
    as (H1 & _).
  split; [exact H1 | reflexivity].
Defined.

Lemma summary_fold_missing (db : DB) (l : list Payment.t) (p : Payment.t) :
  In p l ->
  populateBatch db (Payment.batch p) = None ->
  forall st,
    fold_left (summaryStep db) l (Ok st)
    = Fail (TypeError "Cannot read properties of null").
Proof.
  induction l as [|q l IH]; simpl; [tauto|].
  intros [->|Hin] Hp [paid0 bps0].
  - rewrite Hp. apply summaryStep_failed.
  - destruct (populateBatch db (Payment.batch q)).
    + now apply IH.
    + apply summaryStep_failed.
Qed.

(** X12. [deleteBatch] leaves the payments of the batch in the ledger; afterwards
    the payment summary of a student with a completed payment for that batch
    throws on the batch that [populate] no longer finds. *)
Theorem payment_summary_fails_after_deleteBatch :
  forall (db db' : DB) (user viewer : Req.user) (batchId studentId : ObjectId)
         (p : Payment.t),
    deleteBatch db user batchId = (Ok tt, db') ->
    In p (payments db) ->
    Payment.student p = studentId ->
    Payment.batch p = batchId ->
    Payment.status p = Payment.completed ->
    Req.role viewer <> role_student \/ Req.id viewer = studentId ->
    In p (payments db')
    /\ getStudentPaymentSummary db' viewer studentId
       = Fail (TypeError "Cannot read properties of null").
Proof.
  intros db db' user viewer bid s p Hdel Hin Hs Hb Hst Hview.
  assert (Hpay : payments db' = payments db
                 /\ findById Batch._id (batches db') bid = None).
  { unfold deleteBatch in Hdel.
    destruct (findById Batch._id (batches db) bid) as [b|] eqn:Hfb;
      [|discriminate].
    destruct (notTeacherNorAdmin b user); [discriminate|].
    destruct (findById_key _ _ _ _ Hfb) as [Hid _]. rewrite Hid in Hdel.
    injection Hdel as <-. simpl. split; [reflexivity|]. apply findById_remove. }
  destruct Hpay as [Hpay Hgone]. split; [now rewrite Hpay|].
  unfold getStudentPaymentSummary.
  assert (Hauth : Role_eqb (Req.role viewer) role_student
                  && negb (Nat.eqb (Req.id viewer) s) = false).
  { destruct Hview as [Hrole|Hid].
    - now rewrite (Role_eqb_neq _ _ Hrole).
    - rewrite Hid, Nat.eqb_refl. apply andb_false_r. }
  rewrite Hauth.
  rewrite (summary_fold_missing db' (completedPaymentsOf db' s) p); [reflexivity| |].
  - unfold completedPaymentsOf. rewrite Hpay. apply filter_In. split; [exact Hin|].
    unfold isCompleted. now rewrite Hs, Hst, Nat.eqb_refl.
  - unfold populateBatch. now rewrite Hb, Hgone.
Qed.

(** Batch 10 is deleted after student 2 has paid. *)
Lemma payment_summary_fails_after_deleteBatch_witness :
  getStudentPaymentSummary (snd (deleteBatch aprilPaidDB ledgerAdmin 10)) student2 2
  = Fail (TypeError "Cannot read properties of null").
Proof.
  refine (proj2 (payment_summary_fails_after_deleteBatch aprilPaidDB
                   (snd (deleteBatch aprilPaidDB ledgerAdmin 10))
                   ledgerAdmin student2 10 2
                   (Payment.mk 100 2 10 500 Payment.cash (Some "RCPT-2024-000001")
                      "2024-03" Payment.completed 1)
                   eq_refl _ eq_refl eq_refl eq_refl _)).
  - simpl. auto.
  - now right.
Defined.

(** The summaries on the ledgers of the scenarios. *)
Example summaries_of_the_ledger :
  getAttendanceSummary summaryDB 2 10
  = mkStatusTotals 4 [(Some Attendance.present, 3); (Some Attendance.absent, 1)]
  /\ getPaymentSummary aprilPaidDB 2 10
     = mkPaymentTotals 1000 ["2024-03"; "2024-04"] 2
  /\ getPaymentSummary ledgerDB 2 10 = mkPaymentTotals 0 [] 0.
Proof. repeat split. Qed.

(** ** Updates of a batch *)

(** X15. [updateBatch] accepts a [maxStudents] between 1 and the size of the
    roster: the stored batch then has more students than seats, and every
    add-student call for it is answered 'Batch is full'. *)
Theorem updateBatch_can_exceed_capacity :
  forall (db : DB) (user : Req.user) (id : ObjectId) (b : Batch.t) (m : Q),
    findById Batch._id (batches db) id = Some b ->
    notTeacherNorAdmin b user = false ->
    (1 <= m < inject_Z (Z.of_nat (List.length (Batch.students b))))%Q ->
    exists b' db',
      updateBatch db user id (mkBatchUpdate None None None (Some m) None)
      = (Ok b', db')
      /\ findById Batch._id (batches db') id = Some b'
      /\ Batch.students b' = Batch.students b
      /\ Batch.maxStudents b' = m
      /\ ~ roster_ok b'
      /\ forall s, includes (users db') s = true ->
                   includes (Batch.students b') s = false ->
                   addStudentToBatch db' id (Some s)
                   = (Fail (ErrorResponse "Batch is full" 400), db').
Proof.
  intros db user id b m Hb Hauth [Hlo Hhi].
  unfold updateBatch. rewrite Hb, Hauth. simpl.
  assert (E : Qle_bool 1 m = true) by (now apply Qle_bool_iff). rewrite E.
  simpl.
  destruct (findById_key _ _ _ _ Hb) as [Hid _]. subst id.
  set (b' := Batch.mk (Batch._id b) (Batch.teacher b) (Batch.students b)
               (Batch.fee b) m (Batch.isActive b)).
  assert (Hb' : findById Batch._id (save Batch._id (batches db) b') (Batch._id b)
                = Some b')
    by exact (findById_save_same Batch._id (batches db) b' b Hb).
  exists b'. eexists. split; [reflexivity|]. simpl.
  split; [exact Hb'|]. split; [reflexivity|]. split; [reflexivity|]. split.
  - intros [_ Hle]. simpl in Hle.
    exact (Qlt_irrefl m (Qlt_le_trans _ _ _ Hhi Hle)).
  - intros s Hu Hs. unfold addStudentToBatch. simpl. rewrite Hb', Hu.
    simpl in Hs. simpl. rewrite Hs.
    assert (Hfull : Qle_bool m (inject_Z (Z.of_nat (List.length (Batch.students b))))
                    = true) by (apply Qle_bool_iff, Qlt_le_weak, Hhi).
    now rewrite Hfull.
Qed.

(** The batch with two students is given one seat. *)
Lemma updateBatch_can_exceed_capacity_witness :
  exists b' db',
    updateBatch bulkDB teacher1 10
      (mkBatchUpdate None None None (Some 1%Q) None)
    = (Ok b', db')
    /\ Batch.students b' = [2; 3]%nat
    /\ Batch.maxStudents b' = 1%Q
    /\ ~ roster_ok b'.
Proof.
  destruct (updateBatch_can_exceed_capacity bulkDB teacher1 10
              (Batch.mk 10 1 [2; 3]%nat 500 30 true) 1 eq_refl eq_refl)
    as (b' & db' & H1 & _ & H3 & H4 & H5 & _).
  - split; [discriminate | reflexivity].
  - exists b', db'. auto.
Defined.

(** X16. A teacher who is not an admin can name another user as teacher of the
    own batch; from then on the former teacher's update and delete of that
    batch are answered 403, and the successor is not refused for ownership. *)
Theorem updateBatch_hands_the_batch_over :
  forall (db : DB) (user : Req.user) (id : ObjectId) (b : Batch.t)
         (successor : ObjectId),
    findById Batch._id (batches db) id = Some b ->
    notTeacherNorAdmin b user = false ->
    Req.role user <> role_admin ->
    successor <> Req.id user ->
    exists b' db',
      updateBatch db user id (mkBatchUpdate (Some successor) None None None None)
      = (Ok b', db')
      /\ Batch.teacher b' = successor
      /\ (forall body,
            updateBatch db' user id body
            = (Fail (ErrorResponse "Not authorized to update this batch" 403), db'))
      /\ deleteBatch db' user id
         = (Fail (ErrorResponse "Not authorized to delete this batch" 403), db')
      /\ (forall role body,
            fst (updateBatch db' (Req.mkUser successor role) id body)
            <> Fail (ErrorResponse "Not authorized to update this batch" 403)).
Proof.
  intros db user id b successor Hb Hauth Hrole Hsucc.
  unfold updateBatch at 1. rewrite Hb, Hauth. simpl.
  destruct (findById_key _ _ _ _ Hb) as [Hid _]. subst id.
  set (b' := Batch.mk (Batch._id b) successor (Batch.students b)
               (Batch.fee b) (Batch.maxStudents b) (Batch.isActive b)).
  assert (Hb' : findById Batch._id (save Batch._id (batches db) b') (Batch._id b)
                = Some b')
    by exact (findById_save_same Batch._id (batches db) b' b Hb).
  assert (Hout : notTeacherNorAdmin b' user = true).
  { unfold notTeacherNorAdmin. simpl.
    apply Nat.eqb_neq in Hsucc. rewrite Hsucc.
    now rewrite (Role_eqb_neq _ _ Hrole). }
  exists b'. eexists. split; [reflexivity|]. simpl.
  split; [reflexivity|]. split; [|split].
  - intros body. unfold updateBatch. simpl. now rewrite Hb', Hout.
  - unfold deleteBatch. simpl. now rewrite Hb', Hout.
  - intros role body. unfold updateBatch. simpl. rewrite Hb'.
    unfold notTeacherNorAdmin. simpl. rewrite Nat.eqb_refl. simpl.
    destruct (match new_maxStudents body with
              | Some m => negb (Qle_bool 1 m)
              | None => false
              end); simpl; discriminate.
Qed.

(** Teacher 1 names user 7 as teacher of batch 10. *)
Lemma updateBatch_hands_the_batch_over_witness :
  exists b' db',
    updateBatch bulkDB teacher1 10 (mkBatchUpdate (Some 7%nat) None None None None)
    = (Ok b', db')
    /\ Batch.teacher b' = 7%nat
    /\ deleteBatch db' teacher1 10
       = (Fail (ErrorResponse "Not authorized to delete this batch" 403), db').
Proof.
  destruct (updateBatch_hands_the_batch_over bulkDB teacher1 10
              (Batch.mk 10 1 [2; 3]%nat 500 30 true) 7 eq_refl eq_refl)
    as (b' & db' & H1 & H2 & _ & H4 & _).
  - discriminate.
  - discriminate.
  - exists b', db'. auto.
Defined.

(** ** Uploads *)

Lemma teachesHook_true (db : DB) (batch uploadedBy : ObjectId) :
  teachesHook db batch uploadedBy = true ->
  exists b, In b (batches db) /\ Batch._id b = batch
            /\ Batch.teacher b = uploadedBy.
Proof.
  unfold teachesHook. intros H. apply existsb_exists in H.
  destruct H as [b [Hin Hb]]. apply andb_prop in Hb. destruct Hb as [H1 H2].
  apply Nat.eqb_eq in H1, H2. eauto.
Qed.

Lemma uploadMaterial_fail (db db' : DB) (user : Req.user) (body : MaterialBody.t)
    (files : option (option UploadedFile)) (mvOk : bool) (e : Failure) :
  uploadMaterial db user body files mvOk = (Fail e, db') -> db' = db.
Proof.
  unfold uploadMaterial, Material_create. intros H.
  repeat (break_match H; try discriminate); congruence.
Qed.

(** X17. [uploadMaterial] stores a material only for the teacher of its batch: a
    stored upload names the caller as uploader and as teacher of the batch; a
    failed upload stores no record; and an admin who is not the teacher passes
    the handler's check and is refused by the pre-save hook. *)
Theorem only_the_teacher_uploads :
  forall (db : DB) (user : Req.user) (body : MaterialBody.t)
         (files : option (option UploadedFile)) (mvOk : bool),
    (forall m db',
        uploadMaterial db user body files mvOk = (Ok m, db') ->
        Material.uploadedBy m = Req.id user
        /\ MaterialBody.batch body = Some (Material.batch m)
        /\ (exists b, In b (batches db) /\ Batch._id b = Material.batch m
                      /\ Batch.teacher b = Req.id user)
        /\ materials db' = materials db ++ [m])
    /\ (forall e db',
          uploadMaterial db user body files mvOk = (Fail e, db') -> db' = db)
    /\ (forall id b file,
          batchIdsOk db ->
          MaterialBody.batch body = Some id ->
          findById Batch._id (batches db) id = Some b ->
          Batch.teacher b <> Req.id user ->
          Req.role user = role_admin ->
          isOk (fst (uploadMaterial db user body files mvOk)) = false
          /\ (files = Some (Some file) ->
              existsb (String.eqb (file_mimetype file)) fileTypes = true ->
              file_size file <= 10 * 1024 * 1024 ->
              mvOk = true ->
              Material_validate (MaterialBody.title body)
                                (MaterialBody.description body) = Ok tt ->
              uploadMaterial db user body files mvOk
              = (Fail (Error
                         "Only the assigned teacher can upload materials for this batch"),
                 db))).
Proof.
  intros db user body files mvOk.
  assert (Hok : forall m db',
             uploadMaterial db user body files mvOk = (Ok m, db') ->
             Material.uploadedBy m = Req.id user
             /\ MaterialBody.batch body = Some (Material.batch m)
             /\ (exists b, In b (batches db) /\ Batch._id b = Material.batch m
                           /\ Batch.teacher b = Req.id user)
             /\ materials db' = materials db ++ [m]).
  { intros m db' H. unfold uploadMaterial in H.
    destruct (MaterialBody.batch body) as [bid|]; [|discriminate].
    destruct (findById Batch._id (batches db) bid) as [b|] eqn:Hb; [|discriminate].
    destruct (findById_key _ _ _ _ Hb) as [Hid _].
    destruct (notTeacherNorAdmin b user); [discriminate|].
    destruct files as [[file|]|]; try discriminate.
    destruct (negb (existsb _ _)); [discriminate|].
    destruct (_ >? _); [discriminate|].
    destruct (negb mvOk); [discriminate|].
    unfold Material_create in H.
    destruct (Material_validate _ _); [|discriminate].
    destruct (teachesHook db (Batch._id b) (Req.id user)) eqn:Hhook;
      [|discriminate].
    simpl in H. injection H as <- <-. simpl.
    split; [reflexivity|]. split; [now rewrite Hid|]. split; [|reflexivity].
    now apply teachesHook_true. }
  split; [exact Hok|]. split.
  - intros e db' H. eapply uploadMaterial_fail; eassumption.
  - intros id b file Hids Hbody Hb Hteacher Hadmin.
    assert (Hhook : teachesHook db id (Req.id user) = false).
    { destruct (teachesHook db id (Req.id user)) eqn:E; [|reflexivity].
      apply teachesHook_true in E. destruct E as (b' & Hin & Hid' & Ht).
      destruct (findById_key _ _ _ _ Hb) as [Hid Hinb].
      assert (b' = b).
      { apply (NoDup_map_inj Batch._id (batches db)); auto. congruence. }
      subst b'. contradiction. }
    destruct (findById_key _ _ _ _ Hb) as [Hid _].
    split.
    + destruct (uploadMaterial db user body files mvOk) as [[m|e] db'] eqn:H;
        [|reflexivity].
      exfalso. destruct (Hok m db' eq_refl) as (_ & Hbm & (b' & Hin & Hid' & Ht) & _).
      rewrite Hbody in Hbm. injection Hbm as Hbm.
      assert (E : teachesHook db id (Req.id user) = true).
      { unfold teachesHook. apply existsb_exists. exists b'. split; [exact Hin|].
        rewrite Hid', <- Hbm, Ht, !Nat.eqb_refl. reflexivity. }
      congruence.
    + intros -> Hmime Hsize -> Hvalid. unfold uploadMaterial.
      rewrite Hbody, Hb.
      assert (Hn : notTeacherNorAdmin b user = false)
        by (unfold notTeacherNorAdmin; rewrite Hadmin; apply andb_false_r).
      assert (E : (file_size file >? 10 * 1024 * 1024) = false)
        by (rewrite Z.gtb_ltb; apply Z.ltb_ge; exact Hsize).
      rewrite Hn, Hmime, E. cbn [negb]. unfold Material_create.
      rewrite Hvalid, Hid, Hhook. reflexivity.
Qed.

(** The script is stored for the teacher, not for an admin, not without a
    file, and not under a title of blanks. *)
Example uploads_of_the_script :
  isOk (fst (uploadMaterial cascadeDB teacher1 scriptBody (Some (Some scriptFile))
                            true)) = true
  /\ fst (uploadMaterial cascadeDB (Req.mkUser 9 role_admin) scriptBody
                         (Some (Some scriptFile)) true)
     = Fail (Error "Only the assigned teacher can upload materials for this batch")
  /\ fst (uploadMaterial cascadeDB teacher1 scriptBody None true)
     = Fail (ErrorResponse "Please upload a file" 400)
  /\ fst (uploadMaterial cascadeDB teacher1
            (MaterialBody.mk (Some "   ") None (Some 10%nat) None)
            (Some (Some scriptFile)) true)
     = Fail (ValidationError "Please provide material title").
Proof. repeat split. Qed.

(** X18. The upload filter of the materials router tests MIME type and extension
    for an occurrence of one of its words: of the six MIME types that
    [uploadMaterial] accepts, it lets pass PDF and the two Office Open XML
    types only, whatever the extension. *)
Theorem upload_filter_refuses_listed_types :
  forall (extension mimetype : string),
    In mimetype fileTypes ->
    fileFilter extension mimetype = true ->
    In mimetype
       ["application/pdf";
        "application/vnd.openxmlformats-officedocument.wordprocessingml.document";
        "application/vnd.openxmlformats-officedocument.presentationml.presentation"].
Proof.
  intros extension mimetype Hin H. unfold fileFilter in H.
  apply andb_prop in H. destruct H as [Hm _].
  unfold fileTypes in Hin. simpl in Hin.
  destruct Hin as [<-|[<-|[<-|[<-|[<-|[<-|[]]]]]]];
    try (vm_compute in Hm; discriminate); simpl; auto.
Qed.

(** A PDF passes. *)
Lemma upload_filter_refuses_listed_types_witness :
  In "application/pdf"
     ["application/pdf";
      "application/vnd.openxmlformats-officedocument.wordprocessingml.document";
      "application/vnd.openxmlformats-officedocument.presentationml.presentation"].
Proof.
  apply (upload_filter_refuses_listed_types ".PDF" "application/pdf").
  - simpl. auto.
  - reflexivity.
Defined.

(** ** The middlewares and the routers *)

Lemma split_without (sep : ascii) (s : string) :
  contains sep s = false -> split sep s = [s].
Proof.
  induction s as [|c s IH]; simpl; [reflexivity|].
  intros H. apply orb_false_iff in H. destruct H as [Hc Hs].
  rewrite Hc, (IH Hs). reflexivity.
Qed.

(** X19. The header the client sets for a token without a space, 'Bearer ' and the
    token, gives [protect] that token back, whatever the cookie; [protect]
    then answers by the verification of the token and the lookup of its
    user. *)
Theorem bearer_token_round_trip :
  forall (token : string) (cookie : option string),
    token <> "" ->
    contains " " token = false ->
    tokenOf (mkRequest (Some (bearer token)) cookie) = Some token
    /\ forall verify accounts,
         protect verify accounts (mkRequest (Some (bearer token)) cookie)
         = match verify token with
           | None => Fail (ErrorResponse "Not authorized to access this route" 401)
           | Some id =>
               match find (fun u => Nat.eqb (Req.id u) id) accounts with
               | None => Fail (ErrorResponse "User not found" 404)
               | Some user => Ok user
               end
           end.
Proof.
  intros token cookie Hne Hsp.
  assert (Ht : tokenOf (mkRequest (Some (bearer token)) cookie) = Some token).
  { unfold tokenOf, bearer. simpl. now rewrite (split_without _ _ Hsp). }
  split; [exact Ht|]. intros verify accounts. unfold protect. rewrite Ht. simpl.
  destruct (String.eqb token "") eqn:E; [|reflexivity].
  apply String.eqb_eq in E. contradiction.
Qed.

(** A token of three parts, and a stale cookie. *)
Lemma bearer_token_round_trip_witness :
  tokenOf (mkRequest (Some (bearer "header.payload.signature")) (Some "stale"))
  = Some "header.payload.signature".
Proof.
  refine (proj1 (bearer_token_round_trip "header.payload.signature" (Some "stale")
                   _ eq_refl)).
  discriminate.
Defined.

(** A header that starts with Bearer hides the cookie, also when it carries
    no token. *)
Lemma header_hides_the_cookie :
  forall (header : string) (cookie : option string),
    prefix "Bearer" header = true ->
    tokenOf (mkRequest (Some header) cookie)
    = nth_error (split " " header) 1
    /\ (contains " " header = false ->
        forall verify accounts,
          protect verify accounts (mkRequest (Some header) cookie)
          = Fail (ErrorResponse "Not authorized to access this route" 401)).
Proof.
  intros header cookie Hp.
  assert (Ht : tokenOf (mkRequest (Some header) cookie)
               = nth_error (split " " header) 1).
  { unfold tokenOf. simpl. rewrite Hp.
    destruct header as [|c h]; [discriminate|]. reflexivity. }
  split; [exact Ht|]. intros Hsp verify accounts. unfold protect.
  rewrite Ht, (split_without _ _ Hsp). reflexivity.
Qed.

Lemma differs_false (uid : ObjectId) (f : option ObjectId) :
  differs uid f = false <-> f = None \/ f = Some uid.
Proof.
  destruct f as [v|]; simpl.
  - rewrite negb_false_iff, Nat.eqb_eq. split.
    + intros ->. now right.
    + intros [H|H]; congruence.
  - split; auto.
Qed.

(** X20. [checkOwnership] lets a user through exactly when the resource exists
    and the user is an admin or every owner path the resource has ([user],
    [student], [teacher], [uploadedBy], [assignedBy], [recordedBy]) names
    the user. *)
Theorem checkOwnership_wants_every_owner_path :
  forall (found : option Resource) (user : Req.user) (r : Resource),
    checkOwnership found user = Ok r
    <-> found = Some r
        /\ (Req.role user = role_admin
            \/ forall field, In field (res_user r :: ownerFields r) ->
                             field = None \/ field = Some (Req.id user)).
Proof.
  intros found user r. unfold checkOwnership.
  destruct found as [resource|]; [|split; [discriminate | intros [H _]; discriminate]].
  destruct (Role_eqb (Req.role user) role_admin) eqn:Hrole.
  - assert (Hadmin : Req.role user = role_admin)
      by (destruct (Req.role user); simpl in Hrole; congruence).
    cbn [negb]. rewrite !andb_false_r.
    destruct (find (differs (Req.id user)) (ownerFields resource));
      rewrite ?andb_false_r;
      (split; [intros [= ->]; auto | intros [[= ->] _]; reflexivity]).
  - assert (Hnot : Req.role user <> role_admin)
      by (intros E; rewrite E in Hrole; discriminate).
    cbn [negb]. rewrite !andb_true_r.
    destruct (differs (Req.id user) (res_user resource)) eqn:Hu.
    + split; [discriminate|]. intros [[= ->] [H|H]]; [contradiction|].
      specialize (H (res_user r) (or_introl eq_refl)).
      apply differs_false in H. congruence.
    + destruct (find (differs (Req.id user)) (ownerFields resource))
        as [f|] eqn:Hf.
      * apply find_some in Hf. destruct Hf as [Hin Hd].
        rewrite andb_true_r, Hd.
        split; [discriminate|]. intros [[= ->] [H|H]]; [contradiction|].
        specialize (H f (or_intror Hin)). apply differs_false in H. congruence.
      * split.
        -- intros [= ->]. split; [reflexivity|]. right.
           intros field [<-|Hin]; apply differs_false; [exact Hu|].
           exact (find_none _ _ Hf field Hin).
        -- intros [[= ->] _]. reflexivity.
Qed.

(** X21. [checkEnrollment] lets no request through: its module does not bind
    [Batch], so the lookup throws and the error goes to [next]. *)
Theorem checkEnrollment_lets_nobody_through :
  forall (db : DB) (user : Req.user) (batchId : ObjectId),
    checkEnrollment db user batchId
    = Fail (ReferenceError "Batch is not defined").
Proof. reflexivity. Qed.

(** X22. [GET /api/users/:id/batches] behind the users router: an answer goes to
    an admin only, and lists every batch, whatever the id in the path. *)
Theorem users_router_lists_every_batch :
  forall (verify : string -> option ObjectId) (accounts : list Req.user)
         (db : DB) (req : Request) (id : ObjectId) (rows : list BatchRef),
    GET_users_id_batches verify accounts db req id = Ok rows ->
    rows = map (fun b => mkBatchRef (Batch._id b) (Batch.fee b)) (batches db)
    /\ exists admin, protect verify accounts req = Ok admin
                     /\ Req.role admin = role_admin.
Proof.
  intros verify accounts db req id rows H. unfold GET_users_id_batches in H.
  simpl in H.
  destruct (protect verify accounts req) as [user|] eqn:Hp; [|discriminate].
  unfold authorize in H. simpl in H. rewrite orb_false_r in H.
  destruct (Role_eqb (Req.role user) role_admin) eqn:Hrole; [|discriminate].
  simpl in H. unfold getUserBatches in H. rewrite Hrole, andb_false_r in H.
  assert (Hadmin : Req.role user = role_admin)
    by (destruct (Req.role user); simpl in Hrole; congruence).
  rewrite Hadmin in H. injection H as <-. split; [reflexivity|]. eauto.
Qed.

(** The admin asks for the batches of user 2. *)
Lemma users_router_lists_every_batch_witness :
  [mkBatchRef 10 500; mkBatchRef 11 400]
  = map (fun b => mkBatchRef (Batch._id b) (Batch.fee b)) (batches cascadeDB)
  /\ exists admin,
       protect verifyToken adminAccounts
         (mkRequest (Some (bearer "header.payload.signature")) None) = Ok admin
       /\ Req.role admin = role_admin.
Proof.
  exact (users_router_lists_every_batch verifyToken adminAccounts cascadeDB
           (mkRequest (Some (bearer "header.payload.signature")) None) 2
           [mkBatchRef 10 500; mkBatchRef 11 400] eq_refl).
Defined.

(** X14. The route [GET /api/assignments/:id] runs [getAssignment] with no
    middleware in front, so [req.user] is not set: the route never answers
    with an assignment, and for an active assignment of an existing batch the
    handler throws on [req.user.role]. *)
Theorem assignment_route_has_no_user :
  forall (verify : string -> option ObjectId) (accounts : list Req.user)
         (db : DB) (req : Request) (id : ObjectId),
    isOk (GET_assignments_id verify accounts db req id) = false
    /\ forall stored batch,
         findById Assignment._id (assignments db) id = Some stored ->
         Assignment.isActive stored = true ->
         findById Batch._id (batches db) (Assignment.batch stored) = Some batch ->
         GET_assignments_id verify accounts db req id
         = Fail (TypeError "Cannot read properties of undefined").
Proof.
  intros verify accounts db req id. unfold GET_assignments_id. simpl.
  unfold getAssignment. split.
  - destruct (findById Assignment._id (assignments db) id) as [a|]; [|reflexivity].
    destruct (negb (Assignment.isActive a)); [reflexivity|].
    destruct (findById Batch._id (batches db) (Assignment.batch a)); reflexivity.
  - intros stored batch -> -> ->. reflexivity.
Qed.

(** A payment recorded by teacher 1 for student 2 passes for neither of
    them. *)
Example ownership_of_a_payment :
  let p := Payment.mk 100 2 10 500 Payment.cash None "2024-03" Payment.completed 1 in
  isOk (checkOwnership (Some (Payment_resource p)) student2) = false
  /\ isOk (checkOwnership (Some (Payment_resource p)) teacher1) = false
  /\ isOk (checkOwnership (Some (Payment_resource p)) ledgerAdmin) = true
  /\ isOk (checkOwnership (Some (Batch_resource scenarioBatch)) teacher1) = true.
Proof. repeat split. Qed.

(** ** Users *)

Lemma Role_eqb_eq (a b : Role) : Role_eqb a b = true <-> a = b.
Proof. destruct a, b; simpl; split; congruence. Qed.

Lemma save_twice {D} (key : D -> ObjectId) (c : list D) (d d' : D) :
  key d' = key d -> save key (save key c d) d' = save key c d'.
Proof.
  intros E. induction c as [|x c IH]; simpl; [reflexivity|]. rewrite E.
  destruct (Nat.eqb (key x) (key d)) eqn:Hx; simpl.
  - now rewrite E, Nat.eqb_refl.
  - rewrite E, Hx. f_equal. exact IH.
Qed.

(** X24. [toggleUserStatus] flips [isActive] of another user and stamps
    [updatedAt]; a second call gives the user [isActive] back, so that the
    collection is the one before the two calls but for the [updatedAt] of this
    user.  On the caller's own account it answers 400, or 404 without such a
    user, and changes nothing. *)
Theorem toggleUserStatus_twice :
  forall (users : list User.t) (admin : Req.user) (id : ObjectId)
         (now1 now2 : Z) (u1 : User.t) (users1 : list User.t),
    toggleUserStatus users admin id now1 = (Ok u1, users1) ->
    id <> Req.id admin
    /\ (exists u,
          findById User._id users id = Some u
          /\ u1 = User.mk id (User.role u) (negb (User.isActive u))
                     (User.createdAt u) now1
          /\ findById User._id users1 id = Some u1
          /\ toggleUserStatus users1 admin id now2
             = (Ok (User.with_updatedAt u now2),
                save User._id users (User.with_updatedAt u now2)))
    /\ toggleUserStatus users admin (Req.id admin) now1
       = (match findById User._id users (Req.id admin) with
          | Some _ => Fail (ErrorResponse "You cannot deactivate your own account" 400)
          | None => Fail (ErrorResponse "User not found" 404)
          end, users).
Proof.
  intros users admin id now1 now2 u1 users1 H. unfold toggleUserStatus in H.
  destruct (findById User._id users id) as [u|] eqn:Hu; [|discriminate].
  destruct (findById_key _ _ _ _ Hu) as [Hid _].
  destruct (Nat.eqb (User._id u) (Req.id admin)) eqn:Hself; [discriminate|].
  injection H as <- <-. apply Nat.eqb_neq in Hself.
  set (u' := User.mk (User._id u) (User.role u) (negb (User.isActive u))
               (User.createdAt u) now1).
  assert (Hu' : findById User._id (save User._id users u') id = Some u').
  { rewrite <- Hid in *.
    exact (findById_save_same User._id users u' u Hu). }
  split; [congruence|]. split.
  - exists u. split; [reflexivity|]. split; [unfold u'; now rewrite Hid|].
    split; [exact Hu'|].
    unfold toggleUserStatus. rewrite Hu'. simpl.
    apply Nat.eqb_neq in Hself. rewrite Hself.
    rewrite negb_involutive. f_equal.
    apply save_twice. reflexivity.
  - unfold toggleUserStatus.
    destruct (findById User._id users (Req.id admin)) as [me|] eqn:Hme;
      [|reflexivity].
    destruct (findById_key _ _ _ _ Hme) as [Hmid _].
    now rewrite Hmid, Nat.eqb_refl.
Qed.

(** The admin activates the account of user 3 at time 2000 and deactivates
    it again at 3000. *)
Lemma toggleUserStatus_twice_witness :
  toggleUserStatus (snd (toggleUserStatus staff ledgerAdmin 3 2000))
                   ledgerAdmin 3 3000
  = (Ok (User.mk 3 role_student false 0 3000),
     [User.mk 1 role_admin true 0 0;
      User.mk 7 role_teacher true 5000000000 5000000000;
      User.mk 2 role_student true 5000000000 5000000000;
      User.mk 3 role_student false 0 3000]).
Proof.
  destruct (toggleUserStatus_twice staff ledgerAdmin 3 2000 3000
              (User.mk 3 role_student true 0 2000)
              (snd (toggleUserStatus staff ledgerAdmin 3 2000)) eq_refl)
    as (_ & (u & Hu & _ & _ & H) & _).
  injection Hu as <-. exact H.
Defined.

(** *** User statistics *)

Lemma ofRole_snoc (r : Role) (l : list User.t) (u : User.t) :
  ofRole r (l ++ [u])
  = ofRole r l ++ (if Role_eqb (User.role u) r then [u] else []).
Proof. unfold ofRole. rewrite filter_app. reflexivity. Qed.

Lemma countOf_app (f : User.t -> bool) (l l' : list User.t) :
  countOf f (l ++ l') = countOf f l + countOf f l'.
Proof. unfold countOf. rewrite filter_app, length_app. lia. Qed.

Lemma countOf_single (f : User.t -> bool) (u : User.t) :
  countOf f [u] = cond (f u).
Proof. unfold countOf. simpl. now destruct (f u). Qed.

Lemma countOf_split (f : User.t -> bool) (l : list User.t) :
  countOf f l + countOf (fun u => negb (f u)) l = countOf (fun _ => true) l
  /\ 0 <= countOf f l <= countOf (fun _ => true) l.
Proof.
  unfold countOf.
  induction l as [|u l [IH1 IH2]]; cbn [filter List.length]; [lia|].
  destruct (f u); cbn [negb List.length]; rewrite ?Nat2Z.inj_succ; lia.
Qed.

Lemma rowOf_other (since : Z) (l : list User.t) (u : User.t) (r : RoleStats) :
  Role_eqb (stat_role r) (User.role u) = false ->
  rowOf since l r -> rowOf since (l ++ [u]) r.
Proof.
  intros Hne. unfold rowOf. rewrite ofRole_snoc.
  assert (E : Role_eqb (User.role u) (stat_role r) = false)
    by (destruct (User.role u), (stat_role r); simpl in *; congruence).
  rewrite E, app_nil_r. tauto.
Qed.

Lemma Role_eqb_sym (a b : Role) : Role_eqb a b = Role_eqb b a.
Proof. destruct a, b; reflexivity. Qed.

Lemma addUser_rows (since : Z) (l : list User.t) (u : User.t) (g : list RoleStats) :
  NoDup (map stat_role g) ->
  Forall (rowOf since l) g ->
  ofRole (User.role u) l = [] \/ In (User.role u) (map stat_role g) ->
  Forall (rowOf since (l ++ [u])) (addUser since u g).
Proof.
  intros Hnd H. induction H as [|r g Hr Hg IH]; intros Hcov; simpl.
  - destruct Hcov as [Hnone|[]]. constructor; [|constructor].
    unfold rowOf. simpl. rewrite ofRole_snoc, Hnone.
    assert (E : Role_eqb (User.role u) (User.role u) = true)
      by now apply Role_eqb_eq.
    rewrite E. simpl app. rewrite !countOf_single. unfold cond at 1 5.
    repeat split; lia.
  - inversion Hnd as [|? ? Hrg Hnd']; subst.
    destruct (Role_eqb (stat_role r) (User.role u)) eqn:E.
    + apply Role_eqb_eq in E. constructor.
      * destruct Hr as (H1 & H2 & H3 & H4 & H5). unfold rowOf. simpl.
        rewrite ofRole_snoc, E.
        assert (E' : Role_eqb (User.role u) (User.role u) = true)
          by now apply Role_eqb_eq.
        rewrite E', !countOf_app, !countOf_single. rewrite E in H1, H2, H3, H4.
        rewrite H1, H2, H3, H4.
        pose proof (proj2 (countOf_split (fun _ => true)
                             (ofRole (User.role u) l))) as Hpos.
        unfold cond at 1. repeat split; lia.
      * apply Forall_forall. intros x Hx.
        apply rowOf_other; [|exact (proj1 (Forall_forall _ _) Hg x Hx)].
        destruct (Role_eqb (stat_role x) (User.role u)) eqn:Ex; [|reflexivity].
        apply Role_eqb_eq in Ex. exfalso. apply Hrg. rewrite E, <- Ex.
        now apply in_map.
    + constructor; [now apply rowOf_other|]. apply IH; [exact Hnd'|].
      destruct Hcov as [Hnone|[Hin|Hin]]; auto.
      rewrite Hin in E. assert (Role_eqb (User.role u) (User.role u) = true)
        by now apply Role_eqb_eq. congruence.
Qed.

Lemma In_addUser (since : Z) (u : User.t) (g : list RoleStats) (r : Role) :
  In r (map stat_role (addUser since u g))
  <-> r = User.role u \/ In r (map stat_role g).
Proof.
  induction g as [|x g IH]; simpl; [intuition auto|].
  destruct (Role_eqb (stat_role x) (User.role u)) eqn:E; simpl.
  - apply Role_eqb_eq in E. rewrite E. intuition auto.
  - rewrite IH. intuition auto.
Qed.

Lemma NoDup_addUser (since : Z) (u : User.t) (g : list RoleStats) :
  NoDup (map stat_role g) -> NoDup (map stat_role (addUser since u g)).
Proof.
  induction g as [|x g IH]; simpl; intros H.
  - constructor; [simpl; tauto | constructor].
  - inversion H as [|? ? Hx Hg]; subst.
    destruct (Role_eqb (stat_role x) (User.role u)) eqn:E; simpl;
      [now constructor|].
    constructor; [|auto]. rewrite In_addUser. intros [Hr|Hin]; [|tauto].
    rewrite Hr in E. assert (Role_eqb (User.role u) (User.role u) = true)
      by now apply Role_eqb_eq. congruence.
Qed.

Lemma count_addUser (since : Z) (u : User.t) (g : list RoleStats) :
  sumOf stat_count (addUser since u g) = sumOf stat_count g + 1.
Proof.
  induction g as [|x g IH]; simpl; [reflexivity|].
  destruct (Role_eqb (stat_role x) (User.role u)); simpl; lia.
Qed.

(** The rows [$group] builds from the users. *)
Lemma groupedUsers (since : Z) (us : list User.t) :
  forall (l0 : list User.t) (g : list RoleStats),
    NoDup (map stat_role g) ->
    Forall (rowOf since l0) g ->
    (forall r, ofRole r l0 = [] \/ In r (map stat_role g)) ->
    (forall r, In r (map stat_role g) -> ofRole r l0 <> []) ->
    sumOf stat_count g = Z.of_nat (List.length l0) ->
    let g' := fold_left (fun g u => addUser since u g) us g in
    NoDup (map stat_role g')
    /\ Forall (rowOf since (l0 ++ us)) g'
    /\ (forall r, In r (map stat_role g') <-> ofRole r (l0 ++ us) <> [])
    /\ sumOf stat_count g' = Z.of_nat (List.length (l0 ++ us)).
Proof.
  induction us as [|u us IH]; intros l0 g Hnd Hrows Hcov Hsound Hsum; simpl.
  - rewrite app_nil_r. repeat split; auto.
    intros Hne. destruct (Hcov r); [contradiction | assumption].
  - replace (l0 ++ u :: us) with ((l0 ++ [u]) ++ us)
      by (rewrite <- app_assoc; reflexivity).
    apply IH.
    + now apply NoDup_addUser.
    + apply addUser_rows; auto.
    + intros r. rewrite In_addUser, ofRole_snoc.
      destruct (Hcov r) as [Hnone|Hin]; [|auto].
      destruct (Role_eqb (User.role u) r) eqn:E.
      * apply Role_eqb_eq in E. auto.
      * left. now rewrite Hnone.
    + intros r. rewrite In_addUser, ofRole_snoc. intros [->|Hin].
      * assert (E : Role_eqb (User.role u) (User.role u) = true)
          by now apply Role_eqb_eq.
        rewrite E. intros Habs. apply app_eq_nil in Habs.
        destruct Habs. discriminate.
      * intros Habs. apply app_eq_nil in Habs. destruct Habs as [Habs _].
        now apply (Hsound r Hin).
    + rewrite count_addUser, Hsum, length_app. simpl. lia.
Qed.

Lemma In_insertRow (r x : RoleStats) (l : list RoleStats) :
  In x (insertRow r l) <-> x = r \/ In x l.
Proof.
  induction l as [|y l IH]; simpl; [intuition auto|].
  destruct (Nat.leb _ _); simpl; [intuition auto|]. rewrite IH. intuition auto.
Qed.

Lemma In_sortRows (x : RoleStats) (l : list RoleStats) :
  In x (sortRows l) <-> In x l.
Proof.
  unfold sortRows. induction l as [|y l IH]; simpl; [tauto|].
  rewrite In_insertRow, IH. intuition auto.
Qed.

Lemma count_insertRow (r : RoleStats) (l : list RoleStats) :
  sumOf stat_count (insertRow r l) = stat_count r + sumOf stat_count l.
Proof.
  induction l as [|y l IH]; simpl; [reflexivity|].
  destruct (Nat.leb _ _); simpl; lia.
Qed.

Lemma count_sortRows (l : list RoleStats) :
  sumOf stat_count (sortRows l) = sumOf stat_count l.
Proof.
  unfold sortRows. induction l as [|y l IH]; simpl; [reflexivity|].
  now rewrite count_insertRow, IH.
Qed.

Lemma roleRank_inj (a b : Role) : roleRank a = roleRank b -> a = b.
Proof. destruct a, b; simpl; congruence. Qed.

Lemma ascending_insertRow (r : RoleStats) (l : list RoleStats) :
  ascending l ->
  ~ In (stat_role r) (map stat_role l) ->
  ascending (insertRow r l).
Proof.
  induction l as [|x l IH]; simpl; intros Hl Hr.
  - split; [constructor | exact I].
  - destruct Hl as [Hx Hl].
    assert (Hne : roleRank (stat_role r) <> roleRank (stat_role x)).
    { intros E. apply roleRank_inj in E. apply Hr. now left. }
    destruct (Nat.leb (roleRank (stat_role r)) (roleRank (stat_role x))) eqn:E;
      simpl.
    + apply Nat.leb_le in E. split; [|split; assumption].
      constructor; [lia|]. eapply Forall_impl; [|exact Hx]. simpl. lia.
    + apply Nat.leb_gt in E. split.
      * apply Forall_forall. intros y Hy. apply In_insertRow in Hy.
        destruct Hy as [->|Hy]; [lia|].
        exact (proj1 (Forall_forall _ _) Hx y Hy).
      * apply IH; [exact Hl|tauto].
Qed.

Lemma ascending_sortRows (l : list RoleStats) :
  NoDup (map stat_role l) -> ascending (sortRows l).
Proof.
  unfold sortRows. induction l as [|x l IH]; simpl; intros H; [exact I|].
  inversion H as [|? ? Hx Hl]; subst.
  apply ascending_insertRow; [now apply IH|].
  intros Hin. apply Hx. apply in_map_iff in Hin. destruct Hin as [y [Ey Hy]].
  change (fold_right insertRow [] l) with (sortRows l) in Hy.
  apply (proj1 (In_sortRows _ _)) in Hy. apply in_map_iff. eauto.
Qed.

(** X23. [getUserStats]: one row per role that has users, in ascending order of
    role name; each row counts the users of its role, [active] and
    [inactive] add up to [count], [lastMonth] lies between 0 and [count], and
    the counts add up to the number of users. *)
Theorem user_statistics_add_up :
  forall (users : list User.t) (now : Z),
    let rows := getUserStats users now in
    let since := now - 30 * 24 * 60 * 60 * 1000 in
    Forall (rowOf since users) rows
    /\ Forall (fun r => stat_active r + stat_inactive r = stat_count r
                        /\ 0 <= stat_lastMonth r <= stat_count r) rows
    /\ (forall role, In role (map stat_role rows) <-> ofRole role users <> [])
    /\ sumOf stat_count rows = Z.of_nat (List.length users)
    /\ ascending rows.
Proof.
  intros users now rows since.
  destruct (groupedUsers since users [] [] (NoDup_nil _) (Forall_nil _)
              (fun r => or_introl eq_refl)
              (fun r (H : In r []) => match H with end) eq_refl)
    as (Hnd & Hrows & Hcov & Hsum).
  simpl app in *. fold since in rows.
  set (g := fold_left (fun g u => addUser since u g) users []) in *.
  assert (Hsorted : rows = sortRows g) by reflexivity.
  clearbody rows g. subst rows.
  assert (Hall : Forall (rowOf since users) (sortRows g)).
  { apply Forall_forall. intros x Hx. apply (proj1 (In_sortRows _ _)) in Hx.
    exact (proj1 (Forall_forall _ _) Hrows x Hx). }
  split; [exact Hall|]. split; [|split; [|split]].
  - eapply Forall_impl; [|exact Hall]. intros r (H1 & H2 & H3 & H4 & _).
    rewrite H1, H2, H3, H4. split.
    + apply (countOf_split User.isActive).
    + apply (countOf_split (fun u => User.createdAt u >? since)).
  - intros role. rewrite <- Hcov.
    rewrite !in_map_iff. split; intros [x [Ex Hx]]; exists x;
      (split; [exact Ex|]); now apply In_sortRows.
  - now rewrite count_sortRows.
  - now apply ascending_sortRows.
Qed.

(** The statistics of four users at [now = 6000000000]. *)
Example statistics_of_the_staff :
  getUserStats staff 6000000000
  = [mkRoleStats role_admin 1 1 0 0; mkRoleStats role_student 2 1 1 1;
     mkRoleStats role_teacher 1 1 0 1].
Proof. reflexivity. Qed.
